(** * NLP_Calendar: the event extractor and the calendar record builder

    A shallow embedding of [CalendarApp.py] (the desktop application) and of
    [Test.py] (the command-line prototype), with the parts of the Python
    runtime the two builders rely on: [datetime] arithmetic, the
    [strptime] directives they use over Unicode text, and the [icalendar]
    component API. *)

From Stdlib Require Import ZArith List String Ascii Bool Lia.
From stdpp Require Import base option list strings gmap.

Set Warnings "-register-all".

Local Open Scope string_scope.
Local Open Scope list_scope.
Local Open Scope Z_scope.

(** ** Python exceptions and the result of a call *)

Module Py.

(** The exception classes that can reach the handlers of [generate_ics].
    [OSError] is what Python 3 calls [IOError]; [ZoneInfoNotFoundError] is a
    [KeyError]; [OtherError] stands for whatever the service client raises. *)
Inductive exn : Type :=
| ValueError
| TypeError
| OverflowError
| OSError
| ZoneInfoNotFoundError
| OtherError.

Inductive result (A : Type) : Type :=
| Ok (a : A)
| Raise (e : exn).

Arguments Ok {A} a.
Arguments Raise {A} e.

Definition bind {A B} (m : result A) (k : A -> result B) : result B :=
  match m with
  | Ok a => k a
  | Raise e => Raise e
  end.

Definition raises {A} (m : result A) (e : exn) : Prop := m = Raise e.

Definition succeeds {A} (m : result A) : Prop := exists a, m = Ok a.

Definition is_ok {A} (m : result A) : bool :=
  match m with Ok _ => true | Raise _ => false end.

(** Truth value of an optional string: [None] and [""] are false. *)
Definition truthy (o : option string) : bool :=
  match o with
  | Some s => negb (String.eqb s "")
  | None => false
  end.

(** [a or b] on an optional string and a string. *)
Definition or_else (o : option string) (d : string) : string :=
  match o with
  | Some s => if String.eqb s "" then d else s
  | None => d
  end.

End Py.

Export Py.

Declare Scope py_scope.
Delimit Scope py_scope with py.
Notation "'try!' x := m 'in' k" := (Py.bind m (fun x => k))
  (at level 10, x name, m at level 100, k at level 200) : py_scope.
Local Open Scope py_scope.

(** ** [datetime]: proleptic Gregorian dates, ordinals and time deltas

    Follows CPython's [_pydatetime.py]. *)

Module Datetime.

Record date : Type := mkdate { year : Z; month : Z; day : Z }.

Record datetime : Type := mkdatetime {
  dt_date : date;
  hour : Z;
  minute : Z;
  second : Z;
  tzinfo : option string
}.

Record time : Type := mktime { t_hour : Z; t_minute : Z; t_second : Z }.

(** A normalised [timedelta]: [0 <= td_seconds < 86400]. *)
Record timedelta : Type := mktimedelta { td_days : Z; td_seconds : Z }.

Definition MINYEAR : Z := 1.
Definition MAXYEAR : Z := 9999.
Definition _MAXORDINAL : Z := 3652059.

Definition _DI400Y : Z := 146097.
Definition _DI100Y : Z := 36524.
Definition _DI4Y : Z := 1461.

Definition _is_leap (y : Z) : bool :=
  (y mod 4 =? 0) && (negb (y mod 100 =? 0) || (y mod 400 =? 0)).

Definition _DAYS_IN_MONTH : list Z :=
  [-1; 31; 28; 31; 30; 31; 30; 31; 31; 30; 31; 30; 31].

Definition _DAYS_BEFORE_MONTH : list Z :=
  [-1; 0; 31; 59; 90; 120; 151; 181; 212; 243; 273; 304; 334].

Definition table (t : list Z) (i : Z) : Z := nth (Z.to_nat i) t (-1).

Definition b2z (b : bool) : Z := if b then 1 else 0.

Definition _days_before_year (y : Z) : Z :=
  let y := y - 1 in y * 365 + y / 4 - y / 100 + y / 400.

Definition _days_in_month (y m : Z) : Z :=
  if (m =? 2) && _is_leap y then 29 else table _DAYS_IN_MONTH m.

Definition _days_before_month (y m : Z) : Z :=
  table _DAYS_BEFORE_MONTH m + b2z ((2 <? m) && _is_leap y).

Definition _ymd2ord (y m d : Z) : Z :=
  _days_before_year y + _days_before_month y m + d.

Definition _ord2ymd (n : Z) : date :=
  let n := n - 1 in
  let n400 := n / _DI400Y in
  let n := n mod _DI400Y in
  let n100 := n / _DI100Y in
  let n := n mod _DI100Y in
  let n4 := n / _DI4Y in
  let n := n mod _DI4Y in
  let n1 := n / 365 in
  let n := n mod 365 in
  let y := n400 * 400 + 1 + n100 * 100 + n4 * 4 + n1 in
  if (n1 =? 4) || (n100 =? 4) then mkdate (y - 1) 12 31
  else
    let leapyear := (n1 =? 3) && (negb (n4 =? 24) || (n100 =? 3)) in
    let m := Z.shiftr (n + 50) 5 in
    let preceding := table _DAYS_BEFORE_MONTH m + b2z ((2 <? m) && leapyear) in
    if n <? preceding then
      let m := m - 1 in
      let preceding :=
        preceding - (table _DAYS_IN_MONTH m + b2z ((m =? 2) && leapyear)) in
      mkdate y m (n - preceding + 1)
    else mkdate y m (n - preceding + 1).

(** [_check_date_fields]: the constructor of [date] raises [ValueError]
    outside these bounds. *)
Definition valid_date (d : date) : bool :=
  (MINYEAR <=? year d) && (year d <=? MAXYEAR) &&
  (1 <=? month d) && (month d <=? 12) &&
  (1 <=? day d) && (day d <=? _days_in_month (year d) (month d)).

Definition new_date (y m d : Z) : result date :=
  if valid_date (mkdate y m d) then Ok (mkdate y m d) else Raise ValueError.

Definition toordinal (d : date) : Z := _ymd2ord (year d) (month d) (day d).

Definition fromordinal (n : Z) : date := _ord2ymd n.

Definition days (n : Z) : timedelta := mktimedelta n 0.

Definition hours (n : Z) : timedelta :=
  mktimedelta ((n * 3600) / 86400) ((n * 3600) mod 86400).

(** [date.__add__] *)
Definition date_add (d : date) (delta : timedelta) : result date :=
  let o := toordinal d + td_days delta in
  if (0 <? o) && (o <=? _MAXORDINAL) then Ok (fromordinal o)
  else Raise OverflowError.

(** [datetime.__add__]: the sum is normalised as a [timedelta] counted from
    ordinal 0 and split again into a date and a time of day. *)
Definition datetime_add (t : datetime) (delta : timedelta) : result datetime :=
  let secs := hour t * 3600 + minute t * 60 + second t + td_seconds delta in
  let ddays := toordinal (dt_date t) + td_days delta + secs / 86400 in
  let dsecs := secs mod 86400 in
  let h := dsecs / 3600 in
  let rem := dsecs mod 3600 in
  if (0 <? ddays) && (ddays <=? _MAXORDINAL) then
    Ok (mkdatetime (fromordinal ddays) h (rem / 60) (rem mod 60) (tzinfo t))
  else Raise OverflowError.

Definition combine (d : date) (t : time) : datetime :=
  mkdatetime d (t_hour t) (t_minute t) (t_second t) None.

Definition date_of (t : datetime) : date := dt_date t.

Definition time_of (t : datetime) : time :=
  mktime (hour t) (minute t) (second t).

(** [datetime.replace(tzinfo=...)] *)
Definition replace_tzinfo (t : datetime) (tz : string) : datetime :=
  mkdatetime (dt_date t) (hour t) (minute t) (second t) (Some tz).

(** Seconds elapsed since the midnight that starts ordinal 0: the position of
    a wall-clock reading on the time line of its own zone. *)
Definition timeline (t : datetime) : Z :=
  toordinal (dt_date t) * 86400 + hour t * 3600 + minute t * 60 + second t.

End Datetime.

Export Datetime.

(** ** Text: bytes, code points and the character classes of Python

    A Python [str] is a sequence of code points.  The model keeps a [str]
    as the [string] of its UTF-8 bytes; [codepoints] gives the code points
    back.  A byte that starts no well-formed sequence stands for a lone
    surrogate, the way [os.fsdecode] reads it, so that every [string] is some
    [str].  The classes are those of the Unicode database of Python 3.11
    (Unicode 14): [is_decimal] is category [Nd], what [\d] matches and
    [int()] reads; [is_whitespace] is [str.isspace], what [\s] matches and
    [str.strip()] removes. *)

Module Unicode.

Definition byte (c : ascii) : N := N_of_ascii c.

Definition is_continuation (b : N) : bool := ((128 <=? b) && (b <? 192))%N.

(** The code point of an undecodable byte: U+DC80 to U+DCFF. *)
Definition escaped (b : N) : N := (56320 + b)%N.

(** Two, three and four byte sequences, in their shortest form, surrogates
    and code points above U+10FFFF excluded. *)
Definition two_bytes (b0 b1 : N) : option N :=
  if ((194 <=? b0) && (b0 <? 224) && is_continuation b1)%N
  then Some ((b0 - 192) * 64 + (b1 - 128))%N else None.

Definition three_bytes (b0 b1 b2 : N) : option N :=
  if ((224 <=? b0) && (b0 <? 240) && is_continuation b1 && is_continuation b2
      && negb ((b0 =? 224) && (b1 <? 160))
      && negb ((b0 =? 237) && (160 <=? b1)))%N
  then Some ((b0 - 224) * 4096 + (b1 - 128) * 64 + (b2 - 128))%N else None.

Definition four_bytes (b0 b1 b2 b3 : N) : option N :=
  if ((240 <=? b0) && (b0 <? 245) && is_continuation b1 && is_continuation b2
      && is_continuation b3
      && negb ((b0 =? 240) && (b1 <? 144))
      && negb ((b0 =? 244) && (144 <=? b1)))%N
  then Some ((b0 - 240) * 262144 + (b1 - 128) * 4096 + (b2 - 128) * 64
             + (b3 - 128))%N
  else None.

Fixpoint decode (s : list ascii) : list N :=
  match s with
  | [] => []
  | c0 :: s1 =>
      let b0 := byte c0 in
      if (b0 <? 128)%N then b0 :: decode s1
      else
        match s1 with
        | [] => [escaped b0]
        | c1 :: s2 =>
            match two_bytes b0 (byte c1) with
            | Some c => c :: decode s2
            | None =>
                match s2 with
                | [] => escaped b0 :: decode s1
                | c2 :: s3 =>
                    match three_bytes b0 (byte c1) (byte c2) with
                    | Some c => c :: decode s3
                    | None =>
                        match s3 with
                        | [] => escaped b0 :: decode s1
                        | c3 :: s4 =>
                            match four_bytes b0 (byte c1) (byte c2) (byte c3) with
                            | Some c => c :: decode s4
                            | None => escaped b0 :: decode s1
                            end
                        end
                    end
                end
            end
        end
  end.

Definition codepoints (s : string) : list N := decode (list_ascii_of_string s).

(** The first code point of each run of ten decimal digits, zero first. *)
Definition decimal_zeros : list N :=
  [48; 1632; 1776; 1984; 2406; 2534; 2662; 2790; 2918; 3046; 3174; 3302;
   3430; 3558; 3664; 3792; 3872; 4160; 4240; 6112; 6160; 6470; 6608; 6784;
   6800; 6992; 7088; 7232; 7248; 42528; 43216; 43264; 43472; 43504; 43600;
   44016; 65296; 66720; 68912; 69734; 69872; 69942; 70096; 70384; 70736;
   70864; 71248; 71360; 71472; 71904; 72016; 72784; 73040; 73120; 92768;
   92864; 93008; 120782; 120792; 120802; 120812; 120822; 123200; 123632;
   125264; 130032]%N.

Definition zero_of (c : N) : option N :=
  find (fun z => (z <=? c) && (c <? z + 10))%N decimal_zeros.

Definition is_decimal (c : N) : bool :=
  match zero_of c with Some _ => true | None => false end.

(** [unicodedata.decimal] *)
Definition decimal_value (c : N) : Z :=
  match zero_of c with Some z => Z.of_N (c - z) | None => 0 end.

Definition is_whitespace (c : N) : bool :=
  (((9 <=? c) && (c <=? 13)) || ((28 <=? c) && (c <=? 32)) || (c =? 133)
   || (c =? 160) || (c =? 5760) || ((8192 <=? c) && (c <=? 8202))
   || (c =? 8232) || (c =? 8233) || (c =? 8239) || (c =? 8287)
   || (c =? 12288))%N.

End Unicode.

Export Unicode.

(** ** [strptime]: the directive regular expressions of CPython's
    [_strptime.py]

    [TimeRE.pattern] turns a format into a regular expression over code
    points; the text is matched from its start, the first match in
    backtracking order is taken, and text left over after it is an error. *)

Module Strptime.

Inductive regex : Type :=
| Eps
| Cls (p : N -> bool)
| Cat (r1 r2 : regex)
| Alt (r1 r2 : regex)
| Plus (p : N -> bool)
| Group (name : ascii) (r : regex).

Definition text : Type := list N.

Definition groups : Type := list (ascii * text).

Definition between (lo hi : ascii) (c : N) : bool :=
  ((byte lo <=? c) && (c <=? byte hi))%N.

Definition is_literal (a : N) (c : N) : bool := (a =? c)%N.

(** One way a regular expression matches at the start of a text: the groups
    it captured, the text it took and the text that follows. *)
Record found : Type := mkfound {
  captured : groups;
  span : text;
  after : text
}.

(** The ways to take zero or more characters of a class, the longest run
    first. *)
Fixpoint star_splits (p : N -> bool) (s : text) : list (text * text) :=
  match s with
  | c :: s' =>
      if p c
      then map (fun m => (c :: fst m, snd m)) (star_splits p s') ++ [([], s)]
      else [([], s)]
  | [] => [([], [])]
  end.

Definition plus_splits (p : N -> bool) (s : text) : list (text * text) :=
  match s with
  | c :: s' =>
      if p c then map (fun m => (c :: fst m, snd m)) (star_splits p s') else []
  | [] => []
  end.

(** All matches of [r] at the start of [s], in backtracking order. *)
Fixpoint matches (r : regex) (s : text) : list found :=
  match r with
  | Eps => [mkfound [] [] s]
  | Cls p =>
      match s with
      | c :: s' => if p c then [mkfound [] [c] s'] else []
      | [] => []
      end
  | Cat r1 r2 =>
      flat_map (fun m1 =>
        map (fun m2 => mkfound (captured m1 ++ captured m2)
                               (span m1 ++ span m2) (after m2))
            (matches r2 (after m1)))
        (matches r1 s)
  | Alt r1 r2 => matches r1 s ++ matches r2 s
  | Plus p => map (fun m => mkfound [] (fst m) (snd m)) (plus_splits p s)
  | Group g r' =>
      map (fun m => mkfound ((g, span m) :: captured m) (span m) (after m))
          (matches r' s)
  end.

(** [\d], a character of the pattern, and a range [[lo-hi]] of it. *)
Definition digit : regex := Cls is_decimal.
Definition chr (a : ascii) : regex := Cls (is_literal (byte a)).
Definition rng (lo hi : ascii) : regex := Cls (between lo hi).

(** The entries of [TimeRE] for the directives the program uses. *)
Definition directive (d : N) : regex :=
  if (d =? byte "Y")%N then
    Group "Y" (Cat digit (Cat digit (Cat digit digit)))
  else if (d =? byte "m")%N then
    Group "m" (Alt (Cat (chr "1") (rng "0" "2"))
              (Alt (Cat (chr "0") (rng "1" "9")) (rng "1" "9")))
  else if (d =? byte "d")%N then
    Group "d" (Alt (Cat (chr "3") (rng "0" "1"))
              (Alt (Cat (rng "1" "2") digit)
              (Alt (Cat (chr "0") (rng "1" "9"))
              (Alt (rng "1" "9") (Cat (chr " ") (rng "1" "9"))))))
  else if (d =? byte "H")%N then
    Group "H" (Alt (Cat (chr "2") (rng "0" "3"))
              (Alt (Cat (rng "0" "1") digit) digit))
  else if (d =? byte "M")%N then
    Group "M" (Alt (Cat (rng "0" "5") digit) digit)
  else Cls (fun _ => false).

(** [TimeRE.pattern]: a directive becomes its expression, a run of white
    space becomes [\s+], any other character stands for itself.  The
    formats of the program have no letter outside a directive, so the
    case-insensitive flag of the compiled pattern changes nothing. *)
Fixpoint pattern (fmt : text) : regex :=
  match fmt with
  | [] => Eps
  | c :: rest =>
      if (c =? byte "%")%N then
        match rest with
        | d :: rest' => Cat (directive d) (pattern rest')
        | [] => Cls (fun _ => false)
        end
      else if is_whitespace c then
        match rest with
        | c' :: _ => if is_whitespace c' then pattern rest
                     else Cat (Plus is_whitespace) (pattern rest)
        | [] => Plus is_whitespace
        end
      else Cat (Cls (is_literal c)) (pattern rest)
  end.

(** [int()] on a captured group: decimal digits of any script, white space
    skipped. *)
Definition int (s : text) : Z :=
  fold_left (fun acc c => if is_decimal c then acc * 10 + decimal_value c
                          else acc)
            s 0.

Definition group_or (g : groups) (name : ascii) (default : Z) : Z :=
  match find (fun e => Ascii.eqb (fst e) name) g with
  | Some e => int (snd e)
  | None => default
  end.

(** [datetime.strptime(data_string, format)] for formats made of the
    directives above: a naive [datetime], or [ValueError]. *)
Definition strptime (data_string format : string) : result datetime :=
  match matches (pattern (codepoints format)) (codepoints data_string) with
  | [] => Raise ValueError
  | m :: _ =>
      match after m with
      | _ :: _ => Raise ValueError
      | [] =>
          let g := captured m in
          try! d := new_date (group_or g "Y" 1900) (group_or g "m" 1)
                             (group_or g "d" 1) in
          Ok (mkdatetime d (group_or g "H" 0) (group_or g "M" 0) 0 None)
      end
  end.

End Strptime.

Export Strptime.

(** ** Bytes of plain ASCII text *)

Module Bytes.

Definition code (c : ascii) : Z := Z.of_N (N_of_ascii c).

(** One of the ten digits 0 to 9. *)
Definition is_digit (c : ascii) : bool := (48 <=? code c) && (code c <=? 57).

Definition in_range (lo hi : ascii) (c : ascii) : bool :=
  (code lo <=? code c) && (code c <=? code hi).

Definition is_char (a : ascii) (c : ascii) : bool := Ascii.eqb a c.

(** The number a run of digits writes. *)
Definition int_of (s : list ascii) : Z :=
  fold_left (fun acc c => if is_digit c then acc * 10 + (code c - 48) else acc)
            s 0.

End Bytes.

Export Bytes.

(** ** Decoded JSON and the [pydantic] model *)

Module Json.

(** What [json.loads] returns.  A float is kept as [m * 2^e]; an object is
    the list of its bindings, the first binding of a key being its value. *)
Inductive json : Type :=
| JNull
| JBool (b : bool)
| JInt (z : Z)
| JFloat (m e : Z)
| JStr (s : string)
| JList (l : list json)
| JDict (d : list (string * json)).

Definition dict : Type := list (string * json).

(** [bool(v)] *)
Definition json_truthy (v : json) : bool :=
  match v with
  | JNull => false
  | JBool b => b
  | JInt z => negb (z =? 0)
  | JFloat m _ => negb (m =? 0)
  | JStr s => negb (String.eqb s "")
  | JList l => match l with [] => false | _ => true end
  | JDict d => match d with [] => false | _ => true end
  end.

(** [d.get(k)] *)
Fixpoint dict_get (d : dict) (k : string) : option json :=
  match d with
  | [] => None
  | (k', v) :: d' => if String.eqb k' k then Some v else dict_get d' k
  end.

(** [k in d] *)
Definition dict_has (d : dict) (k : string) : bool :=
  match dict_get d k with Some _ => true | None => false end.

(** [d[k] = v]: an existing key keeps its place, a new key goes last. *)
Fixpoint dict_set (d : dict) (k : string) (v : json) : dict :=
  match d with
  | [] => [(k, v)]
  | (k', v') :: d' =>
      if String.eqb k' k then (k, v) :: d' else (k', v') :: dict_set d' k v
  end.

Definition is_dict (v : json) : bool :=
  match v with JDict _ => true | _ => false end.

(** The two libraries the extractor calls: the JSON decoder ([None] is
    [JSONDecodeError]) and the validator [pydantic] applies to a field
    declared [str], which returns a string it is given unchanged. *)
Class Decoders : Type := {
  json_loads : string -> option json;
  str_validator : json -> option string;
  str_validator_str : forall s, str_validator (JStr s) = Some s
}.

End Json.

Export Json.

(** ** The [icalendar] components *)

Module ICal.

(** Property values after [Component.add] encoded them: [vText],
    [vDDDTypes] holding a date or a date-time, [vCalAddress]; [PyStr] is a
    string stored without encoding by item assignment. *)
Inductive value : Type :=
| vText (s : string)
| vDate (d : date)
| vDatetime (t : datetime)
| vCalAddress (s : string)
| PyStr (s : string).

(** A component is a case-insensitive dictionary: upper-cased property name
    to the values added under it, in the order they were added. *)
Definition Component : Type := list (string * list value).

Definition upper_char (c : ascii) : ascii :=
  if in_range "a" "z" c then ascii_of_N (N_of_ascii c - 32) else c.

Fixpoint upper (s : string) : string :=
  match s with
  | EmptyString => EmptyString
  | String c s' => String (upper_char c) (upper s')
  end.

Fixpoint get (c : Component) (k : string) : list value :=
  match c with
  | [] => []
  | (k', vs) :: c' => if String.eqb k' (upper k) then vs else get c' k
  end.

Fixpoint append_value (c : Component) (k : string) (v : list value)
  : Component :=
  match c with
  | [] => [(k, v)]
  | (k', vs) :: c' =>
      if String.eqb k' k then (k', vs ++ v) :: c'
      else (k', vs) :: append_value c' k v
  end.

(** The factory [types_factory.for_property]. *)
Inductive raw : Type :=
| RStr (s : string)
| RDate (d : date)
| RDatetime (t : datetime).

Definition encode (name : string) (v : raw) : value :=
  match v with
  | RStr s =>
      if String.eqb (upper name) "ATTENDEE" then vCalAddress s else vText s
  | RDate d => vDate d
  | RDatetime t => vDatetime t
  end.

(** [component.add(name, value)]: a second value for a name is appended to
    the first. *)
Definition add (c : Component) (name : string) (v : raw) : Component :=
  append_value c (upper name) [encode name v].

(** [component[name] = values] *)
Fixpoint setitem (c : Component) (k : string) (vs : list value) : Component :=
  match c with
  | [] => [(upper k, vs)]
  | (k', vs') :: c' =>
      if String.eqb k' (upper k) then (k', vs) :: c'
      else (k', vs') :: setitem c' k vs
  end.

Record Calendar : Type := mkCalendar {
  properties : Component;
  subcomponents : list Component
}.

Definition new_calendar : Calendar := mkCalendar [] [].

Definition cal_add (cal : Calendar) (name : string) (v : raw) : Calendar :=
  mkCalendar (add (properties cal) name v) (subcomponents cal).

Definition add_component (cal : Calendar) (c : Component) : Calendar :=
  mkCalendar (properties cal) (subcomponents cal ++ [c]).

End ICal.

(** ** The host: file system, temporary names, file opener, clock, service *)

Module Host.

Import ICal.

Inductive platform : Type := Darwin | Win32 | Linux.

(** The chat-completion client: reference date of the system prompt and the
    user's text to the content of the first choice. *)
Definition Client : Type := string -> string -> result string.

(** What [ZoneInfo(key)] does on the machine with a key that is not an
    absolute path: it loads the zone, finds no zone of that name, refuses
    the key (a path that is not normalised, or that leaves the database), or
    cannot read what the name leads to (a directory of the database). *)
Inductive zone_outcome : Type :=
| ZoneLoaded
| NoSuchZone
| BadZoneKey
| ZoneUnreadable.

(** What the program cannot change. [tempdir] is the directory
    [gettempdir()] finds, if any; [script_dir] is [dirname(__file__)];
    [zone_of] is the time zone database; [can_create] tells the files that
    can be created or opened for writing, [can_write] those that take the
    data once they are open. *)
Record Env : Type := mkEnv {
  OpenAI : string -> Client;
  today : date;
  host : platform;
  tempdir : option string;
  script_dir : string;
  zone_of : string -> zone_outcome;
  can_create : string -> bool;
  can_write : string -> bool;
  can_open : string -> bool;
  can_remove : string -> bool
}.

Definition has_zone (e : Env) (key : string) : bool :=
  match zone_of e key with ZoneLoaded => true | _ => false end.

Inductive dialog : Type :=
| WarningBox (title : string)
| CriticalBox (title : string) (e : exn).

Inductive line : Type :=
| ErrorParsingEvent (event : dict)
| CreatedAndOpened (event_description : string)
| UnexpectedErrorDetails (e : exn)
| UnableToDelete (filename : string).

(** A file holds the text [to_ical()] gave for a calendar; the model keeps
    the calendar.  [unwritten] are the files that were created and took no
    data: they exist and hold no calendar.  [temp_names] are the names the
    generator of [tempfile] will propose next. *)
Record World : Type := mkWorld {
  env : Env;
  files : gmap string Calendar;
  unwritten : gset string;
  temp_names : list string;
  opened : list string;
  dialogs : list dialog;
  stdout : list line
}.

Definition set_files (w : World) (f : gmap string Calendar) : World :=
  mkWorld (env w) f (unwritten w) (temp_names w) (opened w) (dialogs w)
          (stdout w).

Definition set_unwritten (w : World) (u : gset string) : World :=
  mkWorld (env w) (files w) u (temp_names w) (opened w) (dialogs w)
          (stdout w).

Definition set_temp_names (w : World) (l : list string) : World :=
  mkWorld (env w) (files w) (unwritten w) l (opened w) (dialogs w) (stdout w).

Definition log_opened (w : World) (f : string) : World :=
  mkWorld (env w) (files w) (unwritten w) (temp_names w) (opened w ++ [f])
          (dialogs w) (stdout w).

Definition show (w : World) (d : dialog) : World :=
  mkWorld (env w) (files w) (unwritten w) (temp_names w) (opened w)
          (dialogs w ++ [d]) (stdout w).

Definition print (w : World) (l : line) : World :=
  mkWorld (env w) (files w) (unwritten w) (temp_names w) (opened w)
          (dialogs w) (stdout w ++ [l]).

(** [os.path.exists] *)
Definition path_exists (w : World) (f : string) : bool :=
  match files w !! f with
  | Some _ => true
  | None => bool_decide (f ∈ unwritten w)
  end.

(** [posixpath.join(a, b)] *)
Definition path_join (a b : string) : string :=
  match b with
  | String "/" _ => b
  | _ =>
      match rev (list_ascii_of_string a) with
      | [] => b
      | c :: _ => if Ascii.eqb c "/" then a +:+ b else a +:+ "/" +:+ b
      end
  end.

(** [tempfile._mkstemp_inner]: the first proposed name that no file has,
    after the prefix tmp and in the directory. *)
Fixpoint _mkstemp_inner (w : World) (dir suffix : string)
    (names : list string) : result (string * list string) :=
  match names with
  | [] => Raise OSError
  | n :: rest =>
      let file := path_join dir ("tmp" +:+ n +:+ suffix) in
      if path_exists w file then _mkstemp_inner w dir suffix rest
      else Ok (file, rest)
  end.

(** [with tempfile.NamedTemporaryFile(mode='wb', suffix=..., delete=False)
    as f: f.write(data)]: the name of the file that now holds [data].  The
    file is created first; when the write fails it stays, with no data. *)
Definition write_temporary_file (w : World) (suffix : string)
    (data : Calendar) : result string * World :=
  match tempdir (env w) with
  | None => (Raise OSError, w)
  | Some dir =>
      match _mkstemp_inner w dir suffix (temp_names w) with
      | Raise e => (Raise e, set_temp_names w [])
      | Ok (file, rest) =>
          if can_create (env w) file then
            if can_write (env w) file then
              (Ok file,
               set_temp_names (set_files w (<[file := data]> (files w))) rest)
            else
              (Raise OSError,
               set_temp_names (set_unwritten w ({[file]} ∪ unwritten w)) rest)
          else (Raise OSError, set_temp_names w rest)
      end
  end.

(** [with open(filename, 'wb') as f: f.write(data)]: the file is created,
    or emptied, before the data is written. *)
Definition write_file (w : World) (filename : string) (data : Calendar)
  : result unit * World :=
  if can_create (env w) filename then
    if can_write (env w) filename then
      (Ok tt,
       set_unwritten (set_files w (<[filename := data]> (files w)))
                     (unwritten w ∖ {[filename]}))
    else
      (Raise OSError,
       set_unwritten (set_files w (delete filename (files w)))
                     ({[filename]} ∪ unwritten w))
  else (Raise OSError, w).

(** [os.remove(filename)] *)
Definition remove (w : World) (filename : string) : result unit * World :=
  if can_remove (env w) filename then
    (Ok tt,
     set_unwritten (set_files w (delete filename (files w)))
                   (unwritten w ∖ {[filename]}))
  else (Raise OSError, w).

Definition digit_char (n : Z) : ascii := ascii_of_N (Z.to_N (48 + n mod 10)).

Definition two_digits (n : Z) : string :=
  String (digit_char (n / 10)) (String (digit_char n) EmptyString).

(** [strftime("%Y-%m-%d")] *)
Definition strftime_ymd (d : date) : string :=
  two_digits (year d / 100) +:+ two_digits (year d) +:+ "-" +:+
  two_digits (month d) +:+ "-" +:+ two_digits (day d).

(** [s.replace(old, new)] for single characters *)
Fixpoint replace_char (old new : ascii) (s : string) : string :=
  match s with
  | EmptyString => EmptyString
  | String c s' =>
      String (if Ascii.eqb c old then new else c) (replace_char old new s')
  end.

(** [posixpath.isabs(s)] *)
Definition isabs (s : string) : bool :=
  match s with
  | String c _ => Ascii.eqb c "/"
  | EmptyString => false
  end.

(** [zoneinfo.ZoneInfo(key)]: [ValueError] for an absolute path and for
    any other key that is refused, [ZoneInfoNotFoundError] for a name the
    database does not have, an [OSError] for one it cannot read. *)
Definition ZoneInfo (e : Env) (key : string) : result string :=
  if isabs key then Raise ValueError
  else
    match zone_of e key with
    | ZoneLoaded => Ok key
    | NoSuchZone => Raise ZoneInfoNotFoundError
    | BadZoneKey => Raise ValueError
    | ZoneUnreadable => Raise OSError
    end.

(** [s.split('\n')] *)
Fixpoint split_lines (s : string) : list string :=
  match s with
  | EmptyString => [EmptyString]
  | String c s' =>
      if Ascii.eqb c "010" then EmptyString :: split_lines s'
      else match split_lines s' with
           | l :: ls => String c l :: ls
           | [] => [String c EmptyString]
           end
  end.

(** [bool(s.strip())]: some character is not white space. *)
Definition strip_truthy (s : string) : bool :=
  existsb (fun c => negb (is_whitespace c)) (codepoints s).

End Host.

(** ** [CalendarApp.py] *)

Module CalendarApp.

Import ICal Host.

Record CalendarEvent : Type := mkCalendarEvent {
  name : string;
  start_date : string;
  end_date : option string;
  start_time : option string;
  end_time : option string;
  timezone : option string;
  participants : option (list string);
  location : option string;
  content : option string
}.

(** *** [CalendarEvent.parse_obj]: field by field, [None] on a validation
    error *)

Section Validation.

Context `{Decoders}.

Definition required_str (d : dict) (k : string) : option string :=
  match dict_get d k with
  | None | Some JNull => None
  | Some v => str_validator v
  end.

Definition optional_str (d : dict) (k : string) : option (option string) :=
  match dict_get d k with
  | None | Some JNull => Some None
  | Some v => match str_validator v with
              | Some s => Some (Some s)
              | None => None
              end
  end.

Fixpoint list_str (l : list json) : option (list string) :=
  match l with
  | [] => Some []
  | v :: l' =>
      match str_validator v, list_str l' with
      | Some s, Some ss => Some (s :: ss)
      | _, _ => None
      end
  end.

Definition optional_list_str (d : dict) (k : string)
  : option (option (list string)) :=
  match dict_get d k with
  | None | Some JNull => Some None
  | Some (JList l) => match list_str l with
                      | Some ss => Some (Some ss)
                      | None => None
                      end
  | Some _ => None
  end.

Definition parse_obj (d : dict) : option CalendarEvent :=
  match required_str d "name", required_str d "start_date",
        optional_str d "end_date", optional_str d "start_time",
        optional_str d "end_time", optional_str d "timezone",
        optional_list_str d "participants", optional_str d "location",
        optional_str d "content" with
  | Some n, Some sd, Some ed, Some st, Some et, Some tz, Some ps, Some loc,
    Some c => Some (mkCalendarEvent n sd ed st et tz ps loc c)
  | _, _, _, _, _, _, _, _, _ => None
  end.

(** *** [parse_event] *)

(** [k not in event or not event[k]] on a dictionary *)
Definition missing_or_empty (d : dict) (k : string) : bool :=
  match dict_get d k with
  | None => true
  | Some v => negb (json_truthy v)
  end.

(** Lines 139 to 142: the two required fields are filled in.  Membership
    and item assignment with a string key raise [TypeError] on anything but
    a dictionary. *)
Definition ensure_required (current_date : string) (event : json)
  : result dict :=
  match event with
  | JDict d =>
      let d := if missing_or_empty d "name"
               then dict_set d "name" (JStr "Untitled Event") else d in
      let d := if missing_or_empty d "start_date"
               then dict_set d "start_date" (JStr current_date) else d in
      Ok d
  | _ => Raise TypeError
  end.

(** Lines 129 to 134: the object the loop will iterate. *)
Definition events_of (parsed_data : json) : result json :=
  match parsed_data with
  | JList _ => Ok parsed_data
  | JDict d =>
      match dict_get d "events" with
      | Some v => Ok v
      | None => Ok (JList [parsed_data])
      end
  | _ => Raise ValueError
  end.

(** [for event in events]: a list gives its items, a dictionary its keys, a
    string its characters; nothing else is iterable. *)
Definition iterate (events : json) : result (list json) :=
  match events with
  | JList l => Ok l
  | JDict d => Ok (map (fun kv => JStr (fst kv)) d)
  | JStr s =>
      Ok (map (fun c => JStr (String c EmptyString)) (list_ascii_of_string s))
  | _ => Raise TypeError
  end.

(** Lines 136 to 152: the loop, with [calendar_events] as accumulator. *)
Fixpoint validate_events (current_date : string) (events : list json)
    (calendar_events : list CalendarEvent) (w : World)
  : result (list CalendarEvent) * World :=
  match events with
  | [] => (Ok calendar_events, w)
  | event :: rest =>
      match ensure_required current_date event with
      | Raise e => (Raise e, w)
      | Ok d =>
          match parse_obj d with
          | Some calendar_event =>
              validate_events current_date rest
                              (calendar_events ++ [calendar_event]) w
          | None =>
              validate_events current_date rest calendar_events
                              (print w (ErrorParsingEvent d))
          end
      end
  end.

Definition parse_event (client : Client) (event_description : string)
    (w : World) : result (list CalendarEvent) * World :=
  let current_date := strftime_ymd (today (env w)) in
  match client current_date event_description with
  | Raise e => (Raise e, w)
  | Ok events_data =>
      match json_loads events_data with
      | None => (Raise ValueError, w)
      | Some parsed_data =>
          match events_of parsed_data with
          | Raise e => (Raise e, w)
          | Ok events =>
              match iterate events with
              | Raise e => (Raise e, w)
              | Ok l => validate_events current_date l [] w
              end
          end
      end
  end.

End Validation.

(** *** [create_ics_file] *)

(** [f"{o}"] for an optional string *)
Definition str_of (o : option string) : string :=
  match o with Some s => s | None => "None" end.

Definition date_format : string := "%Y-%m-%d".
Definition datetime_format : string := "%Y-%m-%d %H:%M".

Definition list_truthy {A} (o : option (list A)) : bool :=
  match o with
  | Some (_ :: _) => true
  | _ => false
  end.

Definition add_attendees (ics_event : Component) (ps : option (list string))
  : Component :=
  fold_left (fun c participant => add c "attendee" (RStr ("MAILTO:" +:+ participant)))
            (default [] ps) ics_event.

(** Lines 157 to 190: the calendar that is serialised. *)
Definition build_calendar (event : CalendarEvent) : result Calendar :=
  let cal := new_calendar in
  let cal := cal_add cal "prodid" (RStr "-//Calendar Event Generator//mxm.dk//") in
  let cal := cal_add cal "version" (RStr "2.0") in
  let ics_event := add [] "summary" (RStr (name event)) in
  try! start := strptime (start_date event) date_format in
  let start_date_ := date_of start in
  try! end_date_ :=
    if truthy (end_date event) then
      try! e := strptime (str_of (end_date event)) date_format in
      Ok (date_of e)
    else Ok start_date_ in
  try! ics_event :=
    if truthy (start_time event) then
      try! start_datetime :=
        strptime (start_date event +:+ " " +:+ str_of (start_time event))
                 datetime_format in
      let ics_event := add ics_event "dtstart" (RDatetime start_datetime) in
      try! end_datetime :=
        if truthy (end_time event) then
          strptime (or_else (end_date event) (start_date event) +:+ " " +:+
                    str_of (end_time event)) datetime_format
        else datetime_add start_datetime (hours 1) in
      Ok (add ics_event "dtend" (RDatetime end_datetime))
    else
      let ics_event := add ics_event "dtstart" (RDate start_date_) in
      try! e := date_add end_date_ (days 1) in
      Ok (add ics_event "dtend" (RDate e)) in
  let ics_event :=
    if truthy (location event)
    then add ics_event "location" (RStr (str_of (location event)))
    else ics_event in
  let ics_event :=
    if list_truthy (participants event)
    then add_attendees ics_event (participants event)
    else ics_event in
  Ok (add_component cal ics_event).

Definition create_ics_file (event : CalendarEvent) (w : World)
  : result string * World :=
  match build_calendar event with
  | Raise e => (Raise e, w)
  | Ok cal => write_temporary_file w ".ics" cal
  end.

(** *** [import_ics_to_calendar]: every failure of the opener becomes an
    [IOError]; on macOS the file is removed afterwards when it can be. *)
Definition import_ics_to_calendar (ics_filename : string) (w : World)
  : result unit * World :=
  if can_open (env w) ics_filename then
    let w := log_opened w ics_filename in
    match host (env w) with
    | Darwin =>
        match remove w ics_filename with
        | (Ok _, w') => (Ok tt, w')
        | (Raise _, w') => (Ok tt, print w' (UnableToDelete ics_filename))
        end
    | _ => (Ok tt, w)
    end
  else (Raise OSError, w).

(** *** [generate_ics] *)

(** Lines 99 to 101 *)
Fixpoint create_and_import (parsed_events : list CalendarEvent) (w : World)
  : result unit * World :=
  match parsed_events with
  | [] => (Ok tt, w)
  | parsed_event :: rest =>
      match create_ics_file parsed_event w with
      | (Raise e, w1) => (Raise e, w1)
      | (Ok ics_filename, w1) =>
          match import_ics_to_calendar ics_filename w1 with
          | (Raise e, w2) => (Raise e, w2)
          | (Ok _, w2) => create_and_import rest w2
          end
      end
  end.

(** Lines 103 to 109: the three handlers. *)
Definition handle (e : exn) (w : World) : World :=
  match e with
  | ValueError => show w (CriticalBox "Parsing Error" e)
  | OSError => show w (CriticalBox "File Error" e)
  | _ => print (show w (CriticalBox "Unexpected Error" e))
               (UnexpectedErrorDetails e)
  end.

Section Batch.

Context `{Decoders}.

(** Lines 95 to 109: one description. *)
Definition process_description (client : Client)
    (st : list CalendarEvent * World) (event_description : string)
  : list CalendarEvent * World :=
  let (all_parsed_events, w) := st in
  if strip_truthy event_description then
    match parse_event client event_description w with
    | (Raise e, w1) => (all_parsed_events, handle e w1)
    | (Ok parsed_events, w1) =>
        let all_parsed_events := all_parsed_events ++ parsed_events in
        match create_and_import parsed_events w1 with
        | (Raise e, w2) => (all_parsed_events, handle e w2)
        | (Ok _, w2) =>
            (all_parsed_events, print w2 (CreatedAndOpened event_description))
        end
    end
  else st.

(** The records shown in the output pane ([None]: nothing was shown) and
    the world after the click. *)
Definition generate_ics (api_key event_input : string) (w : World)
  : option (list CalendarEvent) * World :=
  let event_descriptions := split_lines event_input in
  if String.eqb api_key "" || match event_descriptions with [] => true | _ => false end
  then (None, show w (WarningBox "Input Error"))
  else
    let client := OpenAI (env w) api_key in
    let (all_parsed_events, w') :=
      fold_left (process_description client) event_descriptions ([], w) in
    (Some all_parsed_events, w').

End Batch.

End CalendarApp.

(** ** [Test.py] *)

Module TestPy.

Import ICal Host.

Record CalendarEvent : Type := mkCalendarEvent {
  name : string;
  date : string;
  start_time : option string;
  end_time : option string;
  timezone : option string;
  participants : option (list string);
  location : option string
}.

Definition str_of (o : option string) : string :=
  match o with Some s => s | None => "None" end.

Definition list_truthy {A} (o : option (list A)) : bool :=
  match o with
  | Some (_ :: _) => true
  | _ => false
  end.

(** Lines 40 to 77: the calendar that is serialised. *)
Definition build_calendar (e : Env) (event : CalendarEvent)
  : result Calendar :=
  let cal := new_calendar in
  let cal := cal_add cal "prodid" (RStr "-//My Calendar Event//example.com//") in
  let cal := cal_add cal "version" (RStr "2.0") in
  let ical_event := add [] "summary" (RStr (name event)) in
  try! parsed := strptime (date event) "%Y-%m-%d" in
  let event_date := date_of parsed in
  try! ical_event :=
    if truthy (start_time event) then
      try! st := strptime (str_of (start_time event)) "%H:%M" in
      let start_datetime := combine event_date (time_of st) in
      try! end_datetime :=
        if truthy (end_time event) then
          try! et := strptime (str_of (end_time event)) "%H:%M" in
          Ok (combine event_date (time_of et))
        else datetime_add start_datetime (hours 1) in
      try! zoned :=
        if truthy (timezone event) then
          try! z1 := ZoneInfo e (str_of (timezone event)) in
          let start_datetime := replace_tzinfo start_datetime z1 in
          try! z2 := ZoneInfo e (str_of (timezone event)) in
          Ok (start_datetime, replace_tzinfo end_datetime z2)
        else Ok (start_datetime, end_datetime) in
      let ical_event := add ical_event "dtstart" (RDatetime (fst zoned)) in
      Ok (add ical_event "dtend" (RDatetime (snd zoned)))
    else
      let ical_event := add ical_event "dtstart" (RDate event_date) in
      try! e := date_add event_date (days 1) in
      Ok (add ical_event "dtend" (RDate e)) in
  let ical_event :=
    if list_truthy (participants event)
    then setitem ical_event "attendee" (map PyStr (default [] (participants event)))
    else ical_event in
  let ical_event :=
    if truthy (location event)
    then add ical_event "location" (RStr (str_of (location event)))
    else ical_event in
  Ok (add_component cal ical_event).

(** Line 80 *)
Definition filename_of (e : Env) (event : CalendarEvent) : string :=
  path_join (script_dir e)
            (replace_char " " "_" (name event) +:+ "_" +:+ date event +:+ ".ics").

Definition create_ics_file (event : CalendarEvent) (w : World)
  : result string * World :=
  match build_calendar (env w) event with
  | Raise e => (Raise e, w)
  | Ok cal =>
      let filename := filename_of (env w) event in
      match write_file w filename cal with
      | (Raise e, w') => (Raise e, w')
      | (Ok _, w') => (Ok filename, w')
      end
  end.

End TestPy.

(** ** Notions used to state the properties *)

Module Notions.

Import ICal Host.

(** The branch of [_ord2ymd] that finds the month and the day from the
    zero-based day of the year. *)
Definition month_day (leap : bool) (n : Z) : Z * Z :=
  let m := Z.shiftr (n + 50) 5 in
  let preceding := table _DAYS_BEFORE_MONTH m + b2z ((2 <? m) && leap) in
  if n <? preceding then
    (m - 1,
     n - (preceding - (table _DAYS_IN_MONTH (m - 1) + b2z ((m - 1 =? 2) && leap)))
     + 1)
  else (m, n - preceding + 1).

Definition dim (leap : bool) (m : Z) : Z :=
  if (m =? 2) && leap then 29 else table _DAYS_IN_MONTH m.

Definition days_in_year_upto (leap : bool) (m : Z) : Z :=
  table _DAYS_BEFORE_MONTH m + b2z ((2 <? m) && leap).

Definition month_day_ok (leap : bool) (n : Z) : bool :=
  let (m, d) := month_day leap n in
  (1 <=? m) && (m <=? 12) && (1 <=? d) && (d <=? dim leap m) &&
  (days_in_year_upto leap m + d =? n + 1).

(** A date of the proleptic Gregorian calendar, the year not bounded above. *)
Definition wf_date (d : date) : Prop :=
  1 <= year d /\ 1 <= month d <= 12 /\
  1 <= day d <= _days_in_month (year d) (month d).

(** The day that follows [d] in the calendar. *)
Definition tomorrow (d : date) : date :=
  if day d <? _days_in_month (year d) (month d)
  then mkdate (year d) (month d) (day d + 1)
  else if month d <? 12 then mkdate (year d) (month d + 1) 1
  else mkdate (year d + 1) 1 1.

(** The values a calendar carries under a property name, over its event
    components. *)
Definition emitted (cal : Calendar) (k : string) : list value :=
  flat_map (fun c => get c k) (subcomponents cal).

(** *** The builder of the application, in pieces *)

Import CalendarApp.

(** The calendar with its two file-level properties. *)
Definition header : Calendar :=
  cal_add (cal_add new_calendar "prodid" (RStr "-//Calendar Event Generator//mxm.dk//"))
          "version" (RStr "2.0").

Definition end_date_of (event : CalendarEvent) (start : datetime) : result datetime :=
  if truthy (end_date event) then strptime (str_of (end_date event)) date_format
  else Ok start.

Definition end_datetime_of (event : CalendarEvent) (start_datetime : datetime)
  : result datetime :=
  if truthy (end_time event) then
    strptime (or_else (end_date event) (start_date event) +:+ " " +:+
              str_of (end_time event)) datetime_format
  else datetime_add start_datetime (hours 1).

Definition timed (event : CalendarEvent) : result Component :=
  let ics_event := add [] "summary" (RStr (name event)) in
  try! start := strptime (start_date event) date_format in
  try! finish := end_date_of event start in
  if truthy (start_time event) then
    try! start_datetime :=
      strptime (start_date event +:+ " " +:+ str_of (start_time event))
               datetime_format in
    try! end_datetime := end_datetime_of event start_datetime in
    Ok (add (add ics_event "dtstart" (RDatetime start_datetime))
            "dtend" (RDatetime end_datetime))
  else
    try! e := date_add (date_of finish) (days 1) in
    Ok (add (add ics_event "dtstart" (RDate (date_of start))) "dtend" (RDate e)).

Definition decorated (event : CalendarEvent) (ics_event : Component) : Component :=
  let ics_event :=
    if truthy (location event)
    then add ics_event "location" (RStr (str_of (location event)))
    else ics_event in
  if list_truthy (participants event)
  then add_attendees ics_event (participants event)
  else ics_event.

(** The calendar a record gives; the empty calendar when the builder
    raises. *)
Definition built (event : CalendarEvent) : Calendar :=
  match build_calendar event with
  | Ok cal => cal
  | Raise _ => new_calendar
  end.

(** *** The dates and the times the parser takes

    What [strptime] takes for the formats of the program, as a reading of the
    text from left to right that never goes back.  A year is four decimal
    digits.  A month is 10, 11 or 12, or 1 to 9 with or without a zero in
    front.  A day is 30 or 31, or 10 to 29, or 1 to 9 with a zero, with
    nothing or with a space in front.  An hour is 20 to 23, or 0 to 19 in two
    digits, or one digit; a minute is 0 to 59 in two digits, or one digit.
    Where the form says 0 to 2 and the like the digit is a plain one; where
    any digit will do, a decimal digit of another script will do too and
    counts for its value. *)

(** One of the plain digits [lo] to [hi], and its value. *)
Definition digit_in (lo hi : ascii) (c : N) : option Z :=
  if between lo hi c then Some (Z.of_N c - 48) else None.

(** A decimal digit of any script, and its value. *)
Definition any_digit (c : N) : option Z :=
  if is_decimal c then Some (decimal_value c) else None.

(** The space that may stand for the tens of a day. *)
Definition blank (c : N) : option Z :=
  if (c =? 32)%N then Some 0 else None.

(** What a reader gives: the number read and the text that follows. *)
Definition token : Type := Z * text.

Definition one (p : N -> option Z) (s : text) : option token :=
  match s with
  | c :: rest =>
      match p c with
      | Some v => Some (v, rest)
      | None => None
      end
  | [] => None
  end.

Definition two (p1 p2 : N -> option Z) (s : text) : option token :=
  match s with
  | c1 :: c2 :: rest =>
      match p1 c1, p2 c2 with
      | Some v1, Some v2 => Some (10 * v1 + v2, rest)
      | _, _ => None
      end
  | _ => None
  end.

(** The first form that fits. *)
Fixpoint first_of (forms : list (text -> option token)) (s : text)
  : option token :=
  match forms with
  | [] => None
  | form :: others =>
      match form s with
      | Some t => Some t
      | None => first_of others s
      end
  end.

Definition read_year (s : text) : option token :=
  match s with
  | c1 :: c2 :: c3 :: c4 :: rest =>
      match any_digit c1, any_digit c2, any_digit c3, any_digit c4 with
      | Some v1, Some v2, Some v3, Some v4 =>
          Some (1000 * v1 + 100 * v2 + 10 * v3 + v4, rest)
      | _, _, _, _ => None
      end
  | _ => None
  end.

Definition read_month : text -> option token :=
  first_of [two (digit_in "1" "1") (digit_in "0" "2");
            two (digit_in "0" "0") (digit_in "1" "9");
            one (digit_in "1" "9")].

Definition read_day : text -> option token :=
  first_of [two (digit_in "3" "3") (digit_in "0" "1");
            two (digit_in "1" "2") any_digit;
            two (digit_in "0" "0") (digit_in "1" "9");
            one (digit_in "1" "9");
            two blank (digit_in "1" "9")].

Definition read_hour : text -> option token :=
  first_of [two (digit_in "2" "2") (digit_in "0" "3");
            two (digit_in "0" "1") any_digit;
            one any_digit].

Definition read_minute : text -> option token :=
  first_of [two (digit_in "0" "5") any_digit;
            one any_digit].

(** The character [a], skipped. *)
Definition skip (a : ascii) (s : text) : option text :=
  match s with
  | c :: rest => if (c =? byte a)%N then Some rest else None
  | [] => None
  end.

(** A date at the start of a text: year, month and day with a hyphen
    between them, a day the month has. *)
Definition date_at (s : text) : option (date * text) :=
  match read_year s with
  | Some (y, s) =>
      match skip "-" s with
      | Some s =>
          match read_month s with
          | Some (m, s) =>
              match skip "-" s with
              | Some s =>
                  match read_day s with
                  | Some (d, s) =>
                      if valid_date (mkdate y m d)
                      then Some (mkdate y m d, s) else None
                  | None => None
                  end
              | None => None
              end
          | None => None
          end
      | None => None
      end
  | None => None
  end.

(** A time of day at the start of a text: hour and minute with a colon
    between them. *)
Definition clock_at (s : text) : option (time * text) :=
  match read_hour s with
  | Some (h, s) =>
      match skip ":" s with
      | Some s =>
          match read_minute s with
          | Some (m, s) => Some (mktime h m 0, s)
          | None => None
          end
      | None => None
      end
  | None => None
  end.

(** The text without the white space in front. *)
Fixpoint lstrip (s : text) : text :=
  match s with
  | c :: rest => if is_whitespace c then lstrip rest else s
  | [] => []
  end.

(** The date a string writes: the whole string is the date. *)
Definition read_date (s : string) : option date :=
  match date_at (codepoints s) with
  | Some (d, []) => Some d
  | _ => None
  end.

(** The time a string writes, as [Test.py] reads it: the whole string is
    the time. *)
Definition read_clock (s : string) : option time :=
  match clock_at (codepoints s) with
  | Some (t, []) => Some t
  | _ => None
  end.

(** The time a string writes, as the application reads it after a date and
    a space: white space may come first. *)
Definition read_time (s : string) : option time :=
  match clock_at (lstrip (codepoints s)) with
  | Some (t, []) => Some t
  | _ => None
  end.

(** A date, white space and a time: the whole string. *)
Definition read_datetime (s : string) : option datetime :=
  match date_at (codepoints s) with
  | Some (d, c :: rest) =>
      if is_whitespace c then
        match clock_at (lstrip rest) with
        | Some (t, []) => Some (combine d t)
        | _ => None
        end
      else None
  | _ => None
  end.

(** *** The first match of an expression, summed up *)

(** The number each group holds. *)
Definition values (m : found) : list (ascii * Z) :=
  map (fun e => (fst e, int (snd e))) (captured m).

Definition value_or (vs : list (ascii * Z)) (name : ascii) (default : Z) : Z :=
  match find (fun e => Ascii.eqb (fst e) name) vs with
  | Some e => snd e
  | None => default
  end.

(** The numbers of the first match and the text it leaves. *)
Definition first_match (r : regex) (s : text)
  : option (list (ascii * Z) * text) :=
  match matches r s with
  | m :: _ => Some (values m, after m)
  | [] => None
  end.

(** *** Records the builder cannot read, and strictly formed records *)

Definition reads {A} (o : option A) : bool :=
  match o with Some _ => true | None => false end.

(** A field that is present and not empty. *)
Definition given (o : option string) : option string :=
  match o with
  | Some s => if String.eqb s "" then None else Some s
  | None => None
  end.

(** A date or a time that the builder reads is not one: the start date
    always, the end date and the start time when they are given, the end
    time when it and the start time are given. *)
Definition unreadable (event : CalendarEvent) : bool :=
  negb (reads (read_date (start_date event)))
  || match given (end_date event) with
     | Some s => negb (reads (read_date s))
     | None => false
     end
  || match given (start_time event) with
     | Some s =>
         negb (reads (read_time s))
         || match given (end_time event) with
            | Some s' => negb (reads (read_time s'))
            | None => false
            end
     | None => false
     end.

Definition strict_date (s : string) : option date :=
  match list_ascii_of_string s with
  | [y1; y2; y3; y4; s1; m1; m2; s2; d1; d2] =>
      if forallb is_digit [y1; y2; y3; y4; m1; m2; d1; d2]
         && is_char "-" s1 && is_char "-" s2
      then
        let d := mkdate (int_of [y1; y2; y3; y4]) (int_of [m1; m2])
                        (int_of [d1; d2]) in
        if valid_date d then Some d else None
      else None
  | _ => None
  end.

Definition strict_time (s : string) : option time :=
  match list_ascii_of_string s with
  | [h1; h2; c; m1; m2] =>
      if forallb is_digit [h1; h2; m1; m2] && is_char ":" c
      then
        let h := int_of [h1; h2] in
        let m := int_of [m1; m2] in
        if (h <? 24) && (m <? 60) then Some (mktime h m 0) else None
      else None
  | _ => None
  end.

Definition strict_if_present {A} (f : string -> option A) (o : option string)
  : bool :=
  match o with
  | None => true
  | Some s => match f s with Some _ => true | None => false end
  end.

(** Every date of the record is a real date written YYYY-MM-DD and every
    time a time of day written HH:MM. *)
Definition strict (event : CalendarEvent) : bool :=
  strict_if_present strict_date (Some (start_date event))
  && strict_if_present strict_date (end_date event)
  && strict_if_present strict_time (start_time event)
  && strict_if_present strict_time (end_time event).

(** *** The extractor and the batch *)

(** The list of candidates an answer stands for: a list is itself, an
    object with a list under the events key is that list, an object with no
    events key is the only candidate. *)
Definition normal_list (v : json) : option (list json) :=
  match v with
  | JList l => Some l
  | JDict d =>
      match dict_get d "events" with
      | None => Some [v]
      | Some (JList l) => Some l
      | Some _ => None
      end
  | _ => None
  end.

(** Nothing to iterate: the empty object and the empty string. *)
Definition nothing_in (v : json) : bool :=
  match v with
  | JDict [] => true
  | JStr s => String.eqb s ""
  | _ => false
  end.

(** A list or an object. *)
Definition structured (v : json) : bool :=
  match v with JList _ | JDict _ => true | _ => false end.

(** The file system, the temporary names left and the files handed to the
    opener are the same in both worlds. *)
Definition same_disk (w w' : World) : Prop :=
  env w' = env w /\ files w' = files w /\ unwritten w' = unwritten w /\
  temp_names w' = temp_names w /\ opened w' = opened w.

Section WithDecoders.

Context `{Decoders}.

(** The record a candidate gives, if any. *)
Definition candidate_record (current_date : string) (v : json)
  : option CalendarEvent :=
  match ensure_required current_date v with
  | Ok d => parse_obj d
  | Raise _ => None
  end.

(** The line printed for a candidate that is skipped. *)
Definition skipped_line (current_date : string) (v : json) : list line :=
  match ensure_required current_date v with
  | Ok d => match parse_obj d with
            | Some _ => []
            | None => [ErrorParsingEvent d]
            end
  | Raise _ => []
  end.

Definition printed (w : World) (ls : list line) : World :=
  fold_left print ls w.

(** The records a description contributes to the output pane. *)
Definition extracted (client : Client) (w : World) (event_description : string)
  : list CalendarEvent :=
  if strip_truthy event_description then
    match fst (parse_event client event_description w) with
    | Ok parsed_events => parsed_events
    | Raise _ => []
    end
  else [].

End WithDecoders.

End Notions.

Export Notions.

(** ** Inputs of the examples *)

Module Examples.

Import ICal Host CalendarApp.

Definition quoted (s : string) : string :=
  String "034" (s +:+ String "034" EmptyString).

(** The text of a list that holds one object with a name and a start
    date. *)
Definition one_event_text (n d : string) : string :=
  "[{" +:+ quoted "name" +:+ ": " +:+ quoted n +:+ ", " +:+
  quoted "start_date" +:+ ": " +:+ quoted d +:+ "}]".

Definition one_event (n d : string) : json :=
  JList [JDict [("name", JStr n); ("start_date", JStr d)]].

Definition standup_text : string := one_event_text "Standup" "2024-10-31".
Definition review_text : string := one_event_text "Review" "2024-11-08".
Definition apology_text : string := "Sorry, I cannot help with that.".

(** Two objects, the name of the first one a list. *)
Definition mixed_text : string :=
  "[{" +:+ quoted "name" +:+ ": [" +:+ quoted "x" +:+ "]}, {" +:+
  quoted "name" +:+ ": " +:+ quoted "Review" +:+ ", " +:+
  quoted "start_date" +:+ ": " +:+ quoted "2024-11-08" +:+ "}]".

Definition mixed : list json :=
  [JDict [("name", JList [JStr "x"])];
   JDict [("name", JStr "Review"); ("start_date", JStr "2024-11-08")]].

(** A decoder that knows these texts. *)
Definition table_loads (s : string) : option json :=
  if String.eqb s standup_text then Some (one_event "Standup" "2024-10-31")
  else if String.eqb s review_text then Some (one_event "Review" "2024-11-08")
  else if String.eqb s mixed_text then Some (JList mixed)
  else None.

(** A validator that takes strings only; no number occurs in the texts. *)
Definition strict_str (v : json) : option string :=
  match v with JStr s => Some s | _ => None end.

Definition table_decoders : Decoders :=
  {| json_loads := table_loads;
     str_validator := strict_str;
     str_validator_str := fun s => eq_refl |}.

Definition scripted_client : Client := fun _ description =>
  if String.eqb description "standup tomorrow" then Ok standup_text
  else if String.eqb description "review on 8 Nov" then Ok review_text
  else if String.eqb description "two meetings" then Ok mixed_text
  else Ok apology_text.

Definition linux : Env :=
  mkEnv (fun _ => scripted_client) (mkdate 2024 10 30) Linux (Some "/tmp")
        "/app" (fun _ => ZoneLoaded) (fun _ => true) (fun _ => true)
        (fun _ => true) (fun _ => true).

Definition fresh_world (e : Env) (names : list string) : World :=
  mkWorld e ∅ ∅ names [] [] [].

Definition plain (n d : string) : CalendarEvent :=
  mkCalendarEvent n d None None None None None None None.

(** A call at nine with no end time, in a named zone. *)
Definition call : CalendarEvent :=
  mkCalendarEvent "Call" "2024-10-31" None (Some "09:00") None
                  (Some "Asia/Shanghai") None None None.

(** A meeting with a room and two participants. *)
Definition meeting : CalendarEvent :=
  mkCalendarEvent "Meet" "2024-10-31" None None None None
                  (Some ["a@example.com"; "b@example.com"]) (Some "Room 5") None.

End Examples.

(** ** Further notions *)

Module MoreNotions.

Import ICal Host CalendarApp.

(** The last day [date] can hold. *)
Definition last_day : date := mkdate MAXYEAR 12 31.

Definition date_eqb (a b : date) : bool :=
  (year a =? year b) && (month a =? month b) && (day a =? day b).

(** The record asks for a day or an hour after 9999-12-31. *)
Definition past_the_last_day (event : CalendarEvent) : bool :=
  if truthy (start_time event) then
    negb (truthy (end_time event)) &&
    match strict_date (start_date event),
          strict_time (str_of (start_time event)) with
    | Some d, Some t => date_eqb d last_day && (t_hour t =? 23)
    | _, _ => false
    end
  else
    match strict_date (or_else (end_date event) (start_date event)) with
    | Some d => date_eqb d last_day
    | None => false
    end.


(** [None] is [null]. *)
Definition opt_json (o : option string) : json :=
  match o with Some s => JStr s | None => JNull end.

(** [event.dict()] *)
Definition dict_of (event : CalendarEvent) : dict :=
  [("name", JStr (name event));
   ("start_date", JStr (start_date event));
   ("end_date", opt_json (end_date event));
   ("start_time", opt_json (start_time event));
   ("end_time", opt_json (end_time event));
   ("timezone", opt_json (timezone event));
   ("participants", match participants event with
                    | Some l => JList (map JStr l)
                    | None => JNull
                    end);
   ("location", opt_json (location event));
   ("content", opt_json (content event))].

Definition field_names : list string :=
  ["name"; "start_date"; "end_date"; "start_time"; "end_time"; "timezone";
   "participants"; "location"; "content"].

Definition is_field (k : string) : bool := existsb (String.eqb k) field_names.

(** The title [generate_ics] gives the dialog for an exception. *)
Definition title_of (e : exn) : string :=
  match e with
  | ValueError => "Parsing Error"
  | OSError => "File Error"
  | _ => "Unexpected Error"
  end.

Section WithDecoders.

Context `{Decoders}.

(** The exception that ends a description, if any. *)
Definition description_error (client : Client) (w : World)
    (event_description : string) : option exn :=
  match parse_event client event_description w with
  | (Raise e, _) => Some e
  | (Ok parsed_events, w1) =>
      match fst (create_and_import parsed_events w1) with
      | Raise e => Some e
      | Ok _ => None
      end
  end.

End WithDecoders.

End MoreNotions.

Export MoreNotions.

(** ** More inputs for the examples *)

Module Samples.

Import ICal Host CalendarApp Examples.

Definition macos : Env :=
  mkEnv (fun _ => scripted_client) (mkdate 2024 10 30) Darwin (Some "/tmp")
        "/app" (fun _ => ZoneLoaded) (fun _ => true) (fun _ => true)
        (fun _ => true) (fun _ => true).

(** A machine with an empty time zone database. *)
Definition no_zones : Env :=
  mkEnv (fun _ => scripted_client) (mkdate 2024 10 30) Linux (Some "/tmp")
        "/app" (fun _ => NoSuchZone) (fun _ => true) (fun _ => true)
        (fun _ => true) (fun _ => true).

(** An evening that ends after midnight. *)
Definition late : CalendarEvent :=
  mkCalendarEvent "Late" "2024-10-31" None (Some "23:00") (Some "01:00")
                  None None None None.

Definition proto_call : TestPy.CalendarEvent :=
  TestPy.mkCalendarEvent "Call" "2024-10-31" (Some "09:00") None
                         (Some "Asia/Shanghai") None None.

Definition proto_party : TestPy.CalendarEvent :=
  TestPy.mkCalendarEvent "Party" "2024-12-31" None None None
                         (Some ["a@example.com"; "b@example.com"])
                         (Some "Room 5").

Definition proto_built (e : Env) (event : TestPy.CalendarEvent) : Calendar :=
  match TestPy.build_calendar e event with
  | Ok cal => cal
  | Raise _ => new_calendar
  end.

(** An answer whose second candidate is a number. *)
Definition bare_text : string := "[{}, 5]".

Definition bare_loads (s : string) : option json :=
  if String.eqb s bare_text then Some (JList [JDict []; JInt 5])
  else table_loads s.

Definition bare_decoders : Decoders :=
  {| json_loads := bare_loads;
     str_validator := strict_str;
     str_validator_str := fun s => eq_refl |}.

Definition bare_client : Client := fun _ _ => Ok bare_text.


Definition full_disk : Env :=
  mkEnv (fun _ => scripted_client) (mkdate 2024 10 30) Linux (Some "/tmp")
        "/app" (fun _ => ZoneLoaded) (fun _ => true) (fun _ => false)
        (fun _ => true) (fun _ => true).

(** A zone database that refuses the key Asia/../UTC, cannot read the
    directory Asia and has no zone Mars/Base. *)
Definition some_zones : Env :=
  mkEnv (fun _ => scripted_client) (mkdate 2024 10 30) Linux (Some "/tmp")
        "/app"
        (fun key =>
           if String.eqb key "Asia/../UTC" then BadZoneKey
           else if String.eqb key "Asia" then ZoneUnreadable
           else if String.eqb key "Mars/Base" then NoSuchZone
           else ZoneLoaded)
        (fun _ => true) (fun _ => true) (fun _ => true) (fun _ => true).

(** Three days over the new year. *)
Definition trip : CalendarEvent :=
  mkCalendarEvent "Trip" "2024-12-30" (Some "2025-01-02") None None None None
                  None None.

(** The last day there is, all day and late in the evening. *)
Definition final_day : CalendarEvent := plain "Last" "9999-12-31".

Definition last_night : CalendarEvent :=
  mkCalendarEvent "Last" "9999-12-31" None (Some "23:30") None None None None
                  None.

(** Fields that are present and empty. *)
Definition empty_end_date : CalendarEvent :=
  mkCalendarEvent "Standup" "2024-10-31" (Some "") None None None None None
                  None.

Definition empty_start_time : CalendarEvent :=
  mkCalendarEvent "Standup" "2024-10-31" None (Some "") None None None None
                  None.




(** An answer with null under the events key, and an answer with a null
    between two candidates. *)
Definition no_events_text : string := "{" +:+ quoted "events" +:+ ": null}".

Definition null_between_text : string :=
  "[{" +:+ quoted "name" +:+ ": " +:+ quoted "Standup" +:+ ", " +:+
  quoted "start_date" +:+ ": " +:+ quoted "2024-10-31" +:+ "}, null, {" +:+
  quoted "name" +:+ ": " +:+ quoted "Review" +:+ ", " +:+
  quoted "start_date" +:+ ": " +:+ quoted "2024-11-08" +:+ "}]".

Definition null_between : list json :=
  [JDict [("name", JStr "Standup"); ("start_date", JStr "2024-10-31")];
   JNull;
   JDict [("name", JStr "Review"); ("start_date", JStr "2024-11-08")]].

Definition odd_loads (s : string) : option json :=
  if String.eqb s no_events_text then Some (JDict [("events", JNull)])
  else if String.eqb s null_between_text then Some (JList null_between)
  else table_loads s.

Definition odd_decoders : Decoders :=
  {| json_loads := odd_loads;
     str_validator := strict_str;
     str_validator_str := fun s => eq_refl |}.

Definition odd_client : Client := fun _ description =>
  if String.eqb description "no events" then Ok no_events_text
  else if String.eqb description "a null" then Ok null_between_text
  else scripted_client "" description.

End Samples.

(** * Properties *)

(** ** Calendar arithmetic *)

Module DatetimeFacts.

Ltac zdiv := Z.to_euclidean_division_equations; lia.

Lemma month_day_table :
  forallb (fun k => month_day_ok true (Z.of_nat k) &&
                    month_day_ok false (Z.of_nat k))
          (seq 0 365) = true.
Proof. vm_compute. reflexivity. Qed.

Lemma month_day_spec leap n : 0 <= n < 365 -> month_day_ok leap n = true.
Proof.
  intros Hn.
  pose proof (proj1 (forallb_forall _ _) month_day_table (Z.to_nat n)) as H.
  assert (Hin : In (Z.to_nat n) (seq 0 365)) by (apply in_seq; lia).
  apply H in Hin. cbv beta in Hin. rewrite Z2Nat.id in Hin by lia.
  apply andb_prop in Hin. destruct leap; tauto.
Qed.

(** [_ord2ymd] with its quotients and remainders named. *)
Lemma ord2ymd_unfold o :
  let n := o - 1 in
  let n400 := n / 146097 in
  let r400 := n mod 146097 in
  let n100 := r400 / 36524 in
  let r100 := r400 mod 36524 in
  let n4 := r100 / 1461 in
  let r4 := r100 mod 1461 in
  let n1 := r4 / 365 in
  let r1 := r4 mod 365 in
  let y := n400 * 400 + 1 + n100 * 100 + n4 * 4 + n1 in
  _ord2ymd o =
  if (n1 =? 4) || (n100 =? 4) then mkdate (y - 1) 12 31
  else let leap := (n1 =? 3) && (negb (n4 =? 24) || (n100 =? 3)) in
       mkdate y (fst (month_day leap r1)) (snd (month_day leap r1)).
Proof.
  cbv zeta. unfold _ord2ymd, month_day, _DI400Y, _DI100Y, _DI4Y. cbv zeta.
  destruct (_ || _); [reflexivity|].
  destruct (_ <? _); reflexivity.
Qed.

Lemma is_leap_true y :
  y mod 4 = 0 -> (y mod 100 <> 0 \/ y mod 400 = 0) -> _is_leap y = true.
Proof.
  intros H4 H. unfold _is_leap. rewrite H4. cbn.
  destruct H as [H|H].
  - destruct (Z.eqb_spec (y mod 100) 0); [contradiction|reflexivity].
  - rewrite H. cbn. apply orb_true_r.
Qed.

Lemma is_leap_false y :
  (y mod 4 <> 0 \/ (y mod 100 = 0 /\ y mod 400 <> 0)) -> _is_leap y = false.
Proof.
  intros H. unfold _is_leap.
  destruct H as [H|[H1 H2]].
  - destruct (Z.eqb_spec (y mod 4) 0); [contradiction|reflexivity].
  - rewrite H1. cbn. destruct (Z.eqb_spec (y mod 400) 0); [contradiction|].
    apply andb_false_r.
Qed.

(** The leap flag [_ord2ymd] computes from the quotients is the one of the
    year it returns. *)
Lemma leapyear_flag n400 n100 n4 n1 :
  0 <= n400 -> 0 <= n100 <= 3 -> 0 <= n4 <= 24 -> 0 <= n1 <= 3 ->
  _is_leap (n400 * 400 + 1 + n100 * 100 + n4 * 4 + n1) =
  (n1 =? 3) && (negb (n4 =? 24) || (n100 =? 3)).
Proof.
  intros.
  destruct (Z.eqb_spec n1 3) as [e3|e3]; cbn [andb].
  - destruct (Z.eqb_spec n4 24) as [e4|e4]; cbn [negb orb].
    + destruct (Z.eqb_spec n100 3) as [e5|e5].
      * apply is_leap_true; zdiv.
      * apply is_leap_false; zdiv.
    + apply is_leap_true; zdiv.
  - apply is_leap_false; zdiv.
Qed.

Ltac name_quotients o :=
  let n := fresh "n" in
  set (n := o - 1);
  set (n400 := n / 146097); set (r400 := n mod 146097);
  set (n100 := r400 / 36524); set (r100 := r400 mod 36524);
  set (n4 := r100 / 1461); set (r4 := r100 mod 1461);
  set (n1 := r4 / 365); set (r1 := r4 mod 365);
  assert (En : o = n + 1 /\ 0 <= n) by (subst n; lia);
  assert (E400 : n = 146097 * n400 + r400 /\ 0 <= r400 < 146097 /\ 0 <= n400)
    by (subst n400 r400; zdiv);
  assert (E100 : r400 = 36524 * n100 + r100 /\ 0 <= r100 < 36524 /\ 0 <= n100)
    by (subst n100 r100; zdiv);
  assert (E4 : r100 = 1461 * n4 + r4 /\ 0 <= r4 < 1461 /\ 0 <= n4)
    by (subst n4 r4; zdiv);
  assert (E1 : r4 = 365 * n1 + r1 /\ 0 <= r1 < 365 /\ 0 <= n1)
    by (subst n1 r1; zdiv);
  clearbody n n400 r400 n100 r100 n4 r4 n1 r1.

Lemma toordinal_fromordinal o : 1 <= o -> toordinal (fromordinal o) = o.
Proof.
  intros Ho. unfold fromordinal. rewrite ord2ymd_unfold. cbv zeta.
  name_quotients o.
  destruct (Z.eqb_spec n1 4) as [e1|e1];
    [|destruct (Z.eqb_spec n100 4) as [e2|e2]]; cbn [orb].
  - unfold toordinal, _ymd2ord, _days_before_year, _days_before_month.
    cbn [year month day]. rewrite is_leap_true by zdiv.
    change (table _DAYS_BEFORE_MONTH 12) with 334.
    change (2 <? 12) with true. cbn [andb b2z]. zdiv.
  - unfold toordinal, _ymd2ord, _days_before_year, _days_before_month.
    cbn [year month day]. rewrite is_leap_true by zdiv.
    change (table _DAYS_BEFORE_MONTH 12) with 334.
    change (2 <? 12) with true. cbn [andb b2z]. zdiv.
  - rewrite <- (leapyear_flag n400 n100 n4 n1) by lia.
    set (y := n400 * 400 + 1 + n100 * 100 + n4 * 4 + n1).
    pose proof (month_day_spec (_is_leap y) r1 ltac:(lia)) as Hmd.
    unfold month_day_ok in Hmd.
    destruct (month_day (_is_leap y) r1) as [m d]. cbn [fst snd].
    repeat (apply andb_prop in Hmd; destruct Hmd as [Hmd ?]).
    unfold toordinal, _ymd2ord, _days_before_year, _days_before_month.
    cbn [year month day]. unfold days_in_year_upto in *.
    apply Z.eqb_eq in H. subst y. zdiv.
Qed.

Lemma fromordinal_wf o : 1 <= o -> wf_date (fromordinal o).
Proof.
  intros Ho. unfold fromordinal. rewrite ord2ymd_unfold. cbv zeta.
  name_quotients o.
  destruct (Z.eqb_spec n1 4) as [e1|e1];
    [|destruct (Z.eqb_spec n100 4) as [e2|e2]]; cbn [orb].
  - unfold wf_date, _days_in_month; cbn [year month day].
    change (table _DAYS_IN_MONTH 12) with 31. change (12 =? 2) with false.
    cbn [andb]. lia.
  - unfold wf_date, _days_in_month; cbn [year month day].
    change (table _DAYS_IN_MONTH 12) with 31. change (12 =? 2) with false.
    cbn [andb]. lia.
  - rewrite <- (leapyear_flag n400 n100 n4 n1) by lia.
    set (y := n400 * 400 + 1 + n100 * 100 + n4 * 4 + n1).
    pose proof (month_day_spec (_is_leap y) r1 ltac:(lia)) as Hmd.
    unfold month_day_ok in Hmd.
    destruct (month_day (_is_leap y) r1) as [m d]. cbn [fst snd].
    repeat (apply andb_prop in Hmd; destruct Hmd as [Hmd ?]).
    unfold wf_date, _days_in_month. cbn [year month day].
    unfold dim in *. subst y. lia.
Qed.

Lemma fromordinal_year o :
  1 <= o <= _MAXORDINAL -> year (fromordinal o) <= MAXYEAR.
Proof.
  unfold _MAXORDINAL, MAXYEAR. intros Ho.
  unfold fromordinal. rewrite ord2ymd_unfold. cbv zeta.
  destruct (_ || _) eqn:E; cbn [year].
  - zdiv.
  - apply orb_false_elim in E. destruct E as [E1 E2].
    apply Z.eqb_neq in E1, E2. zdiv.
Qed.

Lemma valid_date_wf d : valid_date d = true <-> wf_date d /\ year d <= MAXYEAR.
Proof.
  unfold valid_date, wf_date, MINYEAR.
  rewrite !andb_true_iff, !Z.leb_le. tauto.
Qed.

Lemma fromordinal_valid o :
  1 <= o <= _MAXORDINAL -> valid_date (fromordinal o) = true.
Proof.
  intros Ho. apply valid_date_wf. split.
  - apply fromordinal_wf; lia.
  - apply fromordinal_year; exact Ho.
Qed.

Lemma days_before_year_succ y :
  _days_before_year (y + 1) = _days_before_year y + 365 + b2z (_is_leap y).
Proof.
  unfold _days_before_year, _is_leap. cbv zeta.
  destruct (Z.eqb_spec (y mod 4) 0); destruct (Z.eqb_spec (y mod 100) 0);
    destruct (Z.eqb_spec (y mod 400) 0); cbn; zdiv.
Qed.

Lemma days_before_year_mono y1 y2 :
  y1 <= y2 -> _days_before_year y1 <= _days_before_year y2.
Proof. unfold _days_before_year. cbv zeta. intros. zdiv. Qed.

Lemma month_cases m : 1 <= m <= 12 ->
  m = 1 \/ m = 2 \/ m = 3 \/ m = 4 \/ m = 5 \/ m = 6 \/ m = 7 \/ m = 8 \/
  m = 9 \/ m = 10 \/ m = 11 \/ m = 12.
Proof. lia. Qed.

Ltac months m H :=
  destruct (month_cases m H)
    as [->|[->|[->|[->|[->|[->|[->|[->|[->|[->|[->| ->]]]]]]]]]]].

Lemma upto_succ leap m : 1 <= m <= 11 ->
  days_in_year_upto leap (m + 1) = days_in_year_upto leap m + dim leap m.
Proof.
  intros H. assert (H' : 1 <= m <= 12) by lia.
  months m H'; try lia; destruct leap; reflexivity.
Qed.

Lemma upto_bounds leap m : 1 <= m <= 12 ->
  0 <= days_in_year_upto leap m /\
  days_in_year_upto leap m + dim leap m <= 365 + b2z leap /\ 28 <= dim leap m.
Proof.
  intros H. months m H; destruct leap; cbv; intuition discriminate.
Qed.

Lemma upto_last leap :
  days_in_year_upto leap 12 + dim leap 12 = 365 + b2z leap.
Proof. destruct leap; reflexivity. Qed.

Lemma upto_mono leap m1 m2 : 1 <= m1 -> m1 < m2 -> m2 <= 12 ->
  days_in_year_upto leap m1 + dim leap m1 <= days_in_year_upto leap m2.
Proof.
  intros H1 H2 H3.
  assert (Ha : 1 <= m1 <= 12) by lia. assert (Hb : 1 <= m2 <= 12) by lia.
  months m1 Ha; months m2 Hb; try lia; destruct leap; cbv; discriminate.
Qed.

Lemma toordinal_unfold d :
  toordinal d = _days_before_year (year d) +
                days_in_year_upto (_is_leap (year d)) (month d) + day d.
Proof. reflexivity. Qed.

Lemma days_in_month_dim y m : _days_in_month y m = dim (_is_leap y) m.
Proof. reflexivity. Qed.

Lemma toordinal_range d : wf_date d ->
  _days_before_year (year d) < toordinal d <= _days_before_year (year d + 1).
Proof.
  intros (Hy & Hm & Hd). rewrite toordinal_unfold, days_before_year_succ.
  rewrite days_in_month_dim in Hd.
  pose proof (upto_bounds (_is_leap (year d)) (month d) Hm). lia.
Qed.

(** Two dates with the same ordinal are the same date. *)
Lemma toordinal_inj d1 d2 :
  wf_date d1 -> wf_date d2 -> toordinal d1 = toordinal d2 -> d1 = d2.
Proof.
  intros W1 W2 E.
  pose proof (toordinal_range d1 W1) as R1.
  pose proof (toordinal_range d2 W2) as R2.
  assert (Ey : year d1 = year d2).
  { destruct (Z.lt_trichotomy (year d1) (year d2)) as [L|[L|L]]; [|exact L|].
    - pose proof (days_before_year_mono (year d1 + 1) (year d2) ltac:(lia)).
      lia.
    - pose proof (days_before_year_mono (year d2 + 1) (year d1) ltac:(lia)).
      lia. }
  destruct d1 as [y1 m1 dd1], d2 as [y2 m2 dd2].
  unfold wf_date in W1, W2. rewrite !toordinal_unfold in E.
  cbn [year month day] in *. subst y2.
  rewrite days_in_month_dim in W1, W2.
  destruct W1 as (_ & Hm1 & Hd1), W2 as (_ & Hm2 & Hd2).
  assert (Em : m1 = m2).
  { destruct (Z.lt_trichotomy m1 m2) as [L|[L|L]]; [|exact L|].
    - pose proof (upto_mono (_is_leap y1) m1 m2 ltac:(lia) L ltac:(lia)). lia.
    - pose proof (upto_mono (_is_leap y1) m2 m1 ltac:(lia) L ltac:(lia)). lia. }
  subst m2. f_equal. lia.
Qed.

Lemma toordinal_pos d : wf_date d -> 1 <= toordinal d.
Proof.
  intros W. pose proof (toordinal_range d W) as R.
  pose proof (days_before_year_mono 1 (year d) ltac:(destruct W; lia)) as M.
  change (_days_before_year 1) with 0 in M. lia.
Qed.

Lemma fromordinal_toordinal d : wf_date d -> fromordinal (toordinal d) = d.
Proof.
  intros W. pose proof (toordinal_pos d W) as P.
  apply toordinal_inj; [apply fromordinal_wf; exact P|exact W|].
  apply toordinal_fromordinal; exact P.
Qed.

Lemma tomorrow_wf d : wf_date d -> wf_date (tomorrow d).
Proof.
  intros (Hy & Hm & Hd). unfold tomorrow.
  destruct (Z.ltb_spec (day d) (_days_in_month (year d) (month d))).
  - unfold wf_date; cbn [year month day]. lia.
  - destruct (Z.ltb_spec (month d) 12).
    + unfold wf_date; cbn [year month day]. rewrite days_in_month_dim.
      pose proof (upto_bounds (_is_leap (year d)) (month d + 1) ltac:(lia)).
      lia.
    + unfold wf_date; cbn [year month day]. rewrite days_in_month_dim.
      pose proof (upto_bounds (_is_leap (year d + 1)) 1 ltac:(lia)). lia.
Qed.

Lemma toordinal_tomorrow d :
  wf_date d -> toordinal (tomorrow d) = toordinal d + 1.
Proof.
  intros (Hy & Hm & Hd). unfold tomorrow. rewrite days_in_month_dim in *.
  destruct (Z.ltb_spec (day d) (dim (_is_leap (year d)) (month d))).
  - rewrite !toordinal_unfold. cbn [year month day]. lia.
  - destruct (Z.ltb_spec (month d) 12).
    + rewrite !toordinal_unfold. cbn [year month day].
      rewrite upto_succ by lia. lia.
    + rewrite !toordinal_unfold. cbn [year month day].
      rewrite days_before_year_succ.
      assert (Em : month d = 12) by lia. rewrite Em in *.
      pose proof (upto_last (_is_leap (year d))).
      change (days_in_year_upto (_is_leap (year d + 1)) 1) with 0. lia.
Qed.

(** [d + timedelta(days=1)] is the next day of the calendar, or
    [OverflowError] on the last day [date] can hold. *)
Lemma date_add_one_day d :
  wf_date d ->
  date_add d (days 1) =
  if toordinal d <? _MAXORDINAL then Ok (tomorrow d) else Raise OverflowError.
Proof.
  intros W. unfold date_add, days. cbn [td_days].
  pose proof (toordinal_pos d W).
  destruct (Z.ltb_spec 0 (toordinal d + 1)); [|lia].
  destruct (Z.ltb_spec (toordinal d) _MAXORDINAL);
    destruct (Z.leb_spec (toordinal d + 1) _MAXORDINAL); try lia; cbn [andb].
  - rewrite <- toordinal_tomorrow by exact W.
    rewrite fromordinal_toordinal by (apply tomorrow_wf; exact W). reflexivity.
  - reflexivity.
Qed.

(** [t + timedelta(hours=1)], when it does not overflow, is 3600 seconds
    later and keeps the zone of [t]. *)
Lemma datetime_add_one_hour t t' :
  datetime_add t (hours 1) = Ok t' ->
  timeline t' = timeline t + 3600 /\ tzinfo t' = tzinfo t /\
  wf_date (dt_date t') /\ 0 <= hour t' < 24 /\ 0 <= minute t' < 60 /\
  0 <= second t' < 60.
Proof.
  unfold datetime_add, hours. cbn [td_days td_seconds].
  change (1 * 3600 / 86400) with 0. change ((1 * 3600) mod 86400) with 3600.
  set (secs := hour t * 3600 + minute t * 60 + second t + 3600).
  set (o := toordinal (dt_date t) + 0 + secs / 86400).
  destruct (Z.ltb_spec 0 o); [|discriminate].
  destruct (Z.leb_spec o _MAXORDINAL); [|discriminate]. cbn [andb].
  intros E. inversion E; subst t'; clear E.
  unfold timeline. cbn [dt_date hour minute second tzinfo].
  rewrite toordinal_fromordinal by lia.
  split; [|split; [reflexivity|split; [apply fromordinal_wf; lia|]]].
  - subst o secs. zdiv.
  - zdiv.
Qed.

End DatetimeFacts.

(** ** Text *)

Module UnicodeFacts.

Lemma zero_of_spec c z :
  zero_of c = Some z -> In z decimal_zeros /\ (z <= c < z + 10)%N.
Proof.
  unfold zero_of. intros H. apply find_some in H. destruct H as [H1 H2].
  split; [exact H1|]. apply andb_prop in H2. destruct H2 as [Ha Hb].
  apply N.leb_le in Ha. apply N.ltb_lt in Hb. lia.
Qed.

(** The decimal digits lie in four stretches of the code space. *)
Lemma is_decimal_range c :
  is_decimal c = true ->
  (48 <= c <= 57 \/ 1632 <= c <= 4249 \/ 6112 <= c <= 7257 \/ 42528 <= c)%N.
Proof.
  unfold is_decimal. destruct (zero_of c) as [z|] eqn:E; [|discriminate].
  intros _. apply zero_of_spec in E. destruct E as [I R].
  unfold decimal_zeros in I. cbn [In] in I.
  repeat (destruct I as [<-|I]; [lia|]). destruct I.
Qed.

Lemma plain_digit c :
  (48 <= c <= 57)%N -> is_decimal c = true /\ decimal_value c = Z.of_N c - 48.
Proof.
  intros H. unfold is_decimal, decimal_value, zero_of, decimal_zeros.
  cbn [find].
  replace ((48 <=? c)%N && (c <? 48 + 10)%N) with true; [split; [reflexivity|lia]|].
  symmetry. apply andb_true_intro. split; [apply N.leb_le|apply N.ltb_lt]; lia.
Qed.

Lemma is_whitespace_cases c :
  is_whitespace c = true ->
  (c <= 32 \/ c = 133 \/ c = 160 \/ c = 5760 \/ 8192 <= c <= 12288)%N.
Proof.
  unfold is_whitespace. intros H.
  repeat (apply orb_prop in H; destruct H as [H|H]);
    repeat (apply andb_prop in H; destruct H as [H ?]);
    repeat match goal with
           | X : (_ <=? _)%N = true |- _ => apply N.leb_le in X
           | X : (_ =? _)%N = true |- _ => apply N.eqb_eq in X
           end; lia.
Qed.

Lemma whitespace_not_decimal c : is_whitespace c = true -> is_decimal c = false.
Proof.
  intros W. destruct (is_decimal c) eqn:D; [|reflexivity].
  apply is_whitespace_cases in W. apply is_decimal_range in D. lia.
Qed.

Lemma decimal_not_whitespace c : is_decimal c = true -> is_whitespace c = false.
Proof.
  intros D. destruct (is_whitespace c) eqn:W; [|reflexivity].
  rewrite (whitespace_not_decimal _ W) in D. discriminate.
Qed.

Lemma byte_lt c : (byte c < 256)%N.
Proof. unfold byte. apply N_ascii_bounded. Qed.

Lemma list_ascii_of_string_app a b :
  list_ascii_of_string (a +:+ b) = list_ascii_of_string a ++ list_ascii_of_string b.
Proof.
  induction a as [|c a IH]; [reflexivity|].
  change (String c a +:+ b) with (String c (a +:+ b)).
  cbn [list_ascii_of_string app]. rewrite IH. reflexivity.
Qed.

Lemma not_continuation b : (b < 128)%N -> is_continuation b = false.
Proof.
  intros H. unfold is_continuation. apply andb_false_iff. left.
  apply N.leb_gt. lia.
Qed.

Lemma two_bytes_plain b0 b1 : (b1 < 128)%N -> two_bytes b0 b1 = None.
Proof.
  intros H. unfold two_bytes. rewrite (not_continuation _ H).
  rewrite andb_false_r. reflexivity.
Qed.

Lemma three_bytes_plain1 b0 b1 b2 : (b1 < 128)%N -> three_bytes b0 b1 b2 = None.
Proof.
  intros H. unfold three_bytes. rewrite (not_continuation _ H).
  rewrite ?andb_false_r. reflexivity.
Qed.

Lemma three_bytes_plain2 b0 b1 b2 : (b2 < 128)%N -> three_bytes b0 b1 b2 = None.
Proof.
  intros H. unfold three_bytes. rewrite (not_continuation _ H).
  rewrite ?andb_false_r. reflexivity.
Qed.

Lemma four_bytes_plain1 b0 b1 b2 b3 :
  (b1 < 128)%N -> four_bytes b0 b1 b2 b3 = None.
Proof.
  intros H. unfold four_bytes. rewrite (not_continuation _ H).
  rewrite ?andb_false_r. reflexivity.
Qed.

Lemma four_bytes_plain2 b0 b1 b2 b3 :
  (b2 < 128)%N -> four_bytes b0 b1 b2 b3 = None.
Proof.
  intros H. unfold four_bytes. rewrite (not_continuation _ H).
  rewrite ?andb_false_r. reflexivity.
Qed.

Lemma four_bytes_plain3 b0 b1 b2 b3 :
  (b3 < 128)%N -> four_bytes b0 b1 b2 b3 = None.
Proof.
  intros H. unfold four_bytes. rewrite (not_continuation _ H).
  rewrite ?andb_false_r. reflexivity.
Qed.

Lemma decode_plain c s : (byte c < 128)%N -> decode (c :: s) = byte c :: decode s.
Proof.
  intros H. cbn [decode]. apply N.ltb_lt in H. rewrite H. reflexivity.
Qed.

(** A plain character ends whatever comes before it: the text on either
    side is decoded by itself. *)
Lemma decode_app_plain a c b :
  (byte c < 128)%N ->
  decode (a ++ c :: b) = decode a ++ byte c :: decode b.
Proof.
  intros Hc.
  assert (G : forall n a, (length a <= n)%nat ->
              decode (a ++ c :: b) = decode a ++ byte c :: decode b).
  { clear a. induction n as [|n IH]; intros a L.
    - destruct a; [|cbn in L; lia]. cbn [app decode]. apply decode_plain, Hc.
    - destruct a as [|c0 s1]; [cbn [app decode]; apply decode_plain, Hc|].
      cbn [length] in L.
      assert (I1 : decode (s1 ++ c :: b) = decode s1 ++ byte c :: decode b)
        by (apply IH; lia).
      cbn [app]. cbn [decode].
      destruct (byte c0 <? 128)%N eqn:E0.
      { rewrite I1. reflexivity. }
      destruct s1 as [|c1 s2].
      { cbn [app] in *. rewrite (two_bytes_plain _ _ Hc).
        destruct b as [|c2 s3].
        - rewrite (decode_plain _ _ Hc). reflexivity.
        - rewrite (three_bytes_plain1 _ _ _ Hc).
          destruct s3 as [|c3 s4].
          + rewrite (decode_plain _ _ Hc). reflexivity.
          + rewrite (four_bytes_plain1 _ _ _ _ Hc).
            rewrite (decode_plain _ _ Hc). reflexivity. }
      cbn [app] in *.
      destruct (two_bytes (byte c0) (byte c1)) as [x|] eqn:E2.
      { cbn [length] in L. rewrite (IH s2) by lia. reflexivity. }
      destruct s2 as [|c2 s3].
      { cbn [app] in *. rewrite (three_bytes_plain2 _ _ _ Hc).
        destruct b as [|c3 s4].
        - rewrite I1. reflexivity.
        - rewrite (four_bytes_plain2 _ _ _ _ Hc). rewrite I1. reflexivity. }
      cbn [app] in *.
      destruct (three_bytes (byte c0) (byte c1) (byte c2)) as [x|] eqn:E3.
      { cbn [length] in L. rewrite (IH s3) by lia. reflexivity. }
      destruct s3 as [|c3 s4].
      { cbn [app] in *. rewrite (four_bytes_plain3 _ _ _ _ Hc). rewrite I1.
        reflexivity. }
      cbn [app] in *.
      destruct (four_bytes (byte c0) (byte c1) (byte c2) (byte c3)) as [x|] eqn:E4.
      { cbn [length] in L. rewrite (IH s4) by lia. reflexivity. }
      rewrite I1. reflexivity. }
  apply (G (length a)). lia.
Qed.

Lemma codepoints_space a b :
  codepoints (a +:+ " " +:+ b) = codepoints a ++ 32%N :: codepoints b.
Proof.
  unfold codepoints. rewrite list_ascii_of_string_app.
  change (list_ascii_of_string (" " +:+ b))
    with (" "%char :: list_ascii_of_string b).
  rewrite decode_app_plain; [reflexivity|]. vm_compute. reflexivity.
Qed.

(** Text in plain characters is its own code points. *)
Lemma decode_all_plain s :
  forallb (fun c => (byte c <? 128)%N) s = true -> decode s = map byte s.
Proof.
  induction s as [|c s IH]; [reflexivity|]. cbn [forallb]. intros H.
  apply andb_prop in H. destruct H as [H1 H2]. apply N.ltb_lt in H1.
  rewrite (decode_plain _ _ H1), IH by assumption. reflexivity.
Qed.

End UnicodeFacts.

(** ** [_strptime] *)

Module StrptimeFacts.

Import DatetimeFacts UnicodeFacts.

Lemma strptime_ok s f t :
  strptime s f = Ok t ->
  valid_date (dt_date t) = true /\ second t = 0 /\ tzinfo t = None.
Proof.
  unfold strptime.
  destruct (matches _ _) as [|m ?]; [discriminate|].
  destruct (after m); [|discriminate].
  unfold new_date. destruct (valid_date _) eqn:V; cbn [bind]; [|discriminate].
  intros E; inversion E; subst t; clear E. cbn. auto.
Qed.


(** *** The first match *)

Lemma group_or_values g name default :
  group_or g name default =
  value_or (map (fun e => (fst e, int (snd e))) g) name default.
Proof.
  unfold group_or, value_or.
  induction g as [|e g IH]; [reflexivity|].
  cbn [map find fst snd]. destruct (Ascii.eqb (fst e) name); [reflexivity|exact IH].
Qed.

Lemma strptime_first_match s f :
  strptime s f =
  match first_match (pattern (codepoints f)) (codepoints s) with
  | Some (vs, []) =>
      try! d := new_date (value_or vs "Y" 1900) (value_or vs "m" 1)
                         (value_or vs "d" 1) in
      Ok (mkdatetime d (value_or vs "H" 0) (value_or vs "M" 0) 0 None)
  | _ => Raise ValueError
  end.
Proof.
  unfold strptime, first_match.
  destruct (matches _ _) as [|m l]; [reflexivity|].
  destruct (after m); [|reflexivity].
  unfold values. rewrite !group_or_values. reflexivity.
Qed.

Lemma flat_map_nothing {A B} (f : A -> list B) l :
  Forall (fun a => f a = []) l -> flat_map f l = [].
Proof.
  induction 1 as [|a l Ha _ IH]; [reflexivity|].
  cbn [flat_map]. rewrite Ha, IH. reflexivity.
Qed.

Lemma matches_cat_nil r1 r2 s : matches r1 s = [] -> matches (Cat r1 r2) s = [].
Proof. intros H. cbn [matches]. rewrite H. reflexivity. Qed.

(** When the first way to match [r1] does not go on, and no other does
    either, or when it does go on, the first match of [Cat r1 r2] goes
    through it. *)
Lemma first_match_cat r1 r2 s m l :
  matches r1 s = m :: l ->
  (matches r2 (after m) = [] ->
   Forall (fun m' => matches r2 (after m') = []) l) ->
  first_match (Cat r1 r2) s =
  match first_match r2 (after m) with
  | Some (vs, aft) => Some (values m ++ vs, aft)
  | None => None
  end.
Proof.
  intros H1 H2. unfold first_match. cbn [matches]. rewrite H1.
  cbn [flat_map]. destruct (matches r2 (after m)) as [|m2 l2] eqn:E.
  - cbn [map app]. rewrite flat_map_nothing; [reflexivity|].
    specialize (H2 eq_refl). clear H1.
    induction H2 as [|a l' Ha _ IH]; constructor; [|exact IH].
    rewrite Ha. reflexivity.
  - cbn [map app]. unfold values. cbn [captured after]. rewrite map_app.
    reflexivity.
Qed.

Lemma first_match_eps s : first_match Eps s = Some ([], s).
Proof. reflexivity. Qed.

Lemma first_match_chr a r s :
  first_match (Cat (chr a) r) s =
  match skip a s with
  | Some rest => first_match r rest
  | None => None
  end.
Proof.
  unfold first_match, chr, skip, is_literal. cbn [matches].
  destruct s as [|c rest]; [reflexivity|].
  rewrite (N.eqb_sym (byte a) c). destruct (c =? byte a)%N; [|reflexivity].
  cbn [flat_map after captured span app]. rewrite app_nil_r.
  destruct (matches r rest) as [|m l]; [reflexivity|].
  cbn [map]. unfold values. reflexivity.
Qed.

Lemma chr_no_digit a r c s :
  is_decimal (byte a) = false -> is_decimal c = true ->
  matches (Cat (chr a) r) (c :: s) = [].
Proof.
  intros Ha Hc. unfold chr, is_literal. cbn [matches].
  destruct (byte a =? c)%N eqn:E; [|reflexivity].
  apply N.eqb_eq in E. subst c. congruence.
Qed.

(** The ways to take white space: the whole run first; every other way
    leaves white space. *)
Lemma star_splits_whitespace s :
  exists run l,
    star_splits is_whitespace s = (run, lstrip s) :: l /\
    Forall (fun m => exists c s', snd m = c :: s' /\ is_whitespace c = true) l.
Proof.
  induction s as [|c s IH]; [exists [], []; split; [reflexivity|constructor]|].
  cbn [star_splits lstrip]. destruct (is_whitespace c) eqn:W.
  - destruct IH as (run & l & E & F). rewrite E. cbn [map app fst snd].
    exists (c :: run), (map (fun m => (c :: fst m, snd m)) l ++ [([], c :: s)]).
    split; [reflexivity|]. apply Forall_app. split.
    + clear E.
      induction F as [|m l' Hm _ IHF]; cbn [map]; constructor; [|exact IHF].
      cbn [snd]. exact Hm.
    + constructor; [|constructor]. cbn [snd]. eauto.
  - exists [], []. split; [reflexivity|constructor].
Qed.

Lemma first_match_whitespace r s :
  (forall c s', is_whitespace c = true -> matches r (c :: s') = []) ->
  first_match (Cat (Plus is_whitespace) r) s =
  match s with
  | c :: rest => if is_whitespace c then first_match r (lstrip rest) else None
  | [] => None
  end.
Proof.
  intros Hr. destruct s as [|c rest]; [reflexivity|].
  destruct (is_whitespace c) eqn:W.
  - destruct (star_splits_whitespace rest) as (run & l & E & F).
    rewrite (first_match_cat _ _ _ (mkfound [] (c :: run) (lstrip rest))
               (map (fun m => mkfound [] (fst m) (snd m))
                    (map (fun m => (c :: fst m, snd m)) l))).
    + cbn [after values captured map app].
      destruct (first_match r (lstrip rest)) as [[vs aft]|]; reflexivity.
    + cbn [matches plus_splits]. rewrite W, E. reflexivity.
    + intros _. clear E.
      induction F as [|m l' Hm _ IHF]; cbn [map]; constructor; [|exact IHF].
      cbn [after snd]. destruct Hm as (c' & s' & E' & W').
      rewrite <- (Hr c' s' W'). f_equal. exact E'.
  - unfold first_match. cbn [matches plus_splits]. rewrite W. reflexivity.
Qed.

Lemma plus_no_digit r c s :
  is_decimal c = true -> matches (Cat (Plus is_whitespace) r) (c :: s) = [].
Proof.
  intros D. cbn [matches plus_splits].
  rewrite (decimal_not_whitespace _ D). reflexivity.
Qed.

(** *** A directive and its reader *)

Section Reader.

Variables (r : regex) (g : ascii) (rd : text -> option token).

(** The reader says whether the directive matches; its token is the first
    way to match, and every other way stops before a digit. *)
Hypothesis Hrd : forall s,
  match rd s with
  | None => matches r s = []
  | Some (v, rest) =>
      exists tok l,
        matches r s = mkfound [(g, tok)] tok rest :: l /\ int tok = v /\
        Forall (fun m' => exists c s', after m' = c :: s' /\ is_decimal c = true) l
  end.

Lemma first_match_reader r2 s :
  (forall c s', is_decimal c = true -> matches r2 (c :: s') = []) \/
  (forall s', matches r2 s' <> []) ->
  first_match (Cat r r2) s =
  match rd s with
  | None => None
  | Some (v, rest) =>
      match first_match r2 rest with
      | Some (vs, aft) => Some ((g, v) :: vs, aft)
      | None => None
      end
  end.
Proof.
  intros H2. specialize (Hrd s). destruct (rd s) as [[v rest]|].
  - destruct Hrd as (tok & l & E & I & F).
    rewrite (first_match_cat _ _ _ _ _ E).
    + cbn [after values captured map fst snd app]. rewrite I. reflexivity.
    + cbn [after]. intros N. destruct H2 as [H2|H2]; [|destruct (H2 _ N)].
      clear E. induction F as [|m' l' Hm _ IHF]; constructor; [|exact IHF].
      destruct Hm as (c & s' & -> & D). apply H2, D.
  - unfold first_match. rewrite (matches_cat_nil _ _ _ Hrd). reflexivity.
Qed.

Lemma reader_no_match c s :
  rd (c :: s) = None -> forall r2, matches (Cat r r2) (c :: s) = [].
Proof.
  intros E r2. specialize (Hrd (c :: s)). rewrite E in Hrd.
  apply matches_cat_nil, Hrd.
Qed.

End Reader.

(** *** The five directives *)

Lemma between_same a c : between a a c = is_literal (byte a) c.
Proof.
  unfold between, is_literal.
  destruct (byte a =? c)%N eqn:E.
  - apply N.eqb_eq in E. rewrite E, N.leb_refl. reflexivity.
  - apply N.eqb_neq in E. apply andb_false_iff.
    destruct (byte a <=? c)%N eqn:L; [right|left; reflexivity].
    apply N.leb_le in L. apply N.leb_gt. lia.
Qed.

Lemma blank_literal c :
  blank c = if is_literal (byte " ") c then Some 0 else None.
Proof. unfold blank, is_literal. rewrite N.eqb_sym. reflexivity. Qed.

Lemma between_digit lo hi c :
  (48 <= byte lo)%N -> (byte hi <= 57)%N -> between lo hi c = true ->
  is_decimal c = true /\ decimal_value c = Z.of_N c - 48.
Proof.
  intros Hl Hh H. unfold between in H. apply andb_prop in H.
  destruct H as [H1 H2]. apply N.leb_le in H1, H2. apply plain_digit. lia.
Qed.

Lemma literal_digit a c :
  (48 <= byte a <= 57)%N -> is_literal (byte a) c = true ->
  is_decimal c = true /\ decimal_value c = Z.of_N c - 48.
Proof.
  intros Ha H. unfold is_literal in H. apply N.eqb_eq in H. subst c.
  apply plain_digit, Ha.
Qed.

Lemma literal_not_digit a c :
  is_decimal (byte a) = false -> is_literal (byte a) c = true ->
  is_decimal c = false.
Proof.
  intros Ha H. unfold is_literal in H. apply N.eqb_eq in H. subst c. exact Ha.
Qed.

(** Turn what is known of the characters into arithmetic. *)
Ltac known :=
  repeat match goal with
  | H : between ?lo ?hi ?c = true |- _ =>
      let D := fresh "D" in let V := fresh "V" in
      destruct (between_digit lo hi c ltac:(vm_compute; discriminate)
                              ltac:(vm_compute; discriminate) H) as [D V];
      unfold between in H; apply andb_prop in H;
      let H1 := fresh in let H2 := fresh in
      destruct H as [H1 H2]; apply N.leb_le in H1, H2;
      vm_compute (byte _) in H1; vm_compute (byte _) in H2
  | H : between ?lo ?hi ?c = false |- _ =>
      unfold between in H; apply andb_false_iff in H;
      let H1 := fresh in
      destruct H as [H1|H1]; apply N.leb_gt in H1;
      vm_compute (byte _) in H1
  | H : is_literal (byte ?a) ?c = true |- _ =>
      first [ let D := fresh "D" in let V := fresh "V" in
              destruct (literal_digit a c ltac:(vm_compute; split; discriminate) H)
                as [D V]
            | let D := fresh "D" in
              pose proof (literal_not_digit a c ltac:(vm_compute; reflexivity) H)
                as D ];
      unfold is_literal in H; apply N.eqb_eq in H; vm_compute (byte _) in H
  | H : is_literal (byte ?a) ?c = false |- _ =>
      unfold is_literal in H; apply N.eqb_neq in H; vm_compute (byte _) in H
  end.

Ltac no_way := exfalso; known; first [lia | congruence].

(** Take the tests of the goal one by one, leaving the cases that cannot
    be. *)
Ltac cases :=
  repeat (progress (
    repeat match goal with
    | |- context [if ?b then _ else _] =>
        destruct b eqn:?; try solve [no_way]
    end;
    cbn [first_of one two matches flat_map map app captured span after])).

Ltac digits_of :=
  unfold int; cbn [fold_left];
  repeat match goal with
  | D : is_decimal ?c = _ |- context [is_decimal ?c] => rewrite D
  | V : decimal_value ?c = _ |- context [decimal_value ?c] => rewrite V
  end; lia.

Ltac stops_at_digit :=
  repeat (constructor;
          [cbn [after]; eexists; eexists; split; [reflexivity|assumption]|]);
  constructor.

Ltac take_token :=
  eexists; eexists; split; [reflexivity|]; known;
  (split; [digits_of|stops_at_digit]).

Ltac by_cases :=
  cbn [first_of one two matches flat_map map app captured span after];
  unfold digit_in, any_digit; rewrite ?blank_literal, ?between_same; cases;
  first [reflexivity | solve [take_token] | solve [no_way]].

Lemma read_year_directive s :
  match read_year s with
  | None => matches (directive (byte "Y")) s = []
  | Some (v, rest) =>
      exists tok l,
        matches (directive (byte "Y")) s = mkfound [("Y"%char, tok)] tok rest :: l /\
        int tok = v /\
        Forall (fun m' => exists c s', after m' = c :: s' /\ is_decimal c = true) l
  end.
Proof.
  change (directive (byte "Y")) with
    (Group "Y" (Cat digit (Cat digit (Cat digit digit)))).
  unfold read_year, digit.
  destruct s as [|c1 [|c2 [|c3 [|c4 s4]]]]; by_cases.
Qed.

Lemma read_month_directive s :
  match read_month s with
  | None => matches (directive (byte "m")) s = []
  | Some (v, rest) =>
      exists tok l,
        matches (directive (byte "m")) s = mkfound [("m"%char, tok)] tok rest :: l /\
        int tok = v /\
        Forall (fun m' => exists c s', after m' = c :: s' /\ is_decimal c = true) l
  end.
Proof.
  change (directive (byte "m")) with
    (Group "m" (Alt (Cat (chr "1") (rng "0" "2"))
               (Alt (Cat (chr "0") (rng "1" "9")) (rng "1" "9")))).
  unfold read_month, chr, rng, digit.
  destruct s as [|c1 [|c2 s2]]; by_cases.
Qed.

Lemma read_day_directive s :
  match read_day s with
  | None => matches (directive (byte "d")) s = []
  | Some (v, rest) =>
      exists tok l,
        matches (directive (byte "d")) s = mkfound [("d"%char, tok)] tok rest :: l /\
        int tok = v /\
        Forall (fun m' => exists c s', after m' = c :: s' /\ is_decimal c = true) l
  end.
Proof.
  change (directive (byte "d")) with
    (Group "d" (Alt (Cat (chr "3") (rng "0" "1"))
               (Alt (Cat (rng "1" "2") digit)
               (Alt (Cat (chr "0") (rng "1" "9"))
               (Alt (rng "1" "9") (Cat (chr " ") (rng "1" "9"))))))).
  unfold read_day, chr, rng, digit.
  destruct s as [|c1 [|c2 s2]]; by_cases.
Qed.

Lemma read_hour_directive s :
  match read_hour s with
  | None => matches (directive (byte "H")) s = []
  | Some (v, rest) =>
      exists tok l,
        matches (directive (byte "H")) s = mkfound [("H"%char, tok)] tok rest :: l /\
        int tok = v /\
        Forall (fun m' => exists c s', after m' = c :: s' /\ is_decimal c = true) l
  end.
Proof.
  change (directive (byte "H")) with
    (Group "H" (Alt (Cat (chr "2") (rng "0" "3"))
               (Alt (Cat (rng "0" "1") digit) digit))).
  unfold read_hour, chr, rng, digit.
  destruct s as [|c1 [|c2 s2]]; by_cases.
Qed.

Lemma read_minute_directive s :
  match read_minute s with
  | None => matches (directive (byte "M")) s = []
  | Some (v, rest) =>
      exists tok l,
        matches (directive (byte "M")) s = mkfound [("M"%char, tok)] tok rest :: l /\
        int tok = v /\
        Forall (fun m' => exists c s', after m' = c :: s' /\ is_decimal c = true) l
  end.
Proof.
  change (directive (byte "M")) with
    (Group "M" (Alt (Cat (rng "0" "5") digit) digit)).
  unfold read_minute, chr, rng, digit.
  destruct s as [|c1 [|c2 s2]]; by_cases.
Qed.

(** *** The three formats of the program *)

Lemma pattern_date :
  pattern (codepoints CalendarApp.date_format) =
  Cat (directive (byte "Y")) (Cat (chr "-") (Cat (directive (byte "m"))
    (Cat (chr "-") (Cat (directive (byte "d")) Eps)))).
Proof. reflexivity. Qed.

Lemma pattern_datetime :
  pattern (codepoints CalendarApp.datetime_format) =
  Cat (directive (byte "Y")) (Cat (chr "-") (Cat (directive (byte "m"))
    (Cat (chr "-") (Cat (directive (byte "d")) (Cat (Plus is_whitespace)
    (Cat (directive (byte "H")) (Cat (chr ":")
    (Cat (directive (byte "M")) Eps)))))))).
Proof. reflexivity. Qed.

Lemma pattern_clock :
  pattern (codepoints "%H:%M") =
  Cat (directive (byte "H")) (Cat (chr ":") (Cat (directive (byte "M")) Eps)).
Proof. reflexivity. Qed.

Lemma read_hour_no_digit c s : is_decimal c = false -> read_hour (c :: s) = None.
Proof.
  intros D. unfold read_hour. destruct s as [|c2 s2];
    cbn [first_of one two]; unfold digit_in, any_digit; rewrite D;
    repeat match goal with
    | |- context [if ?b then _ else _] => destruct b eqn:?
    end; try reflexivity; exfalso; known; congruence.
Qed.

Lemma eps_matches s : matches Eps s <> [].
Proof. discriminate. Qed.

Ltac goes_on :=
  first [ left; intros ? ? ?; apply chr_no_digit;
          [vm_compute; reflexivity|assumption]
        | left; intros ? ? ?; apply plus_no_digit; assumption
        | right; exact eps_matches ].

Lemma first_match_clock s :
  first_match (Cat (directive (byte "H")) (Cat (chr ":")
                (Cat (directive (byte "M")) Eps))) s =
  match read_hour s with
  | Some (h, s) =>
      match skip ":" s with
      | Some s =>
          match read_minute s with
          | Some (m, s) => Some ([("H"%char, h); ("M"%char, m)], s)
          | None => None
          end
      | None => None
      end
  | None => None
  end.
Proof.
  rewrite (first_match_reader _ _ _ read_hour_directive) by goes_on.
  destruct (read_hour s) as [[h s1]|]; [|reflexivity].
  rewrite first_match_chr. destruct (skip ":" s1) as [s2|]; [|reflexivity].
  rewrite (first_match_reader _ _ _ read_minute_directive) by goes_on.
  destruct (read_minute s2) as [[m s3]|]; reflexivity.
Qed.

Lemma first_match_ymd r s :
  (forall c s', is_decimal c = true -> matches r (c :: s') = []) \/
  (forall s', matches r s' <> []) ->
  first_match (Cat (directive (byte "Y")) (Cat (chr "-")
                (Cat (directive (byte "m")) (Cat (chr "-")
                (Cat (directive (byte "d")) r))))) s =
  match read_year s with
  | Some (y, s) =>
      match skip "-" s with
      | Some s =>
          match read_month s with
          | Some (m, s) =>
              match skip "-" s with
              | Some s =>
                  match read_day s with
                  | Some (d, s) =>
                      match first_match r s with
                      | Some (vs, aft) =>
                          Some (("Y"%char, y) :: ("m"%char, m) ::
                                ("d"%char, d) :: vs, aft)
                      | None => None
                      end
                  | None => None
                  end
              | None => None
              end
          | None => None
          end
      | None => None
      end
  | None => None
  end.
Proof.
  intros Hr.
  rewrite (first_match_reader _ _ _ read_year_directive) by goes_on.
  destruct (read_year s) as [[y s1]|]; [|reflexivity].
  rewrite first_match_chr. destruct (skip "-" s1) as [s2|]; [|reflexivity].
  rewrite (first_match_reader _ _ _ read_month_directive) by goes_on.
  destruct (read_month s2) as [[m s3]|]; [|reflexivity].
  rewrite first_match_chr. destruct (skip "-" s3) as [s4|]; [|reflexivity].
  rewrite (first_match_reader _ _ _ read_day_directive) by exact Hr.
  destruct (read_day s4) as [[d s5]|]; [|reflexivity].
  destruct (first_match r s5) as [[vs aft]|]; reflexivity.
Qed.

(** [strptime] with the date format is the reader of dates. *)
Lemma strptime_date s :
  strptime s CalendarApp.date_format =
  match read_date s with
  | Some d => Ok (mkdatetime d 0 0 0 None)
  | None => Raise ValueError
  end.
Proof.
  rewrite strptime_first_match, pattern_date, first_match_ymd by goes_on.
  unfold read_date, date_at.
  destruct (read_year _) as [[y s1]|]; [|reflexivity].
  destruct (skip "-" s1) as [s2|]; [|reflexivity].
  destruct (read_month s2) as [[m s3]|]; [|reflexivity].
  destruct (skip "-" s3) as [s4|]; [|reflexivity].
  destruct (read_day s4) as [[d s5]|]; [|reflexivity].
  rewrite first_match_eps.
  change (value_or _ "Y" 1900) with y. change (value_or _ "m" 1) with m.
  change (value_or _ "d" 1) with d. change (value_or _ "H" 0) with 0.
  change (value_or _ "M" 0) with 0.
  unfold new_date. destruct (valid_date (mkdate y m d));
    destruct s5; reflexivity.
Qed.

(** [strptime] with the format of a time is the reader of times; the date
    is the first day of 1900. *)
Lemma strptime_clock s :
  strptime s "%H:%M" =
  match read_clock s with
  | Some t => Ok (mkdatetime (mkdate 1900 1 1) (t_hour t) (t_minute t) 0 None)
  | None => Raise ValueError
  end.
Proof.
  rewrite strptime_first_match, pattern_clock, first_match_clock.
  unfold read_clock, clock_at.
  destruct (read_hour _) as [[h s1]|]; [|reflexivity].
  destruct (skip ":" s1) as [s2|]; [|reflexivity].
  destruct (read_minute s2) as [[m s3]|]; [|reflexivity].
  destruct s3; reflexivity.
Qed.

(** [strptime] with the format of a date and a time is the reader of the
    two. *)
Lemma strptime_datetime s :
  strptime s CalendarApp.datetime_format =
  match read_datetime s with
  | Some t => Ok t
  | None => Raise ValueError
  end.
Proof.
  rewrite strptime_first_match, pattern_datetime, first_match_ymd by goes_on.
  unfold read_datetime, date_at.
  destruct (read_year _) as [[y s1]|]; [|reflexivity].
  destruct (skip "-" s1) as [s2|]; [|reflexivity].
  destruct (read_month s2) as [[m s3]|]; [|reflexivity].
  destruct (skip "-" s3) as [s4|]; [|reflexivity].
  destruct (read_day s4) as [[d s5]|]; [|reflexivity].
  rewrite first_match_whitespace.
  2:{ intros c s' W. apply (reader_no_match _ _ _ read_hour_directive).
      apply read_hour_no_digit, whitespace_not_decimal, W. }
  destruct (valid_date (mkdate y m d)) eqn:V;
    (destruct s5 as [|c rest]; [reflexivity|]);
    (destruct (is_whitespace c); [|reflexivity]);
    rewrite first_match_clock; unfold clock_at;
    (destruct (read_hour _) as [[h t1]|]; [|reflexivity]);
    (destruct (skip ":" t1) as [t2|]; [|reflexivity]);
    (destruct (read_minute t2) as [[n t3]|]; [|reflexivity]);
    change (value_or _ "Y" 1900) with y; change (value_or _ "m" 1) with m;
    change (value_or _ "d" 1) with d; change (value_or _ "H" 0) with h;
    change (value_or _ "M" 0) with n;
    unfold new_date; rewrite V; destruct t3; reflexivity.
Qed.

(** *** A date, a space and a time *)

Lemma read_year_app s v rest x :
  read_year s = Some (v, rest) -> read_year (s ++ x) = Some (v, rest ++ x).
Proof.
  unfold read_year. destruct s as [|c1 [|c2 [|c3 [|c4 s4]]]]; try discriminate.
  cbn [app]. destruct (any_digit c1), (any_digit c2), (any_digit c3),
    (any_digit c4); try discriminate.
  intros E; inversion E; reflexivity.
Qed.

Lemma skip_app a s rest x :
  skip a s = Some rest -> skip a (s ++ x) = Some (rest ++ x).
Proof.
  unfold skip. destruct s as [|c s']; [discriminate|]. cbn [app].
  destruct (c =? byte a)%N; [|discriminate]. intros E; inversion E; reflexivity.
Qed.

Lemma plain_space lo hi :
  (48 <= byte lo)%N -> digit_in lo hi 32 = None.
Proof.
  intros H. unfold digit_in, between.
  replace (byte lo <=? 32)%N with false; [reflexivity|].
  symmetry. apply N.leb_gt. lia.
Qed.

Lemma any_digit_space : any_digit 32 = None.
Proof. reflexivity. Qed.

Ltac spaced :=
  rewrite ?any_digit_space, ?plain_space by (vm_compute; discriminate).

Ltac reader_app :=
  intros s; intros;
  match goal with
  | E : _ s = Some _ |- _ =>
      destruct s as [|c1 [|c2 s2]]; cbn [app first_of one two] in *;
      spaced;
      repeat match goal with
      | |- context [match ?p ?c with _ => _ end] =>
          match type of (p c) with option Z => destruct (p c) end
      | X : context [match ?p ?c with _ => _ end] |- _ =>
          match type of (p c) with option Z => destruct (p c) end
      end;
      cbn [app first_of one two] in *; spaced;
      first [discriminate E | inversion E; reflexivity]
  end.

Lemma read_month_app s v rest x :
  read_month s = Some (v, rest) ->
  read_month (s ++ 32%N :: x) = Some (v, rest ++ 32%N :: x).
Proof. unfold read_month. revert s v rest x. reader_app. Qed.

Lemma read_day_app s v rest x :
  read_day s = Some (v, rest) ->
  read_day (s ++ 32%N :: x) = Some (v, rest ++ 32%N :: x).
Proof. unfold read_day. revert s v rest x. reader_app. Qed.

Lemma date_at_app s d rest x :
  date_at s = Some (d, rest) ->
  date_at (s ++ 32%N :: x) = Some (d, rest ++ 32%N :: x).
Proof.
  unfold date_at.
  destruct (read_year s) as [[y s1]|] eqn:E1; [|discriminate].
  rewrite (read_year_app _ _ _ _ E1).
  destruct (skip "-" s1) as [s2|] eqn:E2; [|discriminate].
  rewrite (skip_app _ _ _ _ E2).
  destruct (read_month s2) as [[m s3]|] eqn:E3; [|discriminate].
  rewrite (read_month_app _ _ _ _ E3).
  destruct (skip "-" s3) as [s4|] eqn:E4; [|discriminate].
  rewrite (skip_app _ _ _ _ E4).
  destruct (read_day s4) as [[n s5]|] eqn:E5; [|discriminate].
  rewrite (read_day_app _ _ _ _ E5).
  destruct (valid_date _); [|discriminate].
  intros E; inversion E; reflexivity.
Qed.

Lemma read_date_inv s d : read_date s = Some d -> date_at (codepoints s) = Some (d, []).
Proof.
  unfold read_date. destruct (date_at _) as [[d' [|? ?]]|]; try discriminate.
  intros E; inversion E; reflexivity.
Qed.

(** After a date and a space, the time is read by itself. *)
Lemma read_datetime_space sd st d :
  read_date sd = Some d ->
  read_datetime (sd +:+ " " +:+ st) =
  match read_time st with
  | Some t => Some (combine d t)
  | None => None
  end.
Proof.
  intros H. apply read_date_inv in H.
  unfold read_datetime, read_time. rewrite codepoints_space.
  rewrite (date_at_app _ _ _ _ H). cbn [app].
  change (is_whitespace 32) with true. cbv iota.
  destruct (clock_at _) as [[t [|? ?]]|]; reflexivity.
Qed.

Lemma strptime_date_time sd st d :
  read_date sd = Some d ->
  strptime (sd +:+ " " +:+ st) CalendarApp.datetime_format =
  match read_time st with
  | Some t => Ok (combine d t)
  | None => Raise ValueError
  end.
Proof.
  intros H. rewrite strptime_datetime, (read_datetime_space _ _ _ H).
  destruct (read_time st); reflexivity.
Qed.

Lemma read_date_valid s d : read_date s = Some d -> valid_date d = true.
Proof.
  intros H. apply read_date_inv in H. unfold date_at in H.
  destruct (read_year _) as [[y s1]|]; [|discriminate].
  destruct (skip "-" s1) as [s2|]; [|discriminate].
  destruct (read_month s2) as [[m s3]|]; [|discriminate].
  destruct (skip "-" s3) as [s4|]; [|discriminate].
  destruct (read_day s4) as [[n s5]|]; [|discriminate].
  destruct (valid_date _) eqn:V; [|discriminate].
  inversion H; subst. exact V.
Qed.
(** *** Strictly written dates and times *)

Lemma digit_cases c : is_digit c = true ->
  c = "0"%char \/ c = "1"%char \/ c = "2"%char \/ c = "3"%char \/ c = "4"%char \/
  c = "5"%char \/ c = "6"%char \/ c = "7"%char \/ c = "8"%char \/ c = "9"%char.
Proof.
  destruct c as [[] [] [] [] [] [] [] []]; vm_compute; intros H;
    first [discriminate H | tauto].
Qed.

Ltac digits c H :=
  destruct (digit_cases c H) as [->|[->|[->|[->|[->|[->|[->|[->|[->| ->]]]]]]]]].

Lemma is_digit_byte c : is_digit c = true -> (48 <= byte c <= 57)%N.
Proof.
  unfold is_digit, code, byte. intros H. apply andb_prop in H.
  destruct H as [H1 H2]. apply Z.leb_le in H1, H2. lia.
Qed.

Lemma any_digit_byte c : is_digit c = true -> any_digit (byte c) = Some (code c - 48).
Proof.
  intros H. apply is_digit_byte in H. unfold any_digit.
  destruct (plain_digit _ H) as [D V]. rewrite D, V. reflexivity.
Qed.

Lemma int_of_pair a b :
  is_digit a = true -> is_digit b = true ->
  int_of [a; b] = 10 * (code a - 48) + (code b - 48).
Proof. intros Ha Hb. unfold int_of. cbn [fold_left]. rewrite Ha, Hb. lia. Qed.

Lemma int_of_quad a b c d :
  is_digit a = true -> is_digit b = true -> is_digit c = true ->
  is_digit d = true ->
  int_of [a; b; c; d] =
  1000 * (code a - 48) + 100 * (code b - 48) + 10 * (code c - 48) + (code d - 48).
Proof.
  intros Ha Hb Hc Hd. unfold int_of. cbn [fold_left].
  rewrite Ha, Hb, Hc, Hd. lia.
Qed.

Lemma read_year_digits y1 y2 y3 y4 rest :
  is_digit y1 = true -> is_digit y2 = true -> is_digit y3 = true ->
  is_digit y4 = true ->
  read_year (byte y1 :: byte y2 :: byte y3 :: byte y4 :: rest) =
  Some (int_of [y1; y2; y3; y4], rest).
Proof.
  intros H1 H2 H3 H4. unfold read_year.
  rewrite !any_digit_byte, int_of_quad by assumption. reflexivity.
Qed.

Lemma read_month_digits m1 m2 rest :
  is_digit m1 = true -> is_digit m2 = true -> 1 <= int_of [m1; m2] <= 12 ->
  read_month (byte m1 :: byte m2 :: rest) = Some (int_of [m1; m2], rest).
Proof.
  intros H1 H2. digits m1 H1; digits m2 H2; vm_compute;
    intros [Ha Hb]; first [exfalso; apply Ha; reflexivity
                          | exfalso; apply Hb; reflexivity
                          | reflexivity ].
Qed.

Lemma read_day_digits d1 d2 rest :
  is_digit d1 = true -> is_digit d2 = true -> 1 <= int_of [d1; d2] <= 31 ->
  read_day (byte d1 :: byte d2 :: rest) = Some (int_of [d1; d2], rest).
Proof.
  intros H1 H2. digits d1 H1; digits d2 H2; vm_compute;
    intros [Ha Hb]; first [exfalso; apply Ha; reflexivity
                          | exfalso; apply Hb; reflexivity
                          | reflexivity ].
Qed.

Lemma read_hour_digits h1 h2 rest :
  is_digit h1 = true -> is_digit h2 = true -> int_of [h1; h2] < 24 ->
  read_hour (byte h1 :: byte h2 :: rest) = Some (int_of [h1; h2], rest).
Proof.
  intros H1 H2. digits h1 H1; digits h2 H2; vm_compute;
    intros Ha; first [discriminate Ha | reflexivity ].
Qed.

Lemma read_minute_digits m1 m2 rest :
  is_digit m1 = true -> is_digit m2 = true -> int_of [m1; m2] < 60 ->
  read_minute (byte m1 :: byte m2 :: rest) = Some (int_of [m1; m2], rest).
Proof.
  intros H1 H2. digits m1 H1; digits m2 H2; vm_compute;
    intros Ha; first [discriminate Ha | reflexivity ].
Qed.

Lemma days_in_month_le y m : 1 <= m <= 12 -> _days_in_month y m <= 31.
Proof.
  intros H. rewrite days_in_month_dim.
  months m H; destruct (_is_leap y); cbv; discriminate.
Qed.

Lemma is_char_eq a c : is_char a c = true -> c = a.
Proof. unfold is_char. intros H. apply Ascii.eqb_eq in H. congruence. Qed.

(** What [strict_date] and [strict_time] say about the characters. *)
Lemma strict_date_inv s d :
  strict_date s = Some d ->
  exists y1 y2 y3 y4 m1 m2 d1 d2,
    list_ascii_of_string s = [y1; y2; y3; y4; "-"%char; m1; m2; "-"%char; d1; d2] /\
    forallb is_digit [y1; y2; y3; y4; m1; m2; d1; d2] = true /\
    d = mkdate (int_of [y1; y2; y3; y4]) (int_of [m1; m2]) (int_of [d1; d2]) /\
    valid_date d = true.
Proof.
  unfold strict_date.
  destruct (list_ascii_of_string s) as [|y1 [|y2 [|y3 [|y4 [|s1 [|m1 [|m2 [|s2 [|d1 [|d2 [|? ?]]]]]]]]]]];
    try discriminate.
  destruct (forallb _ _ && _ && _) eqn:E; [|discriminate].
  apply andb_prop in E. destruct E as [E E2]. apply andb_prop in E. destruct E as [E E1].
  apply is_char_eq in E1, E2. subst s1 s2.
  destruct (valid_date _) eqn:V; [|discriminate].
  intros H. inversion H; subst d. exists y1, y2, y3, y4, m1, m2, d1, d2. auto.
Qed.

Lemma strict_time_inv s t :
  strict_time s = Some t ->
  exists h1 h2 m1 m2,
    list_ascii_of_string s = [h1; h2; ":"%char; m1; m2] /\
    forallb is_digit [h1; h2; m1; m2] = true /\
    t = mktime (int_of [h1; h2]) (int_of [m1; m2]) 0 /\
    int_of [h1; h2] < 24 /\ int_of [m1; m2] < 60.
Proof.
  unfold strict_time.
  destruct (list_ascii_of_string s) as [|h1 [|h2 [|c [|m1 [|m2 [|? ?]]]]]];
    try discriminate.
  destruct (forallb _ _ && _) eqn:E; [|discriminate].
  apply andb_prop in E. destruct E as [E E1].
  apply is_char_eq in E1. subst c.
  destruct (_ && _) eqn:V; [|discriminate].
  apply andb_prop in V. destruct V as [V1 V2].
  apply Z.ltb_lt in V1, V2.
  intros H. inversion H; subst t. exists h1, h2, m1, m2. auto.
Qed.

Ltac split_digits E :=
  cbn [forallb] in E;
  repeat (apply andb_prop in E; let H := fresh "D" in destruct E as [H E]).

Lemma digit_plain c : is_digit c = true -> (byte c < 128)%N.
Proof. intros H. apply is_digit_byte in H. lia. Qed.

Ltac plain_text :=
  repeat (rewrite decode_plain;
          [|first [apply digit_plain; assumption | vm_compute; reflexivity]]).

(** A strictly written date is read as the date it writes. *)
Lemma strict_date_read s d : strict_date s = Some d -> read_date s = Some d.
Proof.
  intros H. apply strict_date_inv in H.
  destruct H as (y1 & y2 & y3 & y4 & m1 & m2 & d1 & d2 & Es & Ed & -> & V).
  split_digits Ed.
  pose proof (proj1 (valid_date_wf _) V) as [(_ & Hm & Hd) _].
  cbn [year month day] in Hm, Hd.
  pose proof (days_in_month_le (int_of [y1; y2; y3; y4]) _ Hm).
  unfold read_date, codepoints. rewrite Es. plain_text.
  unfold date_at. rewrite read_year_digits by assumption.
  change (skip "-" (byte "-" :: ?r)) with (Some r). cbv iota.
  rewrite read_month_digits by (assumption || lia).
  change (skip "-" (byte "-" :: ?r)) with (Some r). cbv iota.
  rewrite read_day_digits by (assumption || lia).
  rewrite V. reflexivity.
Qed.

Lemma digit_not_whitespace c : is_digit c = true -> is_whitespace (byte c) = false.
Proof.
  intros H. apply decimal_not_whitespace, plain_digit, is_digit_byte, H.
Qed.

(** A strictly written time is read as the time it writes, by the
    application and by the prototype. *)
Lemma strict_time_read s t :
  strict_time s = Some t -> read_time s = Some t /\ read_clock s = Some t.
Proof.
  intros H. apply strict_time_inv in H.
  destruct H as (h1 & h2 & n1 & n2 & Es & Ed & -> & Hh & Hn).
  split_digits Ed.
  unfold read_time, read_clock, codepoints. rewrite Es. plain_text.
  cbn [lstrip]. rewrite (digit_not_whitespace _ D).
  unfold clock_at. rewrite read_hour_digits by assumption.
  change (skip ":" (byte ":" :: ?r)) with (Some r). cbv iota.
  rewrite read_minute_digits by assumption. split; reflexivity.
Qed.

Lemma strict_date_strptime s d :
  strict_date s = Some d ->
  strptime s CalendarApp.date_format = Ok (mkdatetime d 0 0 0 None).
Proof.
  intros H. rewrite strptime_date, (strict_date_read _ _ H). reflexivity.
Qed.

Lemma strict_datetime_strptime s d t tm :
  strict_date s = Some d -> strict_time t = Some tm ->
  strptime (s +:+ " " +:+ t) CalendarApp.datetime_format = Ok (combine d tm).
Proof.
  intros H Ht. rewrite (strptime_date_time _ _ _ (strict_date_read _ _ H)).
  rewrite (proj1 (strict_time_read _ _ Ht)). reflexivity.
Qed.

Lemma strict_clock_strptime t tm :
  strict_time t = Some tm ->
  strptime t "%H:%M" =
  Ok (mkdatetime (mkdate 1900 1 1) (t_hour tm) (t_minute tm) 0 None).
Proof.
  intros Ht. rewrite strptime_clock, (proj2 (strict_time_read _ _ Ht)).
  reflexivity.
Qed.

End StrptimeFacts.

(** ** Components *)

Module ICalFacts.

Import ICal.

Lemma get_append_value c k k' vs :
  get (append_value c (upper k) vs) k' =
  if String.eqb (upper k) (upper k') then get c k' ++ vs else get c k'.
Proof.
  induction c as [|[k0 v0] c IH]; cbn [append_value get].
  - destruct (String.eqb_spec (upper k) (upper k')); reflexivity.
  - destruct (String.eqb_spec k0 (upper k)) as [E1|E1]; cbn [get].
    + subst k0. destruct (String.eqb_spec (upper k) (upper k')); reflexivity.
    + destruct (String.eqb_spec k0 (upper k')) as [E2|E2].
      * subst k0. destruct (String.eqb_spec (upper k) (upper k')); [congruence|reflexivity].
      * exact IH.
Qed.

Lemma get_add c n v k :
  get (add c n v) k =
  if String.eqb (upper n) (upper k) then get c k ++ [encode n v] else get c k.
Proof. apply get_append_value. Qed.

Lemma get_add_attendees c ps k :
  get (CalendarApp.add_attendees c ps) k =
  if String.eqb "ATTENDEE" (upper k)
  then get c k ++ map (fun p => vCalAddress ("MAILTO:" +:+ p)) (default [] ps)
  else get c k.
Proof.
  unfold CalendarApp.add_attendees.
  generalize (default [] ps). intros l. revert c.
  induction l as [|p l IH]; intros c; cbn [fold_left map].
  - destruct (String.eqb _ _); [rewrite app_nil_r|]; reflexivity.
  - rewrite IH, get_add. change (upper "attendee") with "ATTENDEE".
    destruct (String.eqb "ATTENDEE" (upper k)); [|reflexivity].
    rewrite <- app_assoc. reflexivity.
Qed.

Lemma get_setitem c k vs k' :
  get (setitem c k vs) k' =
  if String.eqb (upper k) (upper k') then vs else get c k'.
Proof.
  induction c as [|[k0 v0] c IH]; cbn [setitem get].
  - destruct (String.eqb_spec (upper k) (upper k')); reflexivity.
  - destruct (String.eqb_spec k0 (upper k)) as [E1|E1]; cbn [get].
    + subst k0. destruct (String.eqb_spec (upper k) (upper k')); reflexivity.
    + destruct (String.eqb_spec k0 (upper k')) as [E2|E2].
      * subst k0. destruct (String.eqb_spec (upper k) (upper k')); [congruence|reflexivity].
      * exact IH.
Qed.

End ICalFacts.

(** ** The builder *)

Module BuilderFacts.

Import ICal Host CalendarApp DatetimeFacts UnicodeFacts StrptimeFacts ICalFacts.

Lemma build_calendar_eq event :
  build_calendar event =
  try! c := timed event in Ok (add_component header (decorated event c)).
Proof.
  unfold build_calendar, timed, end_date_of, end_datetime_of, decorated, header.
  destruct (strptime (start_date event) date_format) as [start|]; cbn [bind]; [|reflexivity].
  destruct (truthy (end_date event)).
  - destruct (strptime (str_of (end_date event)) date_format); cbn [bind]; [|reflexivity].
    destruct (truthy (start_time event)).
    + destruct (strptime _ datetime_format); cbn [bind]; [|reflexivity].
      destruct (if truthy (end_time event) then _ else _); reflexivity.
    + destruct (date_add _ _); reflexivity.
  - cbn [bind]. destruct (truthy (start_time event)).
    + destruct (strptime _ datetime_format); cbn [bind]; [|reflexivity].
      destruct (if truthy (end_time event) then _ else _); reflexivity.
    + destruct (date_add _ _); reflexivity.
Qed.

Lemma emitted_built event c k :
  emitted (add_component header (decorated event c)) k = get (decorated event c) k.
Proof. unfold emitted, add_component, header. cbn. apply app_nil_r. Qed.

Lemma get_decorated event c k :
  get (decorated event c) k =
  (get c k ++
   (if truthy (location event) && String.eqb "LOCATION" (upper k)
    then [vText (str_of (location event))] else [])) ++
  (if list_truthy (participants event) && String.eqb "ATTENDEE" (upper k)
   then map (fun p => vCalAddress ("MAILTO:" +:+ p)) (default [] (participants event))
   else []).
Proof.
  unfold decorated.
  destruct (list_truthy (participants event)); cbn [andb].
  - rewrite get_add_attendees.
    destruct (truthy (location event)); cbn [andb].
    + rewrite get_add. change (upper "location") with "LOCATION".
      destruct (String.eqb "ATTENDEE" (upper k)), (String.eqb "LOCATION" (upper k));
        rewrite ?app_nil_r; reflexivity.
    + destruct (String.eqb "ATTENDEE" (upper k)); rewrite ?app_nil_r; reflexivity.
  - destruct (truthy (location event)); cbn [andb].
    + rewrite get_add. change (upper "location") with "LOCATION".
      destruct (String.eqb "LOCATION" (upper k)); rewrite ?app_nil_r; reflexivity.
    + rewrite !app_nil_r. reflexivity.
Qed.

Lemma timed_start_time event c :
  truthy (start_time event) = true -> timed event = Ok c ->
  exists s e,
    strptime (start_date event +:+ " " +:+ str_of (start_time event))
             datetime_format = Ok s /\
    end_datetime_of event s = Ok e /\
    get c "dtstart" = [vDatetime s] /\ get c "dtend" = [vDatetime e].
Proof.
  intros Hst. unfold timed. rewrite Hst.
  generalize strptime. intros parse.
  destruct (parse (start_date event) date_format) as [start|];
    cbn [bind]; [|discriminate].
  destruct (end_date_of event start) as [finish|]; cbn [bind]; [|discriminate].
  destruct (parse _ datetime_format) as [s|] eqn:Es; cbn [bind]; [|discriminate].
  destruct (end_datetime_of event s) as [e|] eqn:Ee; cbn [bind]; [|discriminate].
  intros H. inversion H; subst c; clear H. exists s, e.
  rewrite !get_add. cbn. auto.
Qed.

Lemma emitted_timing event c k :
  String.eqb "LOCATION" (upper k) = false ->
  String.eqb "ATTENDEE" (upper k) = false ->
  emitted (add_component header (decorated event c)) k = get c k.
Proof.
  intros H1 H2. rewrite emitted_built, get_decorated, H1, H2, !andb_false_r, !app_nil_r.
  reflexivity.
Qed.

Lemma end_datetime_naive event s e :
  tzinfo s = None -> end_datetime_of event s = Ok e -> tzinfo e = None.
Proof.
  intros Hs. unfold end_datetime_of. destruct (truthy (end_time event)).
  - intros H. apply strptime_ok in H. tauto.
  - intros H. apply datetime_add_one_hour in H. destruct H as (_ & H & _). congruence.
Qed.

(** The application builds zone-naive timestamps whatever the record says. *)
Lemma CalendarApp_timestamps_naive event cal :
  truthy (start_time event) = true ->
  build_calendar event = Ok cal ->
  exists s e,
    emitted cal "dtstart" = [vDatetime s] /\ emitted cal "dtend" = [vDatetime e] /\
    tzinfo s = None /\ tzinfo e = None.
Proof.
  intros Hst H. rewrite build_calendar_eq in H.
  destruct (timed event) as [c|] eqn:Ec; cbn [bind] in H; [|discriminate].
  inversion H; subst cal; clear H.
  destruct (timed_start_time event c Hst Ec) as (s & e & Es & Ee & G1 & G2).
  exists s, e. rewrite !emitted_timing by reflexivity.
  apply strptime_ok in Es. destruct Es as (_ & _ & Es).
  pose proof (end_datetime_naive event s e Es Ee). tauto.
Qed.


Lemma emitted_location event cal :
  build_calendar event = Ok cal ->
  emitted cal "location" =
  (if truthy (location event) then [vText (str_of (location event))] else []) /\
  emitted cal "attendee" =
  (if list_truthy (participants event)
   then map (fun p => vCalAddress ("MAILTO:" +:+ p)) (default [] (participants event))
   else []).
Proof.
  intros H. rewrite build_calendar_eq in H.
  destruct (timed event) as [c|] eqn:Ec; cbn [bind] in H; [|discriminate].
  inversion H; subst cal; clear H.
  rewrite !emitted_built, !get_decorated.
  assert (G : get c "location" = [] /\ get c "attendee" = []).
  { unfold timed in Ec.
    destruct (strptime (start_date event) date_format); cbn [bind] in Ec; [|discriminate].
    destruct (end_date_of event a); cbn [bind] in Ec; [|discriminate].
    destruct (truthy (start_time event)).
    - destruct (strptime _ datetime_format); cbn [bind] in Ec; [|discriminate].
      destruct (end_datetime_of event a1); cbn [bind] in Ec; [|discriminate].
      inversion Ec; subst c. rewrite !get_add. cbn. auto.
    - destruct (date_add _ _); cbn [bind] in Ec; [|discriminate].
      inversion Ec; subst c. rewrite !get_add. cbn. auto. }
  destruct G as [G1 G2]. rewrite G1, G2.
  change (upper "location") with "LOCATION". change (upper "attendee") with "ATTENDEE".
  cbn [String.eqb Ascii.eqb Bool.eqb andb app].
  rewrite !andb_true_r, !andb_false_r. cbn [app].
  split; [apply app_nil_r|reflexivity].
Qed.

Lemma date_add_raises d delta e : date_add d delta = Raise e -> e = OverflowError.
Proof. unfold date_add. destruct (_ && _); congruence. Qed.

Lemma datetime_add_raises t delta e :
  datetime_add t delta = Raise e -> e = OverflowError.
Proof. unfold datetime_add. destruct (_ && _); congruence. Qed.

Lemma truthy_or_else o d :
  or_else o d = if truthy o then str_of o else d.
Proof. destruct o as [s|]; [|reflexivity]. cbn. destruct (String.eqb s ""); reflexivity. Qed.

(** The builder, with every call of [strptime] replaced by the reader of
    the text it is given. *)
Lemma timed_reads event :
  timed event =
  match read_date (start_date event) with
  | None => Raise ValueError
  | Some d =>
      match (if truthy (end_date event)
             then read_date (str_of (end_date event)) else Some d) with
      | None => Raise ValueError
      | Some d' =>
          let ics_event := add [] "summary" (RStr (name event)) in
          if truthy (start_time event) then
            match read_time (str_of (start_time event)) with
            | None => Raise ValueError
            | Some t =>
                try! end_datetime :=
                  if truthy (end_time event) then
                    match read_time (str_of (end_time event)) with
                    | Some t' => Ok (combine d' t')
                    | None => Raise ValueError
                    end
                  else datetime_add (combine d t) (hours 1) in
                Ok (add (add ics_event "dtstart" (RDatetime (combine d t)))
                        "dtend" (RDatetime end_datetime))
            end
          else
            try! e := date_add d' (days 1) in
            Ok (add (add ics_event "dtstart" (RDate d)) "dtend" (RDate e))
      end
  end.
Proof.
  unfold timed, end_date_of, end_datetime_of.
  rewrite strptime_date.
  destruct (read_date (start_date event)) as [d|] eqn:Ed; cbn [bind]; [|reflexivity].
  rewrite truthy_or_else.
  destruct (truthy (end_date event)) eqn:Te.
  - rewrite strptime_date.
    destruct (read_date (str_of (end_date event))) as [d'|] eqn:Ed';
      cbn [bind]; [|reflexivity].
    destruct (truthy (start_time event)); [|reflexivity].
    rewrite (strptime_date_time _ _ _ Ed).
    destruct (read_time (str_of (start_time event))) as [t|]; cbn [bind];
      [|reflexivity].
    destruct (truthy (end_time event)); [|reflexivity].
    rewrite (strptime_date_time _ _ _ Ed'). reflexivity.
  - cbn [bind]. destruct (truthy (start_time event)); [|reflexivity].
    rewrite (strptime_date_time _ _ _ Ed).
    destruct (read_time (str_of (start_time event))) as [t|]; cbn [bind];
      [|reflexivity].
    destruct (truthy (end_time event)); [|reflexivity].
    rewrite (strptime_date_time _ _ _ Ed). reflexivity.
Qed.

Lemma given_cases o :
  (truthy o = true /\ given o = Some (str_of o)) \/
  (truthy o = false /\ given o = None).
Proof.
  destruct o as [s|]; cbn; [|auto]. destruct (String.eqb s ""); cbn; auto.
Qed.


Lemma given_none o : given o = None -> truthy o = false.
Proof.
  destruct o as [s'|]; cbn; [|reflexivity].
  destruct (String.eqb s' ""); [reflexivity|discriminate].
Qed.

Lemma build_calendar_outcome event :
  match build_calendar event with
  | Ok _ => unreadable event = false
  | Raise e =>
      (e = ValueError /\ unreadable event = true) \/
      (e = OverflowError /\ unreadable event = false)
  end.
Proof.
  rewrite build_calendar_eq, timed_reads. unfold unreadable.
  destruct (read_date (start_date event)) as [d|]; cbn [reads negb orb bind];
    [|auto].
  destruct (given_cases (end_date event)) as [[T1 G1]|[T1 G1]];
    destruct (given_cases (start_time event)) as [[T2 G2]|[T2 G2]];
    destruct (given_cases (end_time event)) as [[T3 G3]|[T3 G3]];
    rewrite T1, G1, T2, G2, ?T3, ?G3;
    repeat match goal with
    | |- context [read_date ?s] =>
        destruct (read_date s); cbn [reads negb orb bind]; [|auto]
    | |- context [read_time ?s] =>
        destruct (read_time s); cbn [reads negb orb bind]; [|auto]
    end;
    repeat match goal with
    | |- context [datetime_add ?a ?b] =>
        let E := fresh "E" in
        destruct (datetime_add a b) eqn:E; cbn [bind];
        [|apply datetime_add_raises in E]
    | |- context [date_add ?a ?b] =>
        let E := fresh "E" in
        destruct (date_add a b) eqn:E; cbn [bind];
        [|apply date_add_raises in E]
    end; auto.
Qed.

Lemma build_calendar_raises event e :
  build_calendar event = Raise e ->
  (e = ValueError /\ unreadable event = true) \/
  (e = OverflowError /\ unreadable event = false).
Proof.
  intros H. pose proof (build_calendar_outcome event) as O.
  rewrite H in O. exact O.
Qed.



Lemma path_exists_false w f :
  path_exists w f = false -> files w !! f = None /\ f ∉ unwritten w.
Proof.
  unfold path_exists. destruct (files w !! f); [discriminate|].
  intros H. apply bool_decide_eq_false in H. auto.
Qed.

Lemma mkstemp_raises w dir suffix names e :
  _mkstemp_inner w dir suffix names = Raise e -> e = OSError.
Proof.
  induction names as [|n l IH]; cbn; [congruence|].
  destruct (path_exists w _); [exact IH|discriminate].
Qed.

Lemma mkstemp_ok w dir suffix names file rest :
  _mkstemp_inner w dir suffix names = Ok (file, rest) ->
  path_exists w file = false /\
  exists n, In n names /\ file = path_join dir ("tmp" +:+ n +:+ suffix).
Proof.
  induction names as [|n l IH]; cbn; [discriminate|].
  destruct (path_exists w (path_join dir ("tmp" +:+ n +:+ suffix))) eqn:E.
  - intros H. destruct (IH H) as (? & n' & ? & ?). eauto.
  - intros H. inversion H; subst. eauto.
Qed.

Lemma write_temporary_file_raises w suffix data e :
  fst (write_temporary_file w suffix data) = Raise e -> e = OSError.
Proof.
  unfold write_temporary_file. destruct (tempdir (env w)); cbn; [|congruence].
  destruct (_mkstemp_inner _ _ _ _) as [[file rest]|e'] eqn:E; cbn.
  - destruct (can_create _ _); [destruct (can_write _ _)|]; cbn; congruence.
  - apply mkstemp_raises in E. congruence.
Qed.

Lemma create_ics_file_raises event w e :
  fst (create_ics_file event w) = Raise e ->
  (e = ValueError /\ unreadable event = true) \/
  (e = OverflowError /\ unreadable event = false) \/
  (e = OSError /\ exists cal, build_calendar event = Ok cal).
Proof.
  unfold create_ics_file. destruct (build_calendar event) as [cal|e'] eqn:E; cbn [fst].
  - intros H. apply write_temporary_file_raises in H. right; right. eauto.
  - intros H. inversion H; subst e'. apply build_calendar_raises in E. tauto.
Qed.

Lemma write_temporary_file_ok w suffix data fn :
  fst (write_temporary_file w suffix data) = Ok fn ->
  exists dir n,
    tempdir (env w) = Some dir /\ In n (temp_names w) /\
    fn = path_join dir ("tmp" +:+ n +:+ suffix) /\
    files w !! fn = None /\
    files (snd (write_temporary_file w suffix data)) !! fn = Some data.
Proof.
  unfold write_temporary_file. destruct (tempdir (env w)) as [dir|]; [|discriminate].
  destruct (_mkstemp_inner _ _ _ _) as [[file rest]|] eqn:E; [|discriminate].
  apply mkstemp_ok in E. destruct E as (E1 & n & E2 & E3).
  apply path_exists_false in E1. destruct E1 as [E1 _].
  destruct (can_create _ _); [|discriminate].
  destruct (can_write _ _); [|discriminate]. cbn.
  intros Hfn. inversion Hfn; subst fn. exists dir, n.
  rewrite lookup_insert_eq. rewrite <- E3. auto.
Qed.

(** A record in strict form still fails when no temporary file can be
    made: the builder writes to the file system. *)
Lemma create_ics_file_needs_tempdir event cal w :
  build_calendar event = Ok cal -> tempdir (env w) = None ->
  fst (create_ics_file event w) = Raise OSError.
Proof.
  intros Hb Ht. unfold create_ics_file, write_temporary_file. rewrite Hb, Ht.
  reflexivity.
Qed.

Lemma truthy_some o : truthy o = true -> exists s, o = Some s /\ str_of o = s.
Proof. destruct o; [eauto|discriminate]. Qed.

Lemma strict_if_present_some {A} (f : string -> option A) s :
  strict_if_present f (Some s) = true -> exists a, f s = Some a.
Proof. cbn. destruct (f s); [eauto|discriminate]. Qed.

Lemma or_else_strict ed sd :
  strict_if_present strict_date (Some sd) = true ->
  strict_if_present strict_date ed = true ->
  exists d, strict_date (or_else ed sd) = Some d.
Proof.
  intros H1 H2. destruct ed as [s|]; cbn [or_else].
  - destruct (String.eqb s ""); [apply strict_if_present_some, H1|apply strict_if_present_some, H2].
  - apply strict_if_present_some, H1.
Qed.



End BuilderFacts.

(** ** The extractor and the batch *)

Module ExtractorFacts.

Import ICal Host CalendarApp.

Section Extractor.

Context `{Decoders}.

Lemma printed_app w l1 l2 : printed w (l1 ++ l2) = printed (printed w l1) l2.
Proof. unfold printed. apply fold_left_app. Qed.

Lemma omap_cons {A B} (f : A -> option B) x l :
  omap f (x :: l) = match f x with Some y => y :: omap f l | None => omap f l end.
Proof. reflexivity. Qed.

Lemma validate_events_dicts cur l : forall acc w,
  forallb is_dict l = true ->
  validate_events cur l acc w =
  (Ok (acc ++ omap (candidate_record cur) l),
   printed w (flat_map (skipped_line cur) l)).
Proof.
  induction l as [|v l IH]; intros acc w Hd.
  - cbn. rewrite app_nil_r. reflexivity.
  - cbn [forallb] in Hd. apply andb_prop in Hd. destruct Hd as [Hv Hl].
    destruct v; try discriminate Hv.
    rewrite omap_cons. cbn [validate_events flat_map].
    unfold candidate_record at 1, skipped_line at 1.
    destruct (ensure_required cur (JDict d)) as [d'|e] eqn:E; [|discriminate E].
    destruct (parse_obj d') as [r|].
    + rewrite IH by exact Hl. rewrite <- app_assoc. reflexivity.
    + rewrite IH by exact Hl. rewrite printed_app. reflexivity.
Qed.

Lemma validate_events_raises cur l : forall acc w e,
  fst (validate_events cur l acc w) = Raise e -> e = TypeError.
Proof.
  induction l as [|v l IH]; intros acc w e; cbn [validate_events].
  - discriminate.
  - destruct (ensure_required cur v) as [d|e'] eqn:E.
    + destruct (parse_obj d); apply IH.
    + cbn. intros H0. inversion H0; subst e'.
      destruct v; cbn in E; congruence.
Qed.

Lemma iterate_raises v e : iterate v = Raise e -> e = TypeError.
Proof. destruct v; cbn; congruence. Qed.

Lemma dict_get_set d k v k' :
  dict_get (dict_set d k v) k' =
  if String.eqb k k' then Some v else dict_get d k'.
Proof.
  induction d as [|[k0 v0] d IH]; cbn [dict_set dict_get].
  - reflexivity.
  - destruct (String.eqb_spec k0 k) as [->|N]; cbn [dict_get].
    + destruct (String.eqb_spec k k'); reflexivity.
    + destruct (String.eqb_spec k0 k') as [->|N'].
      * destruct (String.eqb_spec k k'); [congruence|reflexivity].
      * exact IH.
Qed.


Lemma printed_fields w ls :
  env (printed w ls) = env w /\ files (printed w ls) = files w /\
  temp_names (printed w ls) = temp_names w /\ opened (printed w ls) = opened w /\
  dialogs (printed w ls) = dialogs w.
Proof.
  revert w. induction ls as [|l ls IH]; intros w; [cbn; auto|].
  cbn. unfold printed in IH. destruct (IH (print w l)) as (-> & -> & -> & -> & ->).
  cbn. auto.
Qed.

Lemma printed_unwritten w ls : unwritten (printed w ls) = unwritten w.
Proof.
  revert w. induction ls as [|l ls IH]; intros w; [reflexivity|].
  cbn. unfold printed in IH. rewrite IH. reflexivity.
Qed.

Lemma validate_events_printed cur l : forall acc w,
  exists ls, snd (validate_events cur l acc w) = printed w ls.
Proof.
  induction l as [|v l IH]; intros acc w; cbn [validate_events].
  - exists []. reflexivity.
  - destruct (ensure_required cur v); [|exists []; reflexivity].
    destruct (parse_obj a).
    + apply IH.
    + destruct (IH acc (print w (ErrorParsingEvent a))) as [ls E].
      exists (ErrorParsingEvent a :: ls). exact E.
Qed.

Lemma parse_event_printed client d w :
  exists ls, snd (parse_event client d w) = printed w ls.
Proof.
  unfold parse_event.
  destruct (client _ _); [|exists []; reflexivity].
  destruct (json_loads a); [|exists []; reflexivity].
  destruct (events_of j); [|exists []; reflexivity].
  destruct (iterate a0); [|exists []; reflexivity].
  apply validate_events_printed.
Qed.

Lemma validate_events_env cur l : forall acc w,
  env (snd (validate_events cur l acc w)) = env w.
Proof.
  induction l as [|v l IH]; intros acc w; cbn [validate_events]; [reflexivity|].
  destruct (ensure_required cur v); [|reflexivity].
  destruct (parse_obj a); rewrite IH; reflexivity.
Qed.

Lemma validate_events_fst cur l : forall acc w w',
  fst (validate_events cur l acc w) = fst (validate_events cur l acc w').
Proof.
  induction l as [|v l IH]; intros acc w w'; cbn [validate_events]; [reflexivity|].
  destruct (ensure_required cur v); [|reflexivity].
  destruct (parse_obj a); apply IH.
Qed.

Lemma parse_event_env client d w : env (snd (parse_event client d w)) = env w.
Proof.
  unfold parse_event.
  destruct (client _ _); [|reflexivity].
  destruct (json_loads a); [|reflexivity].
  destruct (events_of j); [|reflexivity].
  destruct (iterate a0); [|reflexivity].
  apply validate_events_env.
Qed.

Lemma parse_event_fst client d w w' :
  env w' = env w ->
  fst (parse_event client d w') = fst (parse_event client d w).
Proof.
  intros E. unfold parse_event. rewrite E.
  destruct (client _ _); [|reflexivity].
  destruct (json_loads a); [|reflexivity].
  destruct (events_of j); [|reflexivity].
  destruct (iterate a0); [|reflexivity].
  apply validate_events_fst.
Qed.

Lemma env_handle e w : env (handle e w) = env w.
Proof. destruct e; reflexivity. Qed.

Lemma write_temporary_file_env w suffix data :
  env (snd (write_temporary_file w suffix data)) = env w.
Proof.
  unfold write_temporary_file. destruct (tempdir (env w)); [|reflexivity].
  destruct (_mkstemp_inner _ _ _ _) as [[file rest]|]; [|reflexivity].
  destruct (can_create _ _); [destruct (can_write _ _)|]; reflexivity.
Qed.

Lemma create_ics_file_env event w : env (snd (create_ics_file event w)) = env w.
Proof.
  unfold create_ics_file. destruct (build_calendar event); [|reflexivity].
  apply write_temporary_file_env.
Qed.

Lemma import_env f w : env (snd (import_ics_to_calendar f w)) = env w.
Proof.
  unfold import_ics_to_calendar. destruct (can_open _ _); [|reflexivity].
  cbn [log_opened env]. destruct (host (env w)); try reflexivity.
  unfold remove. cbn [env log_opened]. destruct (can_remove _ _); reflexivity.
Qed.

Lemma create_and_import_env l : forall w,
  env (snd (create_and_import l w)) = env w.
Proof.
  induction l as [|r l IH]; intros w; cbn [create_and_import]; [reflexivity|].
  pose proof (create_ics_file_env r w) as E1.
  destruct (create_ics_file r w) as [[fn|e] w1]; cbn [snd] in *; [|exact E1].
  pose proof (import_env fn w1) as E2.
  destruct (import_ics_to_calendar fn w1) as [[u|e] w2]; cbn [snd] in *.
  - rewrite IH. congruence.
  - congruence.
Qed.

Lemma process_description_spec client all w d :
  exists w',
    process_description client (all, w) d = (all ++ extracted client w d, w') /\
    env w' = env w.
Proof.
  unfold process_description, extracted.
  destruct (strip_truthy d); [|exists w; rewrite app_nil_r; auto].
  pose proof (parse_event_env client d w) as E1.
  destruct (parse_event client d w) as [[l|e] w1]; cbn [fst snd] in *.
  - pose proof (create_and_import_env l w1) as E2.
    destruct (create_and_import l w1) as [[u|e] w2]; cbn [snd] in *.
    + eexists; split; [reflexivity|]. cbn. congruence.
    + eexists; split; [reflexivity|]. rewrite env_handle. congruence.
  - eexists; split; [rewrite app_nil_r; reflexivity|]. rewrite env_handle. congruence.
Qed.

Lemma extracted_env client w w' d :
  env w' = env w -> extracted client w' d = extracted client w d.
Proof.
  intros E. unfold extracted. rewrite (parse_event_fst client d w w' E). reflexivity.
Qed.

Lemma batch_spec client w0 ds : forall all w,
  env w = env w0 ->
  exists w',
    fold_left (process_description client) ds (all, w) =
    (all ++ flat_map (extracted client w0) ds, w') /\ env w' = env w0.
Proof.
  induction ds as [|d ds IH]; intros all w E; cbn [fold_left flat_map].
  - exists w. rewrite app_nil_r. auto.
  - destruct (process_description_spec client all w d) as (w1 & -> & E1).
    destruct (IH (all ++ extracted client w d) w1 ltac:(congruence)) as (w' & -> & E').
    exists w'. split; [|exact E'].
    rewrite (extracted_env client w0 w d E), app_assoc. reflexivity.
Qed.

End Extractor.

End ExtractorFacts.

(** ** The prototype *)

Module TestPyFacts.

Import ICal Host DatetimeFacts ICalFacts Examples.

Lemma ZoneInfo_ok e key z :
  ZoneInfo e key = Ok z -> z = key /\ has_zone e key = true.
Proof.
  unfold ZoneInfo, has_zone. destruct (isabs key); [discriminate|].
  destruct (zone_of e key); try discriminate. intros Q; inversion Q; auto.
Qed.


(** The prototype attaches the zone of the record to both timestamps, and
    leaves them naive when the record has none. *)
Lemma TestPy_timezone_attached e event cal :
  truthy (TestPy.start_time event) = true ->
  TestPy.build_calendar e event = Ok cal ->
  exists s f,
    emitted cal "dtstart" = [vDatetime s] /\
    emitted cal "dtend" = [vDatetime f] /\
    tzinfo s = (if truthy (TestPy.timezone event) then TestPy.timezone event else None) /\
    tzinfo f = tzinfo s.
Proof.
  intros Hst. unfold TestPy.build_calendar. rewrite Hst.
  destruct (strptime (TestPy.date event) "%Y-%m-%d") as [parsed|]; cbn [bind]; [|discriminate].
  destruct (strptime (TestPy.str_of (TestPy.start_time event)) "%H:%M") as [st|];
    cbn [bind]; [|discriminate].
  set (start_datetime := combine (date_of parsed) (time_of st)).
  assert (Hs : tzinfo start_datetime = None) by reflexivity.
  clearbody start_datetime.
  destruct (if truthy (TestPy.end_time event) then _ else _) as [end_datetime|] eqn:Ee;
    cbn [bind]; [|discriminate].
  assert (He : tzinfo end_datetime = None).
  { destruct (truthy (TestPy.end_time event)).
    - destruct (strptime _ "%H:%M"); cbn [bind] in Ee; [|discriminate].
      inversion Ee. reflexivity.
    - apply datetime_add_one_hour in Ee. destruct Ee as (_ & Ee & _). congruence. }
  destruct (truthy (TestPy.timezone event)) eqn:Htz.
  - destruct (ZoneInfo e _) as [z|] eqn:Z; cbn [bind]; [|discriminate].
    apply ZoneInfo_ok in Z. destruct Z as [-> _].
    intros H. inversion H; subst cal; clear H.
    exists (replace_tzinfo start_datetime (TestPy.str_of (TestPy.timezone event))),
           (replace_tzinfo end_datetime (TestPy.str_of (TestPy.timezone event))).
    unfold emitted, add_component, cal_add, new_calendar.
    cbn [subcomponents flat_map app fst snd]. rewrite !app_nil_r.
    assert (Ez : Some (TestPy.str_of (TestPy.timezone event)) = TestPy.timezone event).
    { destruct (TestPy.timezone event); [reflexivity|discriminate Htz]. }
    destruct (truthy (TestPy.location event)), (TestPy.list_truthy (TestPy.participants event));
      rewrite ?get_add, ?get_setitem, ?get_add; cbn; rewrite Ez; auto.
  - cbn [bind fst snd]. intros H. inversion H; subst cal; clear H.
    exists start_datetime, end_datetime.
    unfold emitted, add_component, cal_add, new_calendar.
    cbn [subcomponents flat_map app fst snd]. rewrite !app_nil_r.
    destruct (truthy (TestPy.location event)), (TestPy.list_truthy (TestPy.participants event));
      rewrite ?get_add, ?get_setitem, ?get_add; cbn; rewrite Hs, He; auto.
Qed.

(** Two different records of the prototype share one file name, and a
    path separator in the name stays in the file name. *)
Lemma TestPy_filename_collides :
  let e1 := TestPy.mkCalendarEvent "team sync" "2024-10-31" None None None None None in
  let e2 := TestPy.mkCalendarEvent "team_sync" "2024-10-31" None None None None None in
  e1 <> e2 /\ TestPy.filename_of linux e1 = TestPy.filename_of linux e2 /\
  TestPy.filename_of linux
    (TestPy.mkCalendarEvent "a/b" "2024-10-31" None None None None None) =
  "/app/a/b_2024-10-31.ics".
Proof. cbv zeta. split; [discriminate|]. split; reflexivity. Qed.

End TestPyFacts.

Import ICal Host CalendarApp.
Import DatetimeFacts UnicodeFacts StrptimeFacts ICalFacts BuilderFacts.
Import ExtractorFacts TestPyFacts Examples Samples.

(** ** More facts *)

Module MoreFacts.

Lemma timed_summary event c :
  timed event = Ok c -> get c "summary" = [vText (name event)].
Proof.
  unfold timed. generalize strptime. intros parse.
  destruct (parse (start_date event) date_format) as [start|]; cbn [bind]; [|discriminate].
  destruct (end_date_of event start) as [finish|]; cbn [bind]; [|discriminate].
  destruct (truthy (start_time event)).
  - destruct (parse _ datetime_format) as [s|]; cbn [bind]; [|discriminate].
    destruct (end_datetime_of event s) as [e|]; cbn [bind]; [|discriminate].
    intros H. inversion H; subst c. rewrite !get_add. reflexivity.
  - destruct (date_add _ _); cbn [bind]; [|discriminate].
    intros H. inversion H; subst c. rewrite !get_add. reflexivity.
Qed.

Lemma date_eqb_eq a b : date_eqb a b = true <-> a = b.
Proof.
  unfold date_eqb. destruct a, b. cbn [year month day].
  rewrite !andb_true_iff, !Z.eqb_eq. split; [intros [[-> ->] ->]; reflexivity|].
  intros E; inversion E; auto.
Qed.

Lemma toordinal_last d :
  valid_date d = true ->
  toordinal d <= _MAXORDINAL /\ (toordinal d = _MAXORDINAL <-> d = last_day).
Proof.
  intros V. apply valid_date_wf in V. destruct V as [W Y].
  pose proof (toordinal_range d W) as R.
  pose proof (days_before_year_mono (year d + 1) 10000) as M.
  unfold MAXYEAR in Y.
  assert (L : toordinal last_day = _MAXORDINAL) by (vm_compute; reflexivity).
  assert (B : _days_before_year 10000 = _MAXORDINAL) by (vm_compute; reflexivity).
  split; [destruct W; lia|]. split.
  - intros E. apply toordinal_inj; [exact W|vm_compute; intuition discriminate|congruence].
  - intros ->. exact L.
Qed.

Lemma strict_time_range s t :
  strict_time s = Some t ->
  0 <= t_hour t < 24 /\ 0 <= t_minute t < 60 /\ t_second t = 0.
Proof.
  intros H. apply strict_time_inv in H.
  destruct H as (h1 & h2 & m1 & m2 & _ & Ed & -> & Hh & Hm).
  cbn [forallb] in Ed.
  apply andb_prop in Ed. destruct Ed as [D1 Ed].
  apply andb_prop in Ed. destruct Ed as [D2 Ed].
  apply andb_prop in Ed. destruct Ed as [D3 Ed].
  apply andb_prop in Ed. destruct Ed as [D4 _].
  cbn [t_hour t_minute t_second].
  assert (N : forall a b, is_digit a = true -> is_digit b = true -> 0 <= int_of [a; b]).
  { intros a b Ha Hb. digits a Ha; digits b Hb; vm_compute; discriminate. }
  pose proof (N h1 h2 D1 D2). pose proof (N m1 m2 D3 D4). lia.
Qed.

Lemma or_else_cases ed sd :
  (truthy ed = true /\ or_else ed sd = str_of ed) \/
  (truthy ed = false /\ or_else ed sd = sd).
Proof.
  destruct ed as [s|]; cbn; [|auto].
  destruct (String.eqb s ""); cbn; auto.
Qed.

Lemma strict_date_valid s d : strict_date s = Some d -> valid_date d = true.
Proof.
  intros H. apply strict_date_inv in H.
  destruct H as (? & ? & ? & ? & ? & ? & ? & ? & _ & _ & _ & V). exact V.
Qed.

Lemma one_hour_later d t :
  valid_date d = true ->
  0 <= t_hour t < 24 -> 0 <= t_minute t < 60 -> t_second t = 0 ->
  is_ok (datetime_add (combine d t) (hours 1)) =
  negb (date_eqb d last_day && (t_hour t =? 23)).
Proof.
  intros V Hh Hm Hs.
  destruct (toordinal_last d V) as [L1 L2].
  pose proof (toordinal_pos d (proj1 (proj1 (valid_date_wf d) V))) as P.
  unfold datetime_add, hours, combine.
  cbn [hour minute second td_days td_seconds dt_date tzinfo]. rewrite Hs.
  change (1 * 3600 / 86400) with 0. change ((1 * 3600) mod 86400) with 3600.
  set (secs := t_hour t * 3600 + t_minute t * 60 + 0 + 3600).
  destruct (Z.eqb_spec (t_hour t) 23) as [E|E].
  - assert (Q : secs / 86400 = 1) by (subst secs; zdiv). rewrite Q.
    destruct (date_eqb d last_day) eqn:D; cbn [andb negb].
    + apply date_eqb_eq in D. apply L2 in D. rewrite D.
      reflexivity.
    + assert (N : toordinal d <> _MAXORDINAL).
      { intros A. apply L2 in A. apply date_eqb_eq in A. congruence. }
      destruct (Z.ltb_spec 0 (toordinal d + 0 + 1)); [|lia].
      destruct (Z.leb_spec (toordinal d + 0 + 1) _MAXORDINAL); [|lia].
      reflexivity.
  - assert (Q : secs / 86400 = 0) by (subst secs; zdiv). rewrite Q.
    rewrite andb_false_r. cbn [negb].
    destruct (Z.ltb_spec 0 (toordinal d + 0 + 0)); [|lia].
    destruct (Z.leb_spec (toordinal d + 0 + 0) _MAXORDINAL); [|lia].
    reflexivity.
Qed.

Lemma one_day_later d :
  valid_date d = true ->
  date_add d (days 1) =
  if date_eqb d last_day then Raise OverflowError else Ok (tomorrow d).
Proof.
  intros V. destruct (toordinal_last d V) as [L1 L2].
  rewrite date_add_one_day by (apply valid_date_wf, V).
  destruct (date_eqb d last_day) eqn:D.
  - apply date_eqb_eq in D. apply L2 in D. rewrite D. reflexivity.
  - destruct (Z.ltb_spec (toordinal d) _MAXORDINAL); [reflexivity|].
    assert (A : toordinal d = _MAXORDINAL) by lia.
    apply L2 in A. apply date_eqb_eq in A. congruence.
Qed.

Lemma digit_char_spec n :
  is_digit (digit_char n) = true /\ code (digit_char n) - 48 = n mod 10.
Proof.
  unfold digit_char.
  assert (B : 0 <= n mod 10 < 10) by zdiv.
  generalize dependent (n mod 10). intros k B.
  assert (C : k = 0 \/ k = 1 \/ k = 2 \/ k = 3 \/ k = 4 \/ k = 5 \/ k = 6 \/
              k = 7 \/ k = 8 \/ k = 9) by lia.
  destruct C as [->|[->|[->|[->|[->|[->|[->|[->|[->| ->]]]]]]]]];
    vm_compute; auto.
Qed.

Lemma int_of_two a b :
  int_of [digit_char a; digit_char b] = (a mod 10) * 10 + b mod 10.
Proof.
  unfold int_of. cbn [fold_left].
  destruct (digit_char_spec a) as [-> ->], (digit_char_spec b) as [-> ->]. lia.
Qed.

Lemma int_of_four a b c d :
  int_of [digit_char a; digit_char b; digit_char c; digit_char d] =
  (a mod 10) * 1000 + (b mod 10) * 100 + (c mod 10) * 10 + d mod 10.
Proof.
  unfold int_of. cbn [fold_left].
  destruct (digit_char_spec a) as [-> ->], (digit_char_spec b) as [-> ->],
           (digit_char_spec c) as [-> ->], (digit_char_spec d) as [-> ->]. lia.
Qed.

Lemma strftime_ymd_chars d :
  list_ascii_of_string (strftime_ymd d) =
  [digit_char (year d / 100 / 10); digit_char (year d / 100);
   digit_char (year d / 10); digit_char (year d); "-"%char;
   digit_char (month d / 10); digit_char (month d); "-"%char;
   digit_char (day d / 10); digit_char (day d)].
Proof.
  unfold strftime_ymd, two_digits. rewrite !list_ascii_of_string_app. reflexivity.
Qed.

(** The reference date as text is a strict date, and reads back. *)
Lemma strict_date_strftime d :
  valid_date d = true -> 1000 <= year d ->
  strict_date (strftime_ymd d) = Some d.
Proof.
  intros V Y. pose proof V as V0.
  apply valid_date_wf in V. destruct V as [(_ & Hm & Hd) Hy]. unfold MAXYEAR in Hy.
  pose proof (days_in_month_le (year d) (month d) Hm) as Hd'.
  unfold strict_date. rewrite strftime_ymd_chars.
  cbn [forallb].
  rewrite !(proj1 (digit_char_spec _)). cbn [andb is_char Ascii.eqb Bool.eqb].
  rewrite int_of_four, !int_of_two.
  replace (year d / 100 / 10 mod 10 * 1000 + year d / 100 mod 10 * 100 +
           year d / 10 mod 10 * 10 + year d mod 10) with (year d) by zdiv.
  replace (month d / 10 mod 10 * 10 + month d mod 10) with (month d) by zdiv.
  replace (day d / 10 mod 10 * 10 + day d mod 10) with (day d) by zdiv.
  destruct d as [y m dd]. cbn [year month day] in *. rewrite V0. reflexivity.
Qed.

Lemma create_ics_file_ok event w fn w' :
  create_ics_file event w = (Ok fn, w') ->
  exists cal,
    build_calendar event = Ok cal /\ files w !! fn = None /\
    files w' = <[fn := cal]> (files w) /\ env w' = env w /\
    opened w' = opened w /\ dialogs w' = dialogs w /\ stdout w' = stdout w.
Proof.
  unfold create_ics_file. destruct (build_calendar event) as [cal|]; [|discriminate].
  unfold write_temporary_file. destruct (tempdir (env w)) as [dir|]; [|discriminate].
  destruct (_mkstemp_inner _ _ _ _) as [[file rest]|] eqn:E; [|discriminate].
  apply mkstemp_ok in E. destruct E as (E1 & _).
  apply path_exists_false in E1. destruct E1 as [E1 _].
  destruct (can_create _ _); [|discriminate].
  destruct (can_write _ _); [|discriminate].
  intros Q. inversion Q; subst fn w'; clear Q. exists cal. cbn. auto 10.
Qed.

Lemma create_ics_file_unwritten event w fn w' :
  create_ics_file event w = (Ok fn, w') ->
  unwritten w' = unwritten w /\ fn ∉ unwritten w.
Proof.
  unfold create_ics_file. destruct (build_calendar event) as [cal|]; [|discriminate].
  unfold write_temporary_file. destruct (tempdir (env w)) as [dir|]; [|discriminate].
  destruct (_mkstemp_inner _ _ _ _) as [[file rest]|] eqn:E; [|discriminate].
  apply mkstemp_ok in E. destruct E as (E1 & _).
  apply path_exists_false in E1. destruct E1 as [_ E1].
  destruct (can_create _ _); [|discriminate].
  destruct (can_write _ _); [|discriminate].
  intros Q. inversion Q; subst fn w'; clear Q. cbn. auto.
Qed.

Lemma create_ics_file_fail event w e w' :
  create_ics_file event w = (Raise e, w') ->
  files w' = files w /\ env w' = env w /\ opened w' = opened w /\
  dialogs w' = dialogs w /\ stdout w' = stdout w.
Proof.
  unfold create_ics_file. destruct (build_calendar event) as [cal|].
  - unfold write_temporary_file. destruct (tempdir (env w)) as [dir|].
    + destruct (_mkstemp_inner _ _ _ _) as [[file rest]|] eqn:E.
      * destruct (can_create _ _); [destruct (can_write _ _); [discriminate|]|];
          intros Q; inversion Q; subst; cbn; auto.
      * intros Q. inversion Q; subst; cbn; auto.
    + intros Q. inversion Q; subst; auto.
  - intros Q. inversion Q; subst; auto.
Qed.

Lemma import_ok fn w u w' :
  import_ics_to_calendar fn w = (Ok u, w') ->
  can_open (env w) fn = true /\ env w' = env w /\
  opened w' = opened w ++ [fn] /\ dialogs w' = dialogs w /\
  files w' = match host (env w) with
             | Darwin => if can_remove (env w) fn then delete fn (files w)
                         else files w
             | _ => files w
             end /\
  stdout w' = match host (env w) with
              | Darwin => if can_remove (env w) fn then stdout w
                          else stdout w ++ [UnableToDelete fn]
              | _ => stdout w
              end.
Proof.
  unfold import_ics_to_calendar. destruct (can_open _ _); [|discriminate].
  cbn [log_opened env]. destruct (host (env w)).
  - unfold remove. cbn [env log_opened]. destruct (can_remove _ _);
      intros Q; inversion Q; subst; cbn; auto 10.
  - intros Q; inversion Q; subst; cbn; auto 10.
  - intros Q; inversion Q; subst; cbn; auto 10.
Qed.

Lemma import_fail fn w e w' :
  import_ics_to_calendar fn w = (Raise e, w') ->
  e = OSError /\ w' = w /\ can_open (env w) fn = false.
Proof.
  unfold import_ics_to_calendar. destruct (can_open _ _).
  - cbn [log_opened env]. destruct (host (env w)); try discriminate.
    unfold remove. cbn [env log_opened]. destruct (can_remove _ _); discriminate.
  - intros Q; inversion Q; auto.
Qed.

Lemma TestPy_create_ok event w fn w' :
  TestPy.create_ics_file event w = (Ok fn, w') ->
  exists cal,
    TestPy.build_calendar (env w) event = Ok cal /\
    fn = TestPy.filename_of (env w) event /\
    files w' = <[fn := cal]> (files w) /\ env w' = env w.
Proof.
  unfold TestPy.create_ics_file.
  destruct (TestPy.build_calendar (env w) event) as [cal|]; [|discriminate].
  unfold write_file. destruct (can_create _ _); [|discriminate].
  destruct (can_write _ _); [|discriminate].
  intros Q. inversion Q; subst fn w'; clear Q. exists cal. cbn. auto.
Qed.

(** *** Worlds with the same disk *)

Lemma same_disk_refl w : same_disk w w.
Proof. unfold same_disk. auto. Qed.

Lemma same_disk_sym w v : same_disk w v -> same_disk v w.
Proof. unfold same_disk. intros (-> & -> & -> & -> & ->). auto. Qed.

Lemma same_disk_trans w1 w2 w3 :
  same_disk w1 w2 -> same_disk w2 w3 -> same_disk w1 w3.
Proof.
  unfold same_disk. intros (A1 & A2 & A3 & A4 & A5) (B1 & B2 & B3 & B4 & B5).
  repeat split; congruence.
Qed.

(** They differ in the dialogs and in the output only. *)
Lemma same_disk_inv w v :
  same_disk w v ->
  v = mkWorld (env w) (files w) (unwritten w) (temp_names w) (opened w)
              (dialogs v) (stdout v).
Proof.
  destruct w, v. unfold same_disk. cbn.
  intros (-> & -> & -> & -> & ->). reflexivity.
Qed.

Lemma same_disk_print w v l : same_disk w v -> same_disk w (print v l).
Proof. unfold same_disk. cbn. auto. Qed.

Lemma same_disk_handle w v e : same_disk w v -> same_disk w (handle e v).
Proof. unfold same_disk. destruct e; cbn; auto. Qed.

Lemma same_disk_printed w ls : same_disk w (printed w ls).
Proof.
  destruct (printed_fields w ls) as (P1 & P2 & P3 & P4 & _).
  pose proof (printed_unwritten w ls). unfold same_disk. auto.
Qed.

Lemma mkstemp_same_disk e f u t o d1 s1 d2 s2 dir suffix names :
  _mkstemp_inner (mkWorld e f u t o d1 s1) dir suffix names =
  _mkstemp_inner (mkWorld e f u t o d2 s2) dir suffix names.
Proof.
  induction names as [|n l IH]; [reflexivity|]. cbn [_mkstemp_inner].
  unfold path_exists. cbn [files unwritten]. rewrite IH. reflexivity.
Qed.

(** [create_ics_file] and [import_ics_to_calendar] do the same on the same
    disk. *)
Lemma create_ics_file_same_disk r w v :
  same_disk w v ->
  fst (create_ics_file r w) = fst (create_ics_file r v) /\
  same_disk (snd (create_ics_file r w)) (snd (create_ics_file r v)).
Proof.
  intros S. rewrite (same_disk_inv _ _ S). clear S.
  generalize (dialogs v) (stdout v). intros d2 s2.
  destruct w as [e f u t o d1 s1]. cbn [env files unwritten temp_names opened].
  unfold create_ics_file.
  destruct (build_calendar r) as [cal|];
    [|split; [reflexivity|unfold same_disk; cbn; auto]].
  unfold write_temporary_file. cbn [env temp_names files unwritten].
  destruct (tempdir e) as [dir|];
    [|split; [reflexivity|unfold same_disk; cbn; auto]].
  rewrite (mkstemp_same_disk e f u t o d1 s1 d2 s2).
  destruct (_mkstemp_inner _ _ _ _) as [[file rest]|];
    [|split; [reflexivity|unfold same_disk; cbn; auto]].
  destruct (can_create e file); [destruct (can_write e file)|];
    (split; [reflexivity|unfold same_disk; cbn; auto]).
Qed.

Lemma import_same_disk fn w v :
  same_disk w v ->
  fst (import_ics_to_calendar fn w) = fst (import_ics_to_calendar fn v) /\
  same_disk (snd (import_ics_to_calendar fn w)) (snd (import_ics_to_calendar fn v)).
Proof.
  intros S. rewrite (same_disk_inv _ _ S). clear S.
  generalize (dialogs v) (stdout v). intros d2 s2.
  destruct w as [e f u t o d1 s1]. cbn [env files unwritten temp_names opened].
  unfold import_ics_to_calendar. cbn [env].
  destruct (can_open e fn); [|split; [reflexivity|unfold same_disk; cbn; auto]].
  unfold log_opened, remove. cbn [env files unwritten temp_names opened].
  destruct (host e);
    try (split; [reflexivity|unfold same_disk; cbn; auto]).
  destruct (can_remove e fn);
    (split; [reflexivity|unfold same_disk; cbn; auto]).
Qed.

Lemma create_and_import_same_disk l : forall w v,
  same_disk w v ->
  fst (create_and_import l w) = fst (create_and_import l v) /\
  same_disk (snd (create_and_import l w)) (snd (create_and_import l v)).
Proof.
  induction l as [|r l IH]; intros w v S; cbn [create_and_import].
  - split; [reflexivity|exact S].
  - destruct (create_ics_file_same_disk r w v S) as [E1 S1].
    destruct (create_ics_file r w) as [x1 w1], (create_ics_file r v) as [y1 v1].
    cbn [fst snd] in *. subst y1. destruct x1 as [fn|e]; [|auto].
    destruct (import_same_disk fn w1 v1 S1) as [E2 S2].
    destruct (import_ics_to_calendar fn w1) as [x2 w2],
             (import_ics_to_calendar fn v1) as [y2 v2].
    cbn [fst snd] in *. subst y2. destruct x2 as [u|e]; [|auto].
    apply IH, S2.
Qed.

(** The records before a record that the builder refuses are written and
    opened; the record stops the loop, and what follows it is not read. *)
Lemma create_and_import_app l1 : forall r rest w w1 e,
  create_and_import l1 w = (Ok tt, w1) ->
  build_calendar r = Raise e ->
  create_and_import (l1 ++ r :: rest) w = (Raise e, w1).
Proof.
  induction l1 as [|r1 l1 IH]; intros r rest w w1 e.
  - cbn [create_and_import app]. intros Q B. inversion Q; subst.
    unfold create_ics_file. rewrite B. reflexivity.
  - cbn [create_and_import app].
    destruct (create_ics_file r1 w) as [[fn|x] w2]; [|discriminate].
    destruct (import_ics_to_calendar fn w2) as [[u|x] w3]; [|discriminate].
    apply IH.
Qed.

Section MoreExtractor.

Context `{Decoders}.

Lemma list_str_map l : list_str (map JStr l) = Some l.
Proof.
  induction l as [|s l IH]; [reflexivity|].
  cbn [map list_str]. rewrite str_validator_str, IH. reflexivity.
Qed.

Lemma stdout_printed w ls : stdout (printed w ls) = stdout w ++ ls.
Proof.
  revert w. induction ls as [|l ls IH]; intros w; cbn.
  - symmetry. apply app_nil_r.
  - unfold printed in IH. rewrite IH. cbn. rewrite <- app_assoc. reflexivity.
Qed.

Lemma validate_events_lines cur l : forall acc w,
  exists ls, snd (validate_events cur l acc w) = printed w ls /\
             Forall (fun l => exists d, l = ErrorParsingEvent d) ls.
Proof.
  induction l as [|v l IH]; intros acc w; cbn [validate_events].
  - exists []. split; [reflexivity|constructor].
  - destruct (ensure_required cur v); [|exists []; split; [reflexivity|constructor]].
    destruct (parse_obj a).
    + apply IH.
    + destruct (IH acc (print w (ErrorParsingEvent a))) as (ls & E & F).
      exists (ErrorParsingEvent a :: ls). split; [exact E|].
      constructor; [eauto|exact F].
Qed.

Lemma parse_event_lines client d w :
  exists ls, snd (parse_event client d w) = printed w ls /\
             Forall (fun l => exists d, l = ErrorParsingEvent d) ls.
Proof.
  unfold parse_event.
  destruct (client _ _); [|exists []; split; [reflexivity|constructor]].
  destruct (json_loads a); [|exists []; split; [reflexivity|constructor]].
  destruct (events_of j); [|exists []; split; [reflexivity|constructor]].
  destruct (iterate a0); [|exists []; split; [reflexivity|constructor]].
  apply validate_events_lines.
Qed.

Lemma create_and_import_dialogs l : forall w,
  dialogs (snd (create_and_import l w)) = dialogs w.
Proof.
  induction l as [|r l IH]; intros w; cbn [create_and_import]; [reflexivity|].
  destruct (create_ics_file r w) as [[fn|e] w1] eqn:E1; cbn [snd].
  - apply create_ics_file_ok in E1. destruct E1 as (cal & _ & _ & _ & _ & _ & D1 & _).
    destruct (import_ics_to_calendar fn w1) as [[u|e] w2] eqn:E2; cbn [snd].
    + apply import_ok in E2. destruct E2 as (_ & _ & _ & D2 & _).
      rewrite IH. congruence.
    + apply import_fail in E2. destruct E2 as (_ & -> & _). exact D1.
  - apply create_ics_file_fail in E1. tauto.
Qed.

Lemma dialogs_handle e w :
  dialogs (handle e w) = dialogs w ++ [CriticalBox (title_of e) e].
Proof. destruct e; reflexivity. Qed.

Lemma split_lines_nonempty s : split_lines s <> [].
Proof.
  destruct s as [|a s]; cbn; [discriminate|].
  destruct (Ascii.eqb a "010"); [discriminate|].
  destruct (split_lines s); discriminate.
Qed.

Lemma fold_skips_blank client ds : forall st,
  fold_left (process_description client) ds st =
  fold_left (process_description client) (List.filter strip_truthy ds) st.
Proof.
  induction ds as [|d ds IH]; intros st; [reflexivity|].
  cbn [fold_left List.filter].
  destruct (strip_truthy d) eqn:S; cbn [fold_left].
  - apply IH.
  - rewrite <- IH. f_equal. unfold process_description. destruct st. rewrite S.
    reflexivity.
Qed.

Lemma validate_events_not_dict cur l1 v l2 : forall acc w,
  forallb is_dict l1 = true -> is_dict v = false ->
  fst (validate_events cur (l1 ++ v :: l2) acc w) = Raise TypeError.
Proof.
  induction l1 as [|u l1 IH]; intros acc w Hd Hv.
  - cbn [app validate_events]. destruct v; try reflexivity. discriminate Hv.
  - cbn [forallb] in Hd. apply andb_prop in Hd. destruct Hd as [Hu Hd].
    destruct u; try discriminate Hu.
    cbn [app validate_events].
    destruct (ensure_required cur (JDict d)) as [d'|] eqn:E; [|discriminate E].
    destruct (parse_obj d'); apply IH; assumption.
Qed.

Lemma parse_event_same_disk client d w v :
  same_disk w v ->
  fst (parse_event client d w) = fst (parse_event client d v) /\
  same_disk (snd (parse_event client d w)) (snd (parse_event client d v)).
Proof.
  intros S. split.
  - symmetry. apply parse_event_fst. apply S.
  - destruct (parse_event_printed client d w) as [l1 ->].
    destruct (parse_event_printed client d v) as [l2 ->].
    eapply same_disk_trans; [apply same_disk_sym, same_disk_printed|].
    eapply same_disk_trans; [exact S|apply same_disk_printed].
Qed.

(** A description does the same to the disk whatever was shown and printed
    before. *)
Lemma process_description_same_disk client all d w v :
  same_disk w v ->
  fst (process_description client (all, w) d) =
  fst (process_description client (all, v) d) /\
  same_disk (snd (process_description client (all, w) d))
            (snd (process_description client (all, v) d)).
Proof.
  intros S. unfold process_description.
  destruct (strip_truthy d); [|split; [reflexivity|exact S]].
  destruct (parse_event_same_disk client d w v S) as [E1 S1].
  destruct (parse_event client d w) as [x1 w1], (parse_event client d v) as [y1 v1].
  cbn [fst snd] in *. subst y1. destruct x1 as [l|e].
  - destruct (create_and_import_same_disk l w1 v1 S1) as [E2 S2].
    destruct (create_and_import l w1) as [x2 w2],
             (create_and_import l v1) as [y2 v2].
    cbn [fst snd] in *. subst y2. destruct x2 as [u|e]; cbn [fst snd].
    + split; [reflexivity|].
      apply same_disk_sym, same_disk_print, same_disk_sym, same_disk_print, S2.
    + split; [reflexivity|].
      apply same_disk_sym, same_disk_handle, same_disk_sym, same_disk_handle, S2.
  - cbn [fst snd]. split; [reflexivity|].
    apply same_disk_sym, same_disk_handle, same_disk_sym, same_disk_handle, S1.
Qed.

Lemma batch_same_disk client ds : forall all w v,
  same_disk w v ->
  fst (fold_left (process_description client) ds (all, w)) =
  fst (fold_left (process_description client) ds (all, v)) /\
  same_disk (snd (fold_left (process_description client) ds (all, w)))
            (snd (fold_left (process_description client) ds (all, v))).
Proof.
  induction ds as [|d ds IH]; intros all w v S; cbn [fold_left].
  - split; [reflexivity|exact S].
  - destruct (process_description_same_disk client all d w v S) as [E1 S1].
    destruct (process_description client (all, w) d) as [a1 w1],
             (process_description client (all, v) d) as [b1 v1].
    cbn [fst snd] in *. subst b1. apply IH, S1.
Qed.

(** A description whose extraction fails adds no record and leaves the
    disk as it is. *)
Lemma failed_extraction client all w d e :
  fst (parse_event client d w) = Raise e ->
  fst (process_description client (all, w) d) = all /\
  same_disk w (snd (process_description client (all, w) d)).
Proof.
  intros He. unfold process_description.
  destruct (strip_truthy d); [|split; [reflexivity|apply same_disk_refl]].
  destruct (parse_event_printed client d w) as [ls P].
  destruct (parse_event client d w) as [[l|e'] w1]; cbn [fst snd] in *;
    [discriminate|].
  subst w1. split; [reflexivity|]. apply same_disk_handle, same_disk_printed.
Qed.

End MoreExtractor.

(** *** What the readers give *)

Lemma decimal_value_range c : is_decimal c = true -> 0 <= decimal_value c <= 9.
Proof.
  unfold is_decimal, decimal_value.
  destruct (zero_of c) as [z|] eqn:E; [|discriminate]. intros _.
  apply zero_of_spec in E. lia.
Qed.

Lemma any_digit_range c v : any_digit c = Some v -> 0 <= v <= 9.
Proof.
  unfold any_digit. destruct (is_decimal c) eqn:D; [|discriminate].
  intros E; inversion E. apply decimal_value_range, D.
Qed.

Lemma plain_range lo hi c v :
  digit_in lo hi c = Some v ->
  Z.of_N (byte lo) - 48 <= v <= Z.of_N (byte hi) - 48.
Proof.
  unfold digit_in, between. destruct (_ && _) eqn:B; [|discriminate].
  apply andb_prop in B. destruct B as [B1 B2]. apply N.leb_le in B1, B2.
  intros E; inversion E. lia.
Qed.

Ltac ranges :=
  repeat match goal with
  | H : digit_in ?lo ?hi _ = Some _ |- _ =>
      apply plain_range in H; vm_compute (byte _) in H
  | H : any_digit _ = Some _ |- _ => apply any_digit_range in H
  | H : blank ?c = Some _ |- _ =>
      unfold blank in H; destruct (c =? 32)%N; [inversion H; clear H|discriminate H]
  end.

Ltac read_cases :=
  repeat match goal with
  | |- context [match ?p ?c with _ => _ end] =>
      match type of (p c) with option Z => destruct (p c) eqn:? end
  end.

Lemma read_hour_range s v rest : read_hour s = Some (v, rest) -> 0 <= v < 24.
Proof.
  unfold read_hour. destruct s as [|c1 [|c2 s2]]; cbn [first_of one two];
    read_cases; intros E; inversion E; subst; ranges; lia.
Qed.

Lemma read_minute_range s v rest : read_minute s = Some (v, rest) -> 0 <= v < 60.
Proof.
  unfold read_minute. destruct s as [|c1 [|c2 s2]]; cbn [first_of one two];
    read_cases; intros E; inversion E; subst; ranges; lia.
Qed.

Lemma clock_at_range s t rest :
  clock_at s = Some (t, rest) ->
  0 <= t_hour t < 24 /\ 0 <= t_minute t < 60 /\ t_second t = 0.
Proof.
  unfold clock_at.
  destruct (read_hour s) as [[h s1]|] eqn:Eh; [|discriminate].
  destruct (skip ":" s1) as [s2|]; [|discriminate].
  destruct (read_minute s2) as [[m s3]|] eqn:Em; [|discriminate].
  intros E; inversion E; subst. cbn.
  apply read_hour_range in Eh. apply read_minute_range in Em. auto.
Qed.

Lemma read_time_range s t :
  read_time s = Some t ->
  0 <= t_hour t < 24 /\ 0 <= t_minute t < 60 /\ t_second t = 0.
Proof.
  unfold read_time. destruct (clock_at _) as [[t' [|? ?]]|] eqn:E; try discriminate.
  intros Q; inversion Q; subst. apply clock_at_range in E. exact E.
Qed.

Lemma read_clock_range s t :
  read_clock s = Some t ->
  0 <= t_hour t < 24 /\ 0 <= t_minute t < 60 /\ t_second t = 0.
Proof.
  unfold read_clock. destruct (clock_at _) as [[t' [|? ?]]|] eqn:E; try discriminate.
  intros Q; inversion Q; subst. apply clock_at_range in E. exact E.
Qed.

(** *** The builder, by what the record gives *)

Lemma timed_given event :
  timed event =
  match read_date (start_date event) with
  | None => Raise ValueError
  | Some d =>
      match (match given (end_date event) with
             | Some s => read_date s
             | None => Some d
             end) with
      | None => Raise ValueError
      | Some d' =>
          let ics_event := add [] "summary" (RStr (name event)) in
          match given (start_time event) with
          | Some st =>
              match read_time st with
              | None => Raise ValueError
              | Some t =>
                  try! end_datetime :=
                    match given (end_time event) with
                    | Some et =>
                        match read_time et with
                        | Some t' => Ok (combine d' t')
                        | None => Raise ValueError
                        end
                    | None => datetime_add (combine d t) (hours 1)
                    end in
                  Ok (add (add ics_event "dtstart" (RDatetime (combine d t)))
                          "dtend" (RDatetime end_datetime))
              end
          | None =>
              try! e := date_add d' (days 1) in
              Ok (add (add ics_event "dtstart" (RDate d)) "dtend" (RDate e))
          end
      end
  end.
Proof.
  rewrite timed_reads.
  destruct (read_date (start_date event)) as [d|]; [|reflexivity].
  destruct (given_cases (end_date event)) as [[T1 G1]|[T1 G1]];
    destruct (given_cases (start_time event)) as [[T2 G2]|[T2 G2]];
    destruct (given_cases (end_time event)) as [[T3 G3]|[T3 G3]];
    rewrite T1, G1, T2, G2, ?T3, ?G3; reflexivity.
Qed.


End MoreFacts.

(** * The claims *)

Import ICal Host CalendarApp.
Import DatetimeFacts UnicodeFacts StrptimeFacts ICalFacts BuilderFacts.
Import ExtractorFacts TestPyFacts MoreFacts.
Import Examples Samples.

(** ** The builder *)




(** C2: the application drops the time zone.  The call at 09:00 in
    Asia/Shanghai is built with both timestamps naive, 09:00 and 10:00 of
    the same day; the prototype attaches the zone to both
    ([TestPyFacts.TestPy_timezone_attached]). *)
Theorem C2_timezone_dropped :
  timezone call = Some "Asia/Shanghai" /\
  exists cal s f,
    build_calendar call = Ok cal /\
    emitted cal "dtstart" = [vDatetime s] /\ emitted cal "dtend" = [vDatetime f] /\
    tzinfo s = None /\ tzinfo f = None /\
    s = mkdatetime (mkdate 2024 10 31) 9 0 0 None /\
    f = mkdatetime (mkdate 2024 10 31) 10 0 0 None.
Proof.
  split; [reflexivity|].
  eexists _, _, _. split; [vm_compute; reflexivity|].
  repeat split; reflexivity.
Qed.

(** C3 (as amended): a record with no start time, or an empty one, whose
    start date is read as the day [d] and whose last day, the end date when
    it is given and the start date otherwise, is read as the day [d'], is
    built with the date-only start [d] and the date-only end that is the
    day after [d'], the day of the next ordinal; unless [d'] is 9999-12-31,
    when the builder raises [OverflowError].  A start date of 2024-10-31
    with no end date and no start time gives the start 2024-10-31 and the
    end 2024-11-01. *)
Theorem C3_all_day_end_exclusive :
  (forall event d d',
      given (start_time event) = None ->
      read_date (start_date event) = Some d ->
      match given (end_date event) with
      | Some s => read_date s
      | None => Some d
      end = Some d' ->
      if date_eqb d' last_day
      then build_calendar event = Raise OverflowError
      else exists cal,
          build_calendar event = Ok cal /\
          emitted cal "dtstart" = [vDate d] /\
          emitted cal "dtend" = [vDate (tomorrow d')] /\
          toordinal (tomorrow d') = toordinal d' + 1) /\
  (forall event,
      start_date event = "2024-10-31" -> end_date event = None ->
      start_time event = None ->
      exists cal,
        build_calendar event = Ok cal /\
        emitted cal "dtstart" = [vDate (mkdate 2024 10 31)] /\
        emitted cal "dtend" = [vDate (mkdate 2024 11 1)]).
Proof.
  assert (G : forall event d d',
      given (start_time event) = None ->
      read_date (start_date event) = Some d ->
      match given (end_date event) with
      | Some s => read_date s
      | None => Some d
      end = Some d' ->
      if date_eqb d' last_day
      then build_calendar event = Raise OverflowError
      else exists cal,
          build_calendar event = Ok cal /\
          emitted cal "dtstart" = [vDate d] /\
          emitted cal "dtend" = [vDate (tomorrow d')] /\
          toordinal (tomorrow d') = toordinal d' + 1).
  { intros event d d' Hst Hd Hd'.
    assert (V' : valid_date d' = true).
    { destruct (given (end_date event)) as [s|].
      - apply (read_date_valid _ _ Hd').
      - inversion Hd'; subst. apply (read_date_valid _ _ Hd). }
    rewrite build_calendar_eq, timed_given, Hd, Hd', Hst.
    rewrite (one_day_later d' V').
    destruct (date_eqb d' last_day); cbn [bind]; [reflexivity|].
    eexists. split; [reflexivity|].
    rewrite !emitted_timing by reflexivity. rewrite !get_add.
    split; [reflexivity|]. split; [reflexivity|].
    apply toordinal_tomorrow, valid_date_wf, V'. }
  split; [exact G|].
  intros event Hsd Hed Hst.
  pose proof (G event (mkdate 2024 10 31) (mkdate 2024 10 31)
                ltac:(rewrite Hst; reflexivity) ltac:(rewrite Hsd; reflexivity)
                ltac:(rewrite Hed; reflexivity)) as X.
  change (date_eqb (mkdate 2024 10 31) last_day) with false in X. cbv iota in X.
  destruct X as (cal & B & S & E & _). exists cal. auto.
Qed.

Lemma C3_all_day_end_exclusive_witness :
  given (start_time trip) = None /\
  read_date (start_date trip) = Some (mkdate 2024 12 30) /\
  given (end_date trip) = Some "2025-01-02" /\
  read_date "2025-01-02" = Some (mkdate 2025 1 2) /\
  exists cal,
    build_calendar trip = Ok cal /\
    emitted cal "dtstart" = [vDate (mkdate 2024 12 30)] /\
    emitted cal "dtend" = [vDate (mkdate 2025 1 3)] /\
    toordinal (mkdate 2025 1 3) = toordinal (mkdate 2025 1 2) + 1.
Proof.
  split; [reflexivity|]. split; [reflexivity|]. split; [reflexivity|].
  split; [reflexivity|].
  pose proof (proj1 C3_all_day_end_exclusive trip (mkdate 2024 12 30)
                (mkdate 2025 1 2) eq_refl eq_refl eq_refl) as X.
  change (date_eqb (mkdate 2025 1 2) last_day) with false in X. cbv iota in X.
  exact X.
Defined.

(** C3 as stated does not hold.  An end date that is present and empty is
    not read: the end is the day after the start date.  And the builder does
    not emit an end for every record with no start time: on 9999-12-31 it
    raises [OverflowError]. *)
Lemma C3_counterexample :
  ~ (forall event cal,
        start_time event = None ->
        build_calendar event = Ok cal ->
        exists d',
          read_date (match end_date event with
                     | Some s => s
                     | None => start_date event
                     end) = Some d' /\
          emitted cal "dtend" = [vDate (tomorrow d')]) /\
  (end_date empty_end_date = Some "" /\
   exists cal,
     build_calendar empty_end_date = Ok cal /\
     emitted cal "dtend" = [vDate (mkdate 2024 11 1)]) /\
  (start_time final_day = None /\ strict final_day = true /\
   build_calendar final_day = Raise OverflowError).
Proof.
  split; [|split].
  - intros H.
    destruct (build_calendar empty_end_date) as [cal|] eqn:E;
      [|vm_compute in E; discriminate E].
    destruct (H empty_end_date cal eq_refl E) as (d' & R & _).
    vm_compute in R. discriminate R.
  - split; [reflexivity|]. eexists. split; vm_compute; reflexivity.
  - split; [reflexivity|]. split; vm_compute; reflexivity.
Qed.

(** C4 (as amended): a record with a start time that is not empty and
    with no end time, or an empty one, whose start date is read as the day
    [d] and whose start time as the time [t], the end date being a date when
    it is given, is built with the start [d] at [t] and with an end exactly
    3600 seconds later, both naive; unless [d] is 9999-12-31 and [t] is in
    the last hour, when the builder raises [OverflowError]. *)
Theorem C4_default_duration event st d t :
  given (start_time event) = Some st ->
  given (end_time event) = None ->
  read_date (start_date event) = Some d ->
  read_time st = Some t ->
  match given (end_date event) with
  | Some s => reads (read_date s)
  | None => true
  end = true ->
  if date_eqb d last_day && (t_hour t =? 23)
  then build_calendar event = Raise OverflowError
  else exists cal e,
      build_calendar event = Ok cal /\
      emitted cal "dtstart" = [vDatetime (combine d t)] /\
      emitted cal "dtend" = [vDatetime e] /\
      timeline e = timeline (combine d t) + 3600 /\
      tzinfo e = None.
Proof.
  intros Hst Het Hd Ht Hed.
  pose proof (read_date_valid _ _ Hd) as V.
  destruct (read_time_range _ _ Ht) as (Rh & Rm & Rs).
  pose proof (one_hour_later d t V Rh Rm Rs) as O.
  rewrite build_calendar_eq, timed_given, Hd, Hst, Ht, Het.
  assert (F : exists d', match given (end_date event) with
                         | Some s => read_date s
                         | None => Some d
                         end = Some d').
  { destruct (given (end_date event)) as [s|]; [|eauto].
    destruct (read_date s); [eauto|discriminate Hed]. }
  destruct F as [d' ->]. cbv zeta.
  destruct (datetime_add (combine d t) (hours 1)) as [e|x] eqn:A;
    cbn [bind is_ok] in *.
  - destruct (date_eqb d last_day && (t_hour t =? 23)); [discriminate O|].
    exists (add_component header
              (decorated event
                 (add (add (add [] "summary" (RStr (name event))) "dtstart"
                           (RDatetime (combine d t))) "dtend" (RDatetime e)))), e.
    split; [reflexivity|].
    rewrite !emitted_timing by reflexivity. rewrite !get_add.
    apply datetime_add_one_hour in A. destruct A as (A1 & A2 & _).
    split; [reflexivity|]. split; [reflexivity|]. split; [exact A1|].
    rewrite A2. reflexivity.
  - apply datetime_add_raises in A. subst x.
    destruct (date_eqb d last_day && (t_hour t =? 23)); [reflexivity|discriminate O].
Qed.

Lemma C4_default_duration_witness :
  given (start_time call) = Some "09:00" /\
  given (end_time call) = None /\
  read_date (start_date call) = Some (mkdate 2024 10 31) /\
  read_time "09:00" = Some (mktime 9 0 0) /\
  exists cal e,
    build_calendar call = Ok cal /\
    emitted cal "dtstart" = [vDatetime (mkdatetime (mkdate 2024 10 31) 9 0 0 None)] /\
    emitted cal "dtend" = [vDatetime e] /\
    timeline e = timeline (mkdatetime (mkdate 2024 10 31) 9 0 0 None) + 3600 /\
    tzinfo e = None.
Proof.
  split; [reflexivity|]. split; [reflexivity|]. split; [reflexivity|].
  split; [reflexivity|].
  pose proof (C4_default_duration call "09:00" (mkdate 2024 10 31) (mktime 9 0 0)
                eq_refl eq_refl eq_refl eq_refl eq_refl) as X.
  change (date_eqb (mkdate 2024 10 31) last_day && (t_hour (mktime 9 0 0) =? 23))
    with false in X. cbv iota in X.
  exact X.
Defined.

(** C4 as stated does not hold.  A start time that is present and empty
    makes an all-day event: the calendar has dates and no timestamps.  And a
    record that starts in the last hour of 9999-12-31 with no end time has
    no end an hour later: the builder raises [OverflowError]. *)
Lemma C4_counterexample :
  ~ (forall event cal,
        start_time event <> None -> end_time event = None ->
        build_calendar event = Ok cal ->
        exists s e,
          emitted cal "dtstart" = [vDatetime s] /\
          emitted cal "dtend" = [vDatetime e] /\
          timeline e = timeline s + 3600) /\
  (start_time empty_start_time = Some "" /\
   exists cal,
     build_calendar empty_start_time = Ok cal /\
     emitted cal "dtstart" = [vDate (mkdate 2024 10 31)] /\
     emitted cal "dtend" = [vDate (mkdate 2024 11 1)]) /\
  (start_time last_night = Some "23:30" /\ end_time last_night = None /\
   strict last_night = true /\
   build_calendar last_night = Raise OverflowError).
Proof.
  split; [|split].
  - intros H.
    destruct (build_calendar empty_start_time) as [cal|] eqn:E;
      [|vm_compute in E; discriminate E].
    destruct (H empty_start_time cal ltac:(discriminate) eq_refl E)
      as (s & e & S & _).
    vm_compute in E. inversion E; subst cal. vm_compute in S. discriminate S.
  - split; [reflexivity|]. eexists. split; [|split]; vm_compute; reflexivity.
  - split; [reflexivity|]. split; [reflexivity|].
    split; vm_compute; reflexivity.
Qed.

(** C6 (as amended): the application writes the calendar to a new
    temporary file and returns only its name: the temporary directory joined
    with tmp, one of the candidate names and .ics; nothing had that name,
    the file holds the calendar of the record, and the next record gets
    another name.  The prototype names the file by the event name, its
    spaces replaced by underscores, an underscore, the date and .ics, joined
    to the directory of the script: two records whose names differ in spaces
    and underscores only share the file on the same date, and a name that
    starts with a slash leaves the directory of the script. *)
Theorem C6_returned_filename :
  (forall event w fn,
      fst (create_ics_file event w) = Ok fn ->
      exists dir n cal,
        tempdir (env w) = Some dir /\ In n (temp_names w) /\
        fn = path_join dir ("tmp" +:+ n +:+ ".ics") /\
        path_exists w fn = false /\
        build_calendar event = Ok cal /\
        files (snd (create_ics_file event w)) !! fn = Some cal) /\
  (forall event1 event2 w fn1 w1 fn2 w2,
      create_ics_file event1 w = (Ok fn1, w1) ->
      create_ics_file event2 w1 = (Ok fn2, w2) ->
      fn1 <> fn2) /\
  (forall event w fn,
      fst (TestPy.create_ics_file event w) = Ok fn ->
      fn = path_join (script_dir (env w))
             (replace_char " " "_" (TestPy.name event) +:+ "_" +:+
              TestPy.date event +:+ ".ics") /\
      exists cal,
        TestPy.build_calendar (env w) event = Ok cal /\
        files (snd (TestPy.create_ics_file event w)) !! fn = Some cal) /\
  (forall e event1 event2,
      replace_char " " "_" (TestPy.name event1) =
      replace_char " " "_" (TestPy.name event2) ->
      TestPy.date event1 = TestPy.date event2 ->
      TestPy.filename_of e event1 = TestPy.filename_of e event2) /\
  (forall e event rest,
      TestPy.name event = String "/" rest ->
      TestPy.filename_of e event =
      String "/" (replace_char " " "_" rest) +:+ "_" +:+ TestPy.date event +:+
      ".ics").
Proof.
  split; [|split; [|split; [|split]]].
  - intros event w fn. unfold create_ics_file.
    destruct (build_calendar event) as [cal|]; [|discriminate].
    unfold write_temporary_file.
    destruct (tempdir (env w)) as [dir|]; [|discriminate].
    destruct (_mkstemp_inner _ _ _ _) as [[file rest]|] eqn:E; [|discriminate].
    apply mkstemp_ok in E. destruct E as (E1 & n & E2 & E3).
    destruct (can_create _ _); [|discriminate].
    destruct (can_write _ _); [|discriminate]. cbn [fst snd].
    intros Q. inversion Q; subst fn. exists dir, n, cal.
    rewrite <- E3. repeat split; try assumption. cbn. apply lookup_insert_eq.
  - intros event1 event2 w fn1 w1 fn2 w2 C1 C2 E. subst fn2.
    apply create_ics_file_ok in C1. destruct C1 as (cal1 & _ & _ & F1 & _).
    apply create_ics_file_ok in C2. destruct C2 as (cal2 & _ & N2 & _).
    rewrite F1, lookup_insert_eq in N2. discriminate N2.
  - intros event w fn. unfold TestPy.create_ics_file.
    destruct (TestPy.build_calendar (env w) event) as [cal|]; [|discriminate].
    unfold write_file. destruct (can_create _ _); [|discriminate].
    destruct (can_write _ _); [|discriminate]. cbn.
    intros H. inversion H; subst fn. split; [reflexivity|].
    exists cal. split; [reflexivity|]. apply lookup_insert_eq.
  - intros e event1 event2 En Ed. unfold TestPy.filename_of.
    rewrite En, Ed. reflexivity.
  - intros e event rest En. unfold TestPy.filename_of. rewrite En.
    cbn [replace_char]. reflexivity.
Qed.

Lemma C6_returned_filename_witness :
  fst (create_ics_file (plain "Standup" "2024-10-31") (fresh_world linux ["a"])) =
  Ok "/tmp/tmpa.ics" /\
  exists dir n cal,
    tempdir (env (fresh_world linux ["a"])) = Some dir /\
    In n (temp_names (fresh_world linux ["a"])) /\
    "/tmp/tmpa.ics" = path_join dir ("tmp" +:+ n +:+ ".ics") /\
    path_exists (fresh_world linux ["a"]) "/tmp/tmpa.ics" = false /\
    build_calendar (plain "Standup" "2024-10-31") = Ok cal /\
    files (snd (create_ics_file (plain "Standup" "2024-10-31")
                                (fresh_world linux ["a"]))) !! "/tmp/tmpa.ics" =
    Some cal.
Proof.
  split; [vm_compute; reflexivity|].
  apply (proj1 C6_returned_filename). vm_compute; reflexivity.
Defined.

(** C6 as stated does not hold.  The file name the application returns
    is not made from the event name and the event date: the same record gets
    two names in two worlds that differ in the candidate names.  The file
    name of the prototype is not unique: two different records share one.
    And it is not made safe: a slash of the event name stays, and a name
    that starts with one gives a file outside the directory of the
    script. *)
Lemma C6_counterexample :
  ~ (exists f : string -> string -> string,
       forall event w fn,
         fst (create_ics_file event w) = Ok fn ->
         fn = f (name event) (start_date event)) /\
  (TestPy.mkCalendarEvent "team sync" "2024-10-31" None None None None None <>
   TestPy.mkCalendarEvent "team_sync" "2024-10-31" None None None None None /\
   fst (TestPy.create_ics_file
          (TestPy.mkCalendarEvent "team sync" "2024-10-31" None None None None None)
          (fresh_world linux [])) = Ok "/app/team_sync_2024-10-31.ics" /\
   fst (TestPy.create_ics_file
          (TestPy.mkCalendarEvent "team_sync" "2024-10-31" None None None None None)
          (fresh_world linux [])) = Ok "/app/team_sync_2024-10-31.ics") /\
  fst (TestPy.create_ics_file
         (TestPy.mkCalendarEvent "a/b" "2024-10-31" None None None None None)
         (fresh_world linux [])) = Ok "/app/a/b_2024-10-31.ics" /\
  fst (TestPy.create_ics_file
         (TestPy.mkCalendarEvent "/tmp/x y" "2024-10-31" None None None None None)
         (fresh_world linux [])) = Ok "/tmp/x_y_2024-10-31.ics".
Proof.
  split.
  - intros [f H].
    pose proof (H (plain "Standup" "2024-10-31") (fresh_world linux ["a"])
                  "/tmp/tmpa.ics" ltac:(vm_compute; reflexivity)) as Ha.
    pose proof (H (plain "Standup" "2024-10-31") (fresh_world linux ["b"])
                  "/tmp/tmpb.ics" ltac:(vm_compute; reflexivity)) as Hb.
    cbn [name start_date plain] in Ha, Hb. rewrite <- Ha in Hb. discriminate Hb.
  - split; [split; [discriminate|split; vm_compute; reflexivity]|].
    split; vm_compute; reflexivity.
Qed.

(** C10 (as amended): the calendar carries a location exactly when the
    location of the record is present and not empty, and one attendee per
    participant, each MAILTO: and the participant, in the order of the
    record.  The location Room 5 with the participants a@example.com and
    b@example.com gives one location and the two attendees in that
    order. *)
Theorem C10_location_and_attendees :
  (forall event cal,
      build_calendar event = Ok cal ->
      emitted cal "location" =
      (if truthy (location event) then [vText (str_of (location event))] else [])
      /\
      emitted cal "attendee" =
      map (fun p => vCalAddress ("MAILTO:" +:+ p)) (default [] (participants event)))
  /\
  (forall event cal,
      location event = Some "Room 5" ->
      participants event = Some ["a@example.com"; "b@example.com"] ->
      build_calendar event = Ok cal ->
      emitted cal "location" = [vText "Room 5"] /\
      emitted cal "attendee" =
      [vCalAddress "MAILTO:a@example.com"; vCalAddress "MAILTO:b@example.com"]).
Proof.
  assert (G : forall event cal,
      build_calendar event = Ok cal ->
      emitted cal "location" =
      (if truthy (location event) then [vText (str_of (location event))] else [])
      /\
      emitted cal "attendee" =
      map (fun p => vCalAddress ("MAILTO:" +:+ p)) (default [] (participants event))).
  { intros event cal H. destruct (emitted_location event cal H) as [H1 H2].
    split; [exact H1|]. rewrite H2.
    destruct (participants event) as [[|p ps]|]; reflexivity. }
  split; [exact G|].
  intros event cal Hl Hp H. destruct (G event cal H) as [H1 H2].
  rewrite H1, H2, Hl, Hp. split; reflexivity.
Qed.

Lemma C10_location_and_attendees_witness :
  location meeting = Some "Room 5" /\
  participants meeting = Some ["a@example.com"; "b@example.com"] /\
  build_calendar meeting = Ok (built meeting) /\
  emitted (built meeting) "location" = [vText "Room 5"] /\
  emitted (built meeting) "attendee" =
  [vCalAddress "MAILTO:a@example.com"; vCalAddress "MAILTO:b@example.com"].
Proof.
  split; [reflexivity|]. split; [reflexivity|].
  split; [vm_compute; reflexivity|].
  apply (proj2 C10_location_and_attendees meeting);
    [reflexivity|reflexivity|vm_compute; reflexivity].
Defined.

(** C10 as stated does not hold: a location that is present and empty
    gives no location in the calendar. *)
Lemma C10_counterexample :
  ~ (forall event cal,
        build_calendar event = Ok cal ->
        (emitted cal "location" <> [] <-> location event <> None)).
Proof.
  intros H.
  pose (event := mkCalendarEvent "Meet" "2024-10-31" None None None None None (Some "") None).
  destruct (build_calendar event) as [cal|] eqn:E; [|discriminate E].
  specialize (H event cal E).
  destruct (emitted_location event cal E) as [H1 _]. cbn in H1.
  apply (proj2 H); [discriminate|exact H1].
Qed.

(** ** The extractor and the batch *)

(** C7: an answer with null under the events key is an object, and
    [parse_event] does not make a list of it: it iterates the null and
    raises [TypeError], where the object taken as the only candidate gives
    one record.  For the rest the claim holds: a list is validated item by
    item, an object with no events key as the only item, an object with a
    list under the events key by that list; any other value under the events
    key is iterated as it is, which raises [TypeError] unless there is
    nothing in it; and [parse_event] raises [ValueError] exactly when the
    answer is not JSON or is JSON that is neither a list nor an object. *)
Theorem C7_normalization :
  (odd_loads no_events_text = Some (JDict [("events", JNull)]) /\
   @parse_event odd_decoders odd_client "no events" (fresh_world linux []) =
   (Raise TypeError, fresh_world linux []) /\
   @validate_events odd_decoders "2024-10-30" [JDict [("events", JNull)]] []
                    (fresh_world linux []) =
   (Ok [plain "Untitled Event" "2024-10-30"], fresh_world linux [])) /\
  (forall (D : Decoders) client event_description w events_data,
      client (strftime_ymd (today (env w))) event_description = Ok events_data ->
      (forall v l,
          json_loads events_data = Some v -> normal_list v = Some l ->
          parse_event client event_description w =
          validate_events (strftime_ymd (today (env w))) l [] w) /\
      (forall d x,
          json_loads events_data = Some (JDict d) ->
          dict_get d "events" = Some x -> (forall l, x <> JList l) ->
          parse_event client event_description w =
          (if nothing_in x then Ok [] else Raise TypeError, w)) /\
      (fst (parse_event client event_description w) = Raise ValueError <->
       match json_loads events_data with
       | None => True
       | Some v => structured v = false
       end)).
Proof.
  split; [split; [reflexivity|split; vm_compute; reflexivity]|].
  intros D client event_description w events_data Hc.
  unfold parse_event. cbv zeta. rewrite Hc.
  split; [|split].
  - intros v l -> N. destruct v; try discriminate N.
    + inversion N; subst. reflexivity.
    + cbn [events_of normal_list] in *. destruct (dict_get d "events") as [x|].
      * destruct x; try discriminate N. inversion N; subst. reflexivity.
      * inversion N; subst. reflexivity.
  - intros d x -> Hx Hl. cbn [events_of]. rewrite Hx.
    destruct x as [| | | |s|l|d']; cbn [iterate nothing_in]; try reflexivity.
    + destruct s as [|c s]; reflexivity.
    + destruct (Hl l eq_refl).
    + destruct d' as [|[k v] d']; reflexivity.
  - destruct (json_loads events_data) as [v|]; [|cbn; tauto].
    destruct v; cbn [events_of structured fst]; try tauto.
    + cbn [iterate]. split; [|discriminate].
      intros E. apply validate_events_raises in E. discriminate.
    + split; [|discriminate].
      destruct (dict_get d "events") as [v|].
      * destruct (iterate v) as [l|e] eqn:Ei.
        -- intros E. apply validate_events_raises in E. discriminate.
        -- cbn. intros E. apply iterate_raises in Ei. congruence.
      * cbn [iterate]. intros E. apply validate_events_raises in E. discriminate.
Qed.

Lemma C7_normalization_witness :
  @parse_event table_decoders scripted_client "standup tomorrow"
               (fresh_world linux []) =
  @validate_events table_decoders "2024-10-30"
    [JDict [("name", JStr "Standup"); ("start_date", JStr "2024-10-31")]] []
    (fresh_world linux []) /\
  @parse_event odd_decoders odd_client "no events" (fresh_world linux []) =
  (Raise TypeError, fresh_world linux []) /\
  fst (@parse_event table_decoders scripted_client "what?" (fresh_world linux [])) =
  Raise ValueError.
Proof.
  destruct C7_normalization as [_ G].
  split; [|split].
  - destruct (G table_decoders scripted_client "standup tomorrow"
                (fresh_world linux []) standup_text eq_refl) as (A & _ & _).
    exact (A (one_event "Standup" "2024-10-31") _ eq_refl eq_refl).
  - destruct (G odd_decoders odd_client "no events" (fresh_world linux [])
                no_events_text eq_refl) as (_ & B & _).
    exact (B [("events", JNull)] JNull eq_refl eq_refl ltac:(discriminate)).
  - destruct (G table_decoders scripted_client "what?" (fresh_world linux [])
                apology_text eq_refl) as (_ & _ & C).
    apply (proj2 C). exact I.
Defined.

(** C8: a null between two candidates is not skipped: [parse_event]
    raises [TypeError] and returns no record, where the two candidates
    around it validate.  For the rest the claim holds: when every candidate
    is an object, [parse_event] returns the records of the candidates that
    validate, in the order of the answer, and prints one line for each
    candidate that does not; and any candidate that is not an object, after
    candidates that are, raises [TypeError]. *)
Theorem C8_skip_invalid_candidates :
  (odd_loads null_between_text = Some (JList null_between) /\
   @parse_event odd_decoders odd_client "a null" (fresh_world linux []) =
   (Raise TypeError, fresh_world linux []) /\
   omap (@candidate_record odd_decoders "2024-10-30") null_between =
   [plain "Standup" "2024-10-31"; plain "Review" "2024-11-08"]) /\
  (forall (D : Decoders) client event_description w events_data parsed_data
          events l,
      client (strftime_ymd (today (env w))) event_description = Ok events_data ->
      json_loads events_data = Some parsed_data ->
      events_of parsed_data = Ok events ->
      iterate events = Ok l ->
      forallb is_dict l = true ->
      parse_event client event_description w =
      (Ok (omap (candidate_record (strftime_ymd (today (env w)))) l),
       printed w (flat_map (skipped_line (strftime_ymd (today (env w)))) l))) /\
  (forall (D : Decoders) client event_description w events_data parsed_data
          events l1 v l2,
      client (strftime_ymd (today (env w))) event_description = Ok events_data ->
      json_loads events_data = Some parsed_data ->
      events_of parsed_data = Ok events ->
      iterate events = Ok (l1 ++ v :: l2) ->
      forallb is_dict l1 = true -> is_dict v = false ->
      fst (parse_event client event_description w) = Raise TypeError).
Proof.
  split; [split; [reflexivity|split; vm_compute; reflexivity]|].
  split.
  - intros D client event_description w events_data parsed_data events l
           Hc Hj He Hi Hd.
    unfold parse_event. cbv zeta. rewrite Hc, Hj, He, Hi.
    exact (validate_events_dicts _ l [] w Hd).
  - intros D client event_description w events_data parsed_data events l1 v l2
           Hc Hj He Hi Hd Hv.
    unfold parse_event. cbv zeta. rewrite Hc, Hj, He, Hi.
    apply validate_events_not_dict; assumption.
Qed.

Lemma C8_skip_invalid_candidates_witness :
  forallb is_dict mixed = true /\
  @parse_event table_decoders scripted_client "two meetings" (fresh_world linux []) =
  (Ok (omap (@candidate_record table_decoders "2024-10-30") mixed),
   printed (fresh_world linux [])
           (flat_map (@skipped_line table_decoders "2024-10-30") mixed)) /\
  omap (@candidate_record table_decoders "2024-10-30") mixed =
  [plain "Review" "2024-11-08"] /\
  is_dict JNull = false /\
  fst (@parse_event odd_decoders odd_client "a null" (fresh_world linux [])) =
  Raise TypeError.
Proof.
  destruct C8_skip_invalid_candidates as (_ & A & B).
  split; [reflexivity|].
  split; [exact (A table_decoders scripted_client "two meetings"
                   (fresh_world linux []) mixed_text (JList mixed) (JList mixed)
                   mixed eq_refl eq_refl eq_refl eq_refl eq_refl)|].
  split; [reflexivity|]. split; [reflexivity|].
  exact (B odd_decoders odd_client "a null" (fresh_world linux [])
           null_between_text (JList null_between) (JList null_between)
           [JDict [("name", JStr "Standup"); ("start_date", JStr "2024-10-31")]]
           JNull
           [JDict [("name", JStr "Review"); ("start_date", JStr "2024-11-08")]]
           eq_refl eq_refl eq_refl eq_refl eq_refl eq_refl).
Defined.

Section ExtractorClaims.

Context `{Decoders}.


End ExtractorClaims.


(** C5 (as amended): failures are isolated per description, not per
    record.  A record the builder refuses stops its description: the records
    before it are written and opened, and the records after it are not read.
    A description whose extraction fails adds no record, leaves the disk as
    it is and shows one dialog; the batch with it shows the same records and
    leaves the same disk as the batch without it; and the records shown
    after a batch are those of each description taken alone, in order.  Of
    three descriptions whose second gets an answer that is not JSON, the
    records of the first and of the third are shown, and their files are
    written and opened. *)
Theorem C5_isolation_per_description :
  (forall l1 r rest w w1 e,
      create_and_import l1 w = (Ok tt, w1) ->
      build_calendar r = Raise e ->
      create_and_import (l1 ++ r :: rest) w = (Raise e, w1)) /\
  (forall (D : Decoders) client all w d e,
      strip_truthy d = true ->
      fst (parse_event client d w) = Raise e ->
      exists w',
        process_description client (all, w) d = (all, w') /\
        same_disk w w' /\
        exists title, dialogs w' = dialogs w ++ [CriticalBox title e]) /\
  (forall (D : Decoders) client ds1 d ds2 w e,
      fst (parse_event client d w) = Raise e ->
      fst (fold_left (process_description client) (ds1 ++ d :: ds2) ([], w)) =
      fst (fold_left (process_description client) (ds1 ++ ds2) ([], w)) /\
      same_disk
        (snd (fold_left (process_description client) (ds1 ++ ds2) ([], w)))
        (snd (fold_left (process_description client) (ds1 ++ d :: ds2) ([], w))))
  /\
  (forall (D : Decoders) api_key event_input w,
      api_key <> "" ->
      fst (generate_ics api_key event_input w) =
      Some (flat_map (extracted (OpenAI (env w) api_key) w)
                     (split_lines event_input))) /\
  (let out := @generate_ics table_decoders "key"
       ("standup tomorrow" +:+ String "010" ("what?" +:+ String "010" "review on 8 Nov"))
       (fresh_world linux ["a"; "b"; "c"]) in
   fst out = Some [plain "Standup" "2024-10-31"; plain "Review" "2024-11-08"] /\
   dialogs (snd out) = [CriticalBox "Parsing Error" ValueError] /\
   opened (snd out) = ["/tmp/tmpa.ics"; "/tmp/tmpb.ics"] /\
   files (snd out) !! "/tmp/tmpa.ics" = Some (built (plain "Standup" "2024-10-31")) /\
   files (snd out) !! "/tmp/tmpb.ics" = Some (built (plain "Review" "2024-11-08"))).
Proof.
  split; [exact create_and_import_app|].
  split; [|split; [|split]].
  - intros D client all w d e Hs He. unfold process_description. rewrite Hs.
    destruct (parse_event_printed client d w) as [ls P].
    destruct (parse_event client d w) as [[l|e'] w1]; cbn [fst snd] in *; [discriminate|].
    inversion He; subst e' w1.
    destruct (printed_fields w ls) as (P1 & P2 & P3 & P4 & P5).
    exists (handle e (printed w ls)). split; [reflexivity|].
    split.
    + apply same_disk_handle, same_disk_printed.
    + destruct e; cbn; rewrite P5; eauto.
  - intros D client ds1 d ds2 w e He. rewrite !fold_left_app. cbn [fold_left].
    destruct (batch_spec client w ds1 [] w eq_refl) as (w1 & E1 & V1).
    rewrite E1. cbn [app].
    assert (He1 : fst (parse_event client d w1) = Raise e)
      by (rewrite (parse_event_fst client d w w1 V1); exact He).
    destruct (failed_extraction client (flat_map (extracted client w) ds1) w1 d e He1)
      as [F1 F2].
    destruct (process_description client (flat_map (extracted client w) ds1, w1) d)
      as [a2 w2]. cbn [fst snd] in *. subst a2.
    destruct (batch_same_disk client ds2 (flat_map (extracted client w) ds1)
                w1 w2 F2) as [G1 G2].
    split; [symmetry; exact G1|exact G2].
  - intros D api_key event_input w Hk. unfold generate_ics.
    destruct (String.eqb_spec api_key ""); [contradiction|]. cbn [orb].
    destruct (split_lines event_input) as [|d ds] eqn:Es.
    + exfalso. destruct event_input; cbn in Es; [discriminate|].
      destruct (Ascii.eqb a "010"); [discriminate|].
      destruct (split_lines event_input); discriminate.
    + destruct (batch_spec (OpenAI (env w) api_key) w (d :: ds) [] w eq_refl)
        as (w' & E & _).
      rewrite E. reflexivity.
  - vm_compute. repeat split; reflexivity.
Qed.

Lemma C5_isolation_per_description_witness :
  create_and_import [plain "Standup" "2024-10-31"] (fresh_world linux ["a"; "b"]) =
  (Ok tt, snd (create_and_import [plain "Standup" "2024-10-31"]
                                 (fresh_world linux ["a"; "b"]))) /\
  build_calendar (plain "Birthday" "31-10-2024") = Raise ValueError /\
  create_and_import [plain "Standup" "2024-10-31"; plain "Birthday" "31-10-2024";
                     plain "Review" "2024-11-08"]
                    (fresh_world linux ["a"; "b"]) =
  (Raise ValueError,
   snd (create_and_import [plain "Standup" "2024-10-31"]
                          (fresh_world linux ["a"; "b"]))) /\
  files (snd (create_and_import [plain "Standup" "2024-10-31"]
                                (fresh_world linux ["a"; "b"]))) =
  {[ "/tmp/tmpa.ics" := built (plain "Standup" "2024-10-31") ]} /\
  (exists w',
      @process_description table_decoders scripted_client
        ([], fresh_world linux ["a"]) "what?" = ([], w') /\
      same_disk (fresh_world linux ["a"]) w' /\
      exists title,
        dialogs w' = dialogs (fresh_world linux ["a"]) ++
                     [CriticalBox title ValueError]).
Proof.
  destruct C5_isolation_per_description as (A & B & _).
  assert (C : create_and_import [plain "Standup" "2024-10-31"]
                (fresh_world linux ["a"; "b"]) =
              (Ok tt, snd (create_and_import [plain "Standup" "2024-10-31"]
                                             (fresh_world linux ["a"; "b"]))))
    by (vm_compute; reflexivity).
  split; [exact C|]. split; [reflexivity|].
  split; [exact (A [plain "Standup" "2024-10-31"] (plain "Birthday" "31-10-2024")
                   [plain "Review" "2024-11-08"] _ _ ValueError C eq_refl)|].
  split; [vm_compute; reflexivity|].
  apply (B table_decoders); vm_compute; reflexivity.
Defined.

(** C5 as stated does not hold: a record the builder rejects is not
    isolated from its siblings.  With the rejected record first, the record
    after it is never written, though alone it is. *)
Lemma C5_counterexample :
  ~ (forall r rest w e,
        build_calendar r = Raise e ->
        files (snd (create_and_import (r :: rest) w)) =
        files (snd (create_and_import rest w))).
Proof.
  intros H.
  specialize (H (plain "Standup" "31-10-2024") [plain "Review" "2024-11-08"]
                (fresh_world linux ["a"]) ValueError eq_refl).
  assert (E : files (snd (create_and_import
                [plain "Standup" "31-10-2024"; plain "Review" "2024-11-08"]
                (fresh_world linux ["a"]))) !! "/tmp/tmpa.ics" = None)
    by (vm_compute; reflexivity).
  rewrite H in E. vm_compute in E. discriminate E.
Qed.

(** * Further properties of the code *)

(** ** [create_ics_file] of the application *)

(** X1: a calendar that is built carries the two calendar properties,
    PRODID and VERSION, and exactly one event component; the component has
    the event name as its summary and one start and one end. *)
Theorem build_calendar_one_event event cal :
  build_calendar event = Ok cal ->
  properties cal =
    [("PRODID", [vText "-//Calendar Event Generator//mxm.dk//"]);
     ("VERSION", [vText "2.0"])] /\
  exists c, subcomponents cal = [c] /\
            get c "summary" = [vText (name event)] /\
            length (get c "dtstart") = 1%nat /\ length (get c "dtend") = 1%nat.
Proof.
  intros H. rewrite build_calendar_eq in H.
  destruct (timed event) as [c|] eqn:Ec; cbn [bind] in H; [|discriminate].
  inversion H; subst cal; clear H. split; [reflexivity|].
  exists (decorated event c). split; [reflexivity|].
  rewrite !get_decorated. cbn [String.eqb Ascii.eqb Bool.eqb upper upper_char].
  change (upper "summary") with "SUMMARY".
  change (upper "dtstart") with "DTSTART". change (upper "dtend") with "DTEND".
  cbn [String.eqb Ascii.eqb Bool.eqb andb]. rewrite !andb_false_r, !app_nil_r.
  split; [exact (timed_summary event c Ec)|].
  revert Ec. unfold timed. generalize strptime. intros parse.
  destruct (parse (start_date event) date_format) as [start|]; cbn [bind]; [|discriminate].
  destruct (end_date_of event start) as [finish|]; cbn [bind]; [|discriminate].
  destruct (truthy (start_time event)).
  - destruct (parse _ datetime_format) as [s|]; cbn [bind]; [|discriminate].
    destruct (end_datetime_of event s) as [e|]; cbn [bind]; [|discriminate].
    intros H. inversion H; subst c. rewrite !get_add. split; reflexivity.
  - destruct (date_add _ _); cbn [bind]; [|discriminate].
    intros H. inversion H; subst c. rewrite !get_add. split; reflexivity.
Qed.

Lemma build_calendar_one_event_witness :
  build_calendar meeting = Ok (built meeting) /\
  properties (built meeting) =
    [("PRODID", [vText "-//Calendar Event Generator//mxm.dk//"]);
     ("VERSION", [vText "2.0"])] /\
  exists c, subcomponents (built meeting) = [c] /\
            get c "summary" = [vText (name meeting)] /\
            length (get c "dtstart") = 1%nat /\ length (get c "dtend") = 1%nat.
Proof.
  split; [vm_compute; reflexivity|].
  apply build_calendar_one_event. vm_compute; reflexivity.
Defined.

(** X2: with a start time and an end time that are read as the times
    [t] and [t'], the builder succeeds; the start is the start date at [t],
    and the end is the end date, or the start date when the record gives no
    end date, at [t'].  Nothing compares the end with the start. *)
Theorem explicit_end_time event st et d d' t t' :
  given (start_time event) = Some st ->
  given (end_time event) = Some et ->
  read_date (start_date event) = Some d ->
  match given (end_date event) with
  | Some s => read_date s
  | None => Some d
  end = Some d' ->
  read_time st = Some t ->
  read_time et = Some t' ->
  exists cal,
    build_calendar event = Ok cal /\
    emitted cal "dtstart" = [vDatetime (combine d t)] /\
    emitted cal "dtend" = [vDatetime (combine d' t')].
Proof.
  intros Hst Het Hd Hd' Ht Ht'.
  rewrite build_calendar_eq, timed_given, Hd, Hd', Hst, Ht, Het, Ht'.
  cbn [bind]. eexists. split; [reflexivity|].
  rewrite !emitted_timing by reflexivity. rewrite !get_add.
  split; reflexivity.
Qed.

Lemma explicit_end_time_witness :
  given (start_time late) = Some "23:00" /\
  given (end_time late) = Some "01:00" /\
  read_date (start_date late) = Some (mkdate 2024 10 31) /\
  given (end_date late) = None /\
  read_time "23:00" = Some (mktime 23 0 0) /\
  read_time "01:00" = Some (mktime 1 0 0) /\
  exists cal,
    build_calendar late = Ok cal /\
    emitted cal "dtstart" = [vDatetime (mkdatetime (mkdate 2024 10 31) 23 0 0 None)] /\
    emitted cal "dtend" = [vDatetime (mkdatetime (mkdate 2024 10 31) 1 0 0 None)].
Proof.
  split; [reflexivity|]. split; [reflexivity|]. split; [reflexivity|].
  split; [reflexivity|]. split; [reflexivity|]. split; [reflexivity|].
  exact (explicit_end_time late "23:00" "01:00" (mkdate 2024 10 31)
           (mkdate 2024 10 31) (mktime 23 0 0) (mktime 1 0 0)
           eq_refl eq_refl eq_refl eq_refl eq_refl eq_refl).
Defined.

(** X3: the calendar depends on the name, the two dates, the start time,
    the participants and the location only, and on the end time when the
    start time is not empty: the time zone and the content are never read,
    and the end time of an all-day record is never read. *)
Theorem build_calendar_reads event1 event2 :
  name event1 = name event2 ->
  start_date event1 = start_date event2 ->
  end_date event1 = end_date event2 ->
  start_time event1 = start_time event2 ->
  (truthy (start_time event1) = true -> end_time event1 = end_time event2) ->
  participants event1 = participants event2 ->
  location event1 = location event2 ->
  build_calendar event1 = build_calendar event2.
Proof.
  destruct event1 as [n1 sd1 ed1 st1 et1 tz1 ps1 l1 c1].
  destruct event2 as [n2 sd2 ed2 st2 et2 tz2 ps2 l2 c2].
  cbn [name start_date end_date start_time end_time participants location].
  intros -> -> -> -> Het -> ->.
  unfold build_calendar.
  cbn [name start_date end_date start_time end_time participants location].
  destruct (truthy st2); [rewrite (Het eq_refl)|]; reflexivity.
Qed.

Lemma build_calendar_reads_witness :
  build_calendar call =
  build_calendar (mkCalendarEvent "Call" "2024-10-31" None (Some "09:00") None
                                  None None None (Some "weekly call")).
Proof.
  apply build_calendar_reads; reflexivity.
Defined.

(** X4: a record in strict form is built unless it asks for a time after
    9999-12-31: an all-day record that ends on that day, or a record that
    starts at 23 hours of that day with no end time, raises
    [OverflowError]. *)
Theorem strict_record_outcome event :
  strict event = true ->
  if past_the_last_day event
  then build_calendar event = Raise OverflowError
  else is_ok (build_calendar event) = true.
Proof.
  unfold strict. intros H.
  apply andb_prop in H. destruct H as [H Het].
  apply andb_prop in H. destruct H as [H Hst].
  apply andb_prop in H. destruct H as [Hsd Hed].
  pose proof (strict_if_present_some _ _ Hsd) as [d Ed].
  destruct (or_else_strict _ _ Hsd Hed) as [d' Ed'].
  pose proof (strict_date_valid _ _ Ed) as V.
  pose proof (strict_date_valid _ _ Ed') as V'.
  rewrite build_calendar_eq.
  unfold timed, end_date_of, end_datetime_of, past_the_last_day.
  rewrite (strict_date_strptime _ _ Ed). cbn [bind].
  assert (F : (if truthy (end_date event)
               then strptime (str_of (end_date event)) date_format
               else Ok (mkdatetime d 0 0 0 None)) = Ok (mkdatetime d' 0 0 0 None)).
  { destruct (or_else_cases (end_date event) (start_date event)) as [[T E]|[T E]];
      rewrite T, E in *.
    - apply strict_date_strptime, Ed'.
    - congruence. }
  rewrite F. cbn [bind date_of dt_date].
  destruct (truthy (start_time event)) eqn:Tst.
  - apply truthy_some in Tst. destruct Tst as (st & Est & Qst). rewrite Qst.
    rewrite Est in Hst. apply strict_if_present_some in Hst. destruct Hst as [ts Hts].
    rewrite (strict_datetime_strptime _ _ _ _ Ed Hts). cbn [bind].
    rewrite Ed, Hts.
    destruct (truthy (end_time event)) eqn:Tet; cbn [negb andb].
    + apply truthy_some in Tet. destruct Tet as (et & Eet & Qet). rewrite Qet.
      rewrite Eet in Het. apply strict_if_present_some in Het. destruct Het as [te Hte].
      rewrite (strict_datetime_strptime _ _ _ _ Ed' Hte). reflexivity.
    + destruct (strict_time_range _ _ Hts) as (Rh & Rm & Rs).
      pose proof (one_hour_later d ts V Rh Rm Rs) as O.
      destruct (datetime_add (combine d ts) (hours 1)) as [e|e] eqn:A; cbn [bind is_ok] in *.
      * destruct (date_eqb d last_day && (t_hour ts =? 23)); [discriminate O|reflexivity].
      * apply datetime_add_raises in A. subst e.
        destruct (date_eqb d last_day && (t_hour ts =? 23)); [reflexivity|discriminate O].
  - rewrite Ed'. rewrite (one_day_later d' V').
    destruct (date_eqb d' last_day); reflexivity.
Qed.

Lemma strict_record_outcome_witness :
  strict (plain "Last" "9999-12-31") = true /\
  build_calendar (plain "Last" "9999-12-31") = Raise OverflowError /\
  strict late = true /\ is_ok (build_calendar late) = true.
Proof.
  split; [reflexivity|].
  split; [exact (strict_record_outcome (plain "Last" "9999-12-31") eq_refl)|].
  split; [reflexivity|].
  exact (strict_record_outcome late eq_refl).
Defined.

(** X5: the text [strftime] gives for the day of a year from 1000 on is
    read back by the builder as that day; a record with that start date, no
    end date and no start time is built as the all-day event of that day,
    unless the day is 9999-12-31. *)
Theorem reference_date_builds event today :
  valid_date today = true -> 1000 <= year today ->
  start_date event = strftime_ymd today ->
  truthy (end_date event) = false -> truthy (start_time event) = false ->
  strptime (start_date event) date_format = Ok (mkdatetime today 0 0 0 None) /\
  if date_eqb today last_day
  then build_calendar event = Raise OverflowError
  else exists cal,
      build_calendar event = Ok cal /\
      emitted cal "dtstart" = [vDate today] /\
      emitted cal "dtend" = [vDate (tomorrow today)].
Proof.
  intros V Y Es Ted Tst.
  assert (P : strptime (start_date event) date_format = Ok (mkdatetime today 0 0 0 None)).
  { rewrite Es. apply strict_date_strptime, strict_date_strftime; assumption. }
  split; [exact P|].
  rewrite build_calendar_eq. unfold timed, end_date_of.
  rewrite P, Ted, Tst. cbn [bind date_of dt_date].
  rewrite (one_day_later today V).
  destruct (date_eqb today last_day); cbn [bind]; [reflexivity|].
  eexists. split; [reflexivity|].
  rewrite !emitted_timing by reflexivity. rewrite !get_add. split; reflexivity.
Qed.

Lemma reference_date_builds_witness :
  let event := plain "Untitled Event" (strftime_ymd (today linux)) in
  valid_date (today linux) = true /\ 1000 <= year (today linux) /\
  strptime (start_date event) date_format =
    Ok (mkdatetime (today linux) 0 0 0 None) /\
  exists cal,
    build_calendar event = Ok cal /\
    emitted cal "dtstart" = [vDate (today linux)] /\
    emitted cal "dtend" = [vDate (tomorrow (today linux))].
Proof.
  cbv zeta.
  assert (Y : 1000 <= year (today linux)) by (vm_compute; discriminate).
  split; [reflexivity|]. split; [exact Y|].
  exact (reference_date_builds
           (plain "Untitled Event" (strftime_ymd (today linux))) (today linux)
           eq_refl Y eq_refl eq_refl eq_refl).
Defined.

(** X6: [create_ics_file] opens no file, shows no dialog and prints
    nothing.  When it returns, the file it names is the only file that
    changed.  When the builder raises, nothing changes.  When the temporary
    file fails, the files that hold a calendar are as before, and at most
    one new file is left, with no data: the file that was created and did
    not take the calendar, as on a disk that is full. *)
Theorem create_ics_file_frame :
  (forall event w,
      let w' := snd (create_ics_file event w) in
      env w' = env w /\ opened w' = opened w /\ dialogs w' = dialogs w /\
      stdout w' = stdout w /\
      match fst (create_ics_file event w) with
      | Ok fn =>
          (forall f, f <> fn -> files w' !! f = files w !! f) /\
          unwritten w' = unwritten w
      | Raise _ =>
          files w' = files w /\
          (unwritten w' = unwritten w \/
           exists f,
             path_exists w f = false /\ can_write (env w) f = false /\
             unwritten w' = {[f]} ∪ unwritten w)
      end) /\
  (forall event w e,
      build_calendar event = Raise e -> create_ics_file event w = (Raise e, w)) /\
  (fst (create_ics_file (plain "Standup" "2024-10-31")
                        (fresh_world full_disk ["a"])) = Raise OSError /\
   path_exists (snd (create_ics_file (plain "Standup" "2024-10-31")
                                     (fresh_world full_disk ["a"])))
               "/tmp/tmpa.ics" = true /\
   files (snd (create_ics_file (plain "Standup" "2024-10-31")
                               (fresh_world full_disk ["a"]))) = ∅).
Proof.
  split; [|split].
  - intros event w. cbv zeta. unfold create_ics_file.
    destruct (build_calendar event) as [cal|]; [|cbn; auto 10].
    unfold write_temporary_file.
    destruct (tempdir (env w)) as [dir|]; [|cbn; auto 10].
    destruct (_mkstemp_inner _ _ _ _) as [[file rest]|] eqn:E; [|cbn; auto 10].
    apply mkstemp_ok in E. destruct E as (E1 & _).
    destruct (can_create _ _); [|cbn; auto 10].
    destruct (can_write _ _) eqn:C; cbn.
    + repeat split. intros f N. apply lookup_insert_ne. congruence.
    + repeat split. right. exists file. auto.
  - intros event w e B. unfold create_ics_file. rewrite B. reflexivity.
  - split; [vm_compute; reflexivity|]. split; vm_compute; reflexivity.
Qed.

Lemma create_ics_file_frame_witness :
  build_calendar (plain "Standup" "31-10-2024") = Raise ValueError /\
  create_ics_file (plain "Standup" "31-10-2024") (fresh_world linux ["a"]) =
  (Raise ValueError, fresh_world linux ["a"]).
Proof.
  split; [reflexivity|].
  exact (proj1 (proj2 create_ics_file_frame) (plain "Standup" "31-10-2024")
           (fresh_world linux ["a"]) ValueError eq_refl).
Defined.

(** ** [import_ics_to_calendar] and the loop over the records *)

(** X7: [import_ics_to_calendar] raises [IOError] exactly when the opener
    fails, and then changes nothing.  When it returns, the file was handed
    to the opener; on macOS the file is then removed, and a file that cannot
    be removed is reported on the standard output, with no error; on the
    other platforms the file stays. *)
Theorem import_ics_to_calendar_outcome ics_filename w :
  let w' := snd (import_ics_to_calendar ics_filename w) in
  match fst (import_ics_to_calendar ics_filename w) with
  | Raise e => e = OSError /\ can_open (env w) ics_filename = false /\ w' = w
  | Ok _ =>
      can_open (env w) ics_filename = true /\
      opened w' = opened w ++ [ics_filename] /\ dialogs w' = dialogs w /\
      match host (env w) with
      | Darwin =>
          if can_remove (env w) ics_filename
          then files w' !! ics_filename = None /\ stdout w' = stdout w
          else files w' = files w /\
               stdout w' = stdout w ++ [UnableToDelete ics_filename]
      | _ => files w' = files w /\ stdout w' = stdout w
      end
  end.
Proof.
  cbv zeta. destruct (import_ics_to_calendar ics_filename w) as [[u|e] w'] eqn:E;
    cbn [fst snd].
  - apply import_ok in E. destruct E as (O & _ & O1 & O2 & O3 & O4).
    repeat split; try assumption.
    destruct (host (env w)); [|auto|auto].
    destruct (can_remove _ _); [|auto].
    split; [|assumption]. rewrite O3. apply lookup_delete_eq.
  - apply import_fail in E. tauto.
Qed.

(** X8: on macOS, when every file can be removed, a run of the loop that
    succeeds leaves the file system as it was, and has opened one file for
    each record. *)
Theorem create_and_import_macos l : forall w w',
  host (env w) = Darwin ->
  (forall f, can_remove (env w) f = true) ->
  create_and_import l w = (Ok tt, w') ->
  files w' = files w /\
  length (opened w') = (length (opened w) + length l)%nat.
Proof.
  induction l as [|r l IH]; intros w w' Hh Hr; cbn [create_and_import].
  - intros Q; inversion Q; subst. split; [reflexivity|cbn; lia].
  - destruct (create_ics_file r w) as [[fn|e] w1] eqn:E1; [|discriminate].
    apply create_ics_file_ok in E1.
    destruct E1 as (cal & _ & Fr & F1 & V1 & O1 & _ & _).
    destruct (import_ics_to_calendar fn w1) as [[u|e] w2] eqn:E2; [|discriminate].
    apply import_ok in E2. destruct E2 as (_ & V2 & O2 & _ & F2 & _).
    rewrite V1, Hh, Hr in F2.
    intros Q. apply IH in Q; [|congruence|intros f; rewrite V2, V1; apply Hr].
    destruct Q as [Q1 Q2]. split.
    + rewrite Q1, F2, F1. apply delete_insert_id, Fr.
    + rewrite Q2, O2, O1, length_app. cbn. lia.
Qed.

Lemma create_and_import_macos_witness :
  let w := fresh_world macos ["a"; "b"] in
  let l := [plain "Standup" "2024-10-31"; plain "Review" "2024-11-08"] in
  host (env w) = Darwin /\
  create_and_import l w = (Ok tt, snd (create_and_import l w)) /\
  files (snd (create_and_import l w)) = files w /\
  length (opened (snd (create_and_import l w))) = (length (opened w) + length l)%nat.
Proof.
  cbv zeta. split; [reflexivity|]. split; [vm_compute; reflexivity|].
  apply create_and_import_macos;
    [reflexivity|intros f; reflexivity|vm_compute; reflexivity].
Defined.

(** X9: on the other platforms, a run of the loop that succeeds has
    opened one new file for each record, in order; the files are pairwise
    different, none existed before, each holds the calendar of its record,
    and the files that existed are unchanged. *)
Theorem create_and_import_keeps_files l : forall w w',
  host (env w) <> Darwin ->
  create_and_import l w = (Ok tt, w') ->
  exists fns,
    opened w' = opened w ++ fns /\
    Forall2 (fun event f =>
               files w !! f = None /\
               exists cal, build_calendar event = Ok cal /\
                           files w' !! f = Some cal) l fns /\
    List.NoDup fns /\
    (forall f cal, files w !! f = Some cal -> files w' !! f = Some cal).
Proof.
  induction l as [|r l IH]; intros w w' Hh; cbn [create_and_import].
  - intros Q; inversion Q; subst. exists []. rewrite app_nil_r.
    repeat split; auto; constructor.
  - destruct (create_ics_file r w) as [[fn|e] w1] eqn:E1; [|discriminate].
    apply create_ics_file_ok in E1.
    destruct E1 as (cal & B & Fr & F1 & V1 & O1 & _ & _).
    destruct (import_ics_to_calendar fn w1) as [[u|e] w2] eqn:E2; [|discriminate].
    apply import_ok in E2. destruct E2 as (_ & V2 & O2 & _ & F2 & _).
    rewrite V1 in F2.
    assert (F2' : files w2 = files w1) by (destruct (host (env w)); congruence).
    intros Q. apply IH in Q; [|congruence].
    destruct Q as (fns & Qo & Qf & Qn & Qm).
    assert (M : forall f c, files w !! f = Some c -> files w' !! f = Some c).
    { intros f c Hf. apply Qm. rewrite F2', F1.
      rewrite lookup_insert_ne; [exact Hf|]. congruence. }
    assert (Hfn : files w' !! fn = Some cal).
    { apply Qm. rewrite F2', F1. apply lookup_insert_eq. }
    exists (fn :: fns). split; [|split; [|split]].
    + rewrite Qo, O2, O1, <- app_assoc. reflexivity.
    + constructor; [eauto|].
      eapply Forall2_impl; [exact Qf|].
      cbn beta. intros ev f (N & G). split; [|exact G].
      destruct (files w !! f) as [c|] eqn:Hf; [|reflexivity].
      assert (files w2 !! f = Some c).
      { rewrite F2', F1. rewrite lookup_insert_ne; [exact Hf|]. congruence. }
      congruence.
    + constructor; [|exact Qn].
      intros I. 
      assert (files w2 !! fn = None).
      { clear - Qf I. induction Qf as [|ev f l' fs' [N _] _ IHf]; [inversion I|].
        destruct I as [->|I]; [exact N|apply IHf, I]. }
      rewrite F2', F1, lookup_insert_eq in H. discriminate.
    + exact M.
Qed.

Lemma create_and_import_keeps_files_witness :
  let w := fresh_world linux ["a"; "b"] in
  let l := [plain "Standup" "2024-10-31"; plain "Review" "2024-11-08"] in
  let w' := snd (create_and_import l w) in
  host (env w) <> Darwin /\
  create_and_import l w = (Ok tt, w') /\
  exists fns,
    opened w' = opened w ++ fns /\
    Forall2 (fun event f =>
               files w !! f = None /\
               exists cal, build_calendar event = Ok cal /\
                           files w' !! f = Some cal) l fns /\
    List.NoDup fns /\
    (forall f cal, files w !! f = Some cal -> files w' !! f = Some cal).
Proof.
  cbv zeta. split; [discriminate|]. split; [vm_compute; reflexivity|].
  apply create_and_import_keeps_files; [discriminate|vm_compute; reflexivity].
Defined.

(** ** [CalendarEvent] and [parse_event] *)

Section FurtherExtractor.

Context `{Decoders}.

(** X10: the dictionary of a record validates as that record. *)
Theorem parse_obj_dict_of event : parse_obj (dict_of event) = Some event.
Proof.
  destruct event as [n sd ed st et tz ps loc c].
  unfold parse_obj, required_str, optional_str, optional_list_str, dict_of.
  cbn [dict_get String.eqb Ascii.eqb Bool.eqb name start_date end_date start_time
       end_time timezone participants location content].
  rewrite !str_validator_str.
  destruct ed, st, et, tz, loc, c, ps; cbn [opt_json];
    rewrite ?str_validator_str, ?list_str_map; reflexivity.
Qed.

(** X11: a key that is not a field of the model does not change what
    [parse_obj] returns. *)
Theorem parse_obj_ignores_unknown d k v :
  is_field k = false -> parse_obj (dict_set d k v) = parse_obj d.
Proof.
  intros N.
  assert (G : forall k', In k' field_names ->
                dict_get (dict_set d k v) k' = dict_get d k').
  { intros k' I. rewrite dict_get_set.
    destruct (String.eqb_spec k k') as [E|E]; [|reflexivity].
    subst k'. unfold is_field in N.
    assert (X : existsb (String.eqb k) field_names = true).
    { apply existsb_exists. exists k. split; [exact I|apply String.eqb_refl]. }
    congruence. }
  unfold parse_obj, required_str, optional_str, optional_list_str.
  rewrite !G by (unfold field_names; cbn; tauto). reflexivity.
Qed.

(** X12: after lines 139 to 142 the candidate has a name that is not
    empty and, the reference date not being empty, a start date that is not
    empty; a name or a start date that was there and not empty is kept, and
    no other key changes. *)
Theorem ensure_required_fills current_date d d' :
  ensure_required current_date (JDict d) = Ok d' ->
  missing_or_empty d' "name" = false /\
  (current_date <> "" -> missing_or_empty d' "start_date" = false) /\
  (forall k, k <> "name" -> k <> "start_date" -> dict_get d' k = dict_get d k) /\
  (missing_or_empty d "name" = false -> dict_get d' "name" = dict_get d "name") /\
  (missing_or_empty d "start_date" = false ->
   dict_get d' "start_date" = dict_get d "start_date").
Proof.
  unfold ensure_required. intros E. inversion E; subst d'; clear E.
  assert (S1 : missing_or_empty (dict_set d "name" (JStr "Untitled Event")) "start_date"
               = missing_or_empty d "start_date").
  { unfold missing_or_empty. rewrite dict_get_set. reflexivity. }
  destruct (missing_or_empty d "name") eqn:Mn;
    [rewrite S1|]; destruct (missing_or_empty d "start_date") eqn:Ms;
    (repeat split; try discriminate; intros;
     unfold missing_or_empty in *; rewrite ?dict_get_set;
     repeat match goal with
            | |- context [String.eqb ?a ?b] =>
                destruct (String.eqb_spec a b); try congruence
            end;
     cbn [negb json_truthy];
     repeat match goal with
            | |- context [String.eqb ?a ?b] =>
                destruct (String.eqb_spec a b); try congruence
            end;
     auto).
Qed.

(** X13: a candidate that is not an object raises [TypeError] out of the
    loop: [parse_event] fails as a whole, the records of the candidates
    before it are not returned, and the description is reported as an
    unexpected error. *)
Theorem candidate_not_an_object client event_description w events_data
    parsed_data events l1 v l2 :
  client (strftime_ymd (today (env w))) event_description = Ok events_data ->
  json_loads events_data = Some parsed_data ->
  events_of parsed_data = Ok events ->
  iterate events = Ok (l1 ++ v :: l2) ->
  forallb is_dict l1 = true -> is_dict v = false ->
  fst (parse_event client event_description w) = Raise TypeError /\
  extracted client w event_description = [] /\
  description_error client w event_description = Some TypeError.
Proof.
  intros Hc Hj He Hi Hd Hv.
  assert (P : fst (parse_event client event_description w) = Raise TypeError).
  { unfold parse_event. cbv zeta. rewrite Hc, Hj, He, Hi.
    apply validate_events_not_dict; assumption. }
  split; [exact P|]. split.
  - unfold extracted. rewrite P. destruct (strip_truthy _); reflexivity.
  - unfold description_error.
    destruct (parse_event client event_description w) as [[l|e] w1];
      cbn [fst] in P; [discriminate|congruence].
Qed.

(** X14: [parse_event] writes no file, opens none and shows no dialog; all
    it prints is the report of a candidate that was skipped. *)
Theorem parse_event_only_prints client event_description w :
  let w' := snd (parse_event client event_description w) in
  same_disk w w' /\ dialogs w' = dialogs w /\
  exists ls, stdout w' = stdout w ++ ls /\
             Forall (fun l => exists d, l = ErrorParsingEvent d) ls.
Proof.
  cbv zeta. destruct (parse_event_lines client event_description w) as (ls & -> & F).
  destruct (printed_fields w ls) as (P1 & P2 & P3 & P4 & P5).
  split; [apply same_disk_printed|]. split; [exact P5|].
  exists ls. split; [apply stdout_printed|exact F].
Qed.

(** ** [generate_ics] *)

(** X15: a description that is not blank shows exactly one critical
    dialog when its extraction or one of its records fails, titled by the
    class of the exception, and no dialog when all succeeds; then the last
    line printed names the description. *)
Theorem process_description_reports client all w event_description :
  strip_truthy event_description = true ->
  let w' := snd (process_description client (all, w) event_description) in
  match description_error client w event_description with
  | Some e => dialogs w' = dialogs w ++ [CriticalBox (title_of e) e]
  | None =>
      dialogs w' = dialogs w /\
      exists ls, stdout w' = ls ++ [CreatedAndOpened event_description]
  end.
Proof.
  intros S. cbv zeta. unfold process_description, description_error. rewrite S.
  destruct (parse_event_lines client event_description w) as (ls & P & _).
  destruct (parse_event client event_description w) as [[l|e] w1]; cbn [fst snd] in *.
  - pose proof (create_and_import_dialogs l w1) as D.
    destruct (create_and_import l w1) as [[u|e] w2]; cbn [fst snd] in *.
    + unfold print. cbn [dialogs stdout]. split.
      * rewrite D, P. apply printed_fields.
      * exists (stdout w2). reflexivity.
    + rewrite dialogs_handle, D, P.
      rewrite (proj2 (proj2 (proj2 (proj2 (printed_fields w ls))))). reflexivity.
  - rewrite dialogs_handle, P.
    rewrite (proj2 (proj2 (proj2 (proj2 (printed_fields w ls))))). reflexivity.
Qed.

(** X16: [generate_ics] stops with the input warning exactly when the key
    is empty, and then does nothing else: the test on the descriptions never
    fires, since [split] returns at least one line. *)
Theorem generate_ics_guard api_key event_input w :
  (fst (generate_ics api_key event_input w) = None <-> api_key = "") /\
  (api_key = "" ->
   snd (generate_ics api_key event_input w) = show w (WarningBox "Input Error")).
Proof.
  unfold generate_ics.
  pose proof (split_lines_nonempty event_input) as N.
  destruct (split_lines event_input) as [|d ds]; [contradiction|].
  destruct (String.eqb_spec api_key "") as [E|E]; cbn [orb].
  - split; [tauto|reflexivity].
  - destruct (fold_left _ _ _) as [a w']. cbn [fst]. split; [|contradiction].
    split; [discriminate|contradiction].
Qed.

(** X17: with a key, the blank lines of the input count for nothing: the
    result is that of the lines that are not blank, and an input of blank
    lines shows an empty list and changes nothing. *)
Theorem generate_ics_skips_blank_lines api_key event_input w :
  api_key <> "" ->
  generate_ics api_key event_input w =
  (let (all_parsed_events, w') :=
     fold_left (process_description (OpenAI (env w) api_key))
               (List.filter strip_truthy (split_lines event_input)) ([], w) in
   (Some all_parsed_events, w')) /\
  (List.filter strip_truthy (split_lines event_input) = [] ->
   generate_ics api_key event_input w = (Some [], w)).
Proof.
  intros K.
  assert (G : generate_ics api_key event_input w =
    (let (all_parsed_events, w') :=
       fold_left (process_description (OpenAI (env w) api_key))
                 (List.filter strip_truthy (split_lines event_input)) ([], w) in
     (Some all_parsed_events, w'))).
  { unfold generate_ics.
    pose proof (split_lines_nonempty event_input) as N.
    destruct (split_lines event_input) as [|d ds] eqn:E; [contradiction|].
    destruct (String.eqb_spec api_key ""); [contradiction|]. cbn [orb].
    rewrite fold_skips_blank. reflexivity. }
  split; [exact G|]. intros B. rewrite G, B. reflexivity.
Qed.

End FurtherExtractor.

Lemma parse_obj_ignores_unknown_witness :
  let d := [("name", JStr "Standup"); ("start_date", JStr "2024-10-31")] in
  is_field "color" = false /\
  @parse_obj table_decoders (dict_set d "color" (JStr "red")) =
  @parse_obj table_decoders d.
Proof.
  cbv zeta. split; [reflexivity|].
  apply (@parse_obj_ignores_unknown table_decoders). reflexivity.
Defined.

Lemma ensure_required_fills_witness :
  let d := [("name", JStr ""); ("location", JStr "Room 5")] in
  let d' := [("name", JStr "Untitled Event"); ("location", JStr "Room 5");
             ("start_date", JStr "2024-10-30")] in
  ensure_required "2024-10-30" (JDict d) = Ok d' /\
  missing_or_empty d' "name" = false /\
  missing_or_empty d' "start_date" = false /\
  dict_get d' "location" = dict_get d "location".
Proof.
  cbv zeta.
  pose proof (ensure_required_fills "2024-10-30"
                [("name", JStr ""); ("location", JStr "Room 5")] _ eq_refl)
    as (N & S & K & _).
  split; [reflexivity|]. split; [exact N|].
  split; [apply S; discriminate|apply K; discriminate].
Defined.

Lemma candidate_not_an_object_witness :
  let w := fresh_world linux [] in
  fst (@parse_event bare_decoders bare_client "lunch" w) = Raise TypeError /\
  @extracted bare_decoders bare_client w "lunch" = [] /\
  @description_error bare_decoders bare_client w "lunch" = Some TypeError.
Proof.
  cbv zeta.
  exact (@candidate_not_an_object bare_decoders bare_client "lunch"
           (fresh_world linux []) bare_text (JList [JDict []; JInt 5])
           (JList [JDict []; JInt 5]) [JDict []] (JInt 5) []
           eq_refl eq_refl eq_refl eq_refl eq_refl eq_refl).
Defined.

Lemma process_description_reports_witness :
  let w := fresh_world linux ["a"] in
  strip_truthy "what?" = true /\
  @description_error table_decoders scripted_client w "what?" = Some ValueError /\
  dialogs (snd (@process_description table_decoders scripted_client ([], w) "what?"))
  = dialogs w ++ [CriticalBox "Parsing Error" ValueError].
Proof.
  cbv zeta. split; [reflexivity|]. split; [reflexivity|].
  exact (@process_description_reports table_decoders scripted_client []
           (fresh_world linux ["a"]) "what?" eq_refl).
Defined.

Lemma generate_ics_guard_witness :
  let w := fresh_world linux ["a"] in
  @generate_ics table_decoders "" "standup tomorrow" w =
  (None, show w (WarningBox "Input Error")).
Proof.
  cbv zeta.
  pose proof (@generate_ics_guard table_decoders "" "standup tomorrow"
                (fresh_world linux ["a"])) as [G1 G2].
  rewrite (surjective_pairing (generate_ics _ _ _)).
  rewrite (proj2 G1 eq_refl), (G2 eq_refl). reflexivity.
Defined.

Lemma generate_ics_skips_blank_lines_witness :
  let w := fresh_world linux ["a"] in
  let blank := String "010" ("  " +:+ String "010" "　") in
  "key" <> "" /\
  List.filter strip_truthy (split_lines blank) = [] /\
  @generate_ics table_decoders "key" blank w = (Some [], w).
Proof.
  cbv zeta. split; [discriminate|]. split; [reflexivity|].
  apply (@generate_ics_skips_blank_lines table_decoders); [discriminate|reflexivity].
Defined.

(** ** [Test.py] *)

(** X18: in the prototype, a timed event that is built has the zone of
    the record on both time stamps, and the zone is a key of the zone
    database; with no zone both are naive. *)
Theorem TestPy_zone_on_both e event cal :
  truthy (TestPy.start_time event) = true ->
  TestPy.build_calendar e event = Ok cal ->
  (truthy (TestPy.timezone event) = true ->
   has_zone e (TestPy.str_of (TestPy.timezone event)) = true) /\
  exists s f,
    emitted cal "dtstart" = [vDatetime s] /\
    emitted cal "dtend" = [vDatetime f] /\
    tzinfo s = (if truthy (TestPy.timezone event)
                then TestPy.timezone event else None) /\
    tzinfo f = tzinfo s.
Proof.
  intros Hst B. split; [|exact (TestPy_timezone_attached e event cal Hst B)].
  intros Htz. revert B. unfold TestPy.build_calendar. rewrite Hst, Htz.
  generalize strptime. intros parse.
  destruct (parse (TestPy.date event) "%Y-%m-%d") as [parsed|]; cbn [bind]; [|discriminate].
  destruct (parse (TestPy.str_of (TestPy.start_time event)) "%H:%M") as [st|];
    cbn [bind]; [|discriminate].
  destruct (if truthy (TestPy.end_time event) then _ else _) as [end_datetime|];
    cbn [bind]; [|discriminate].
  destruct (ZoneInfo e _) as [z|] eqn:Z; cbn [bind]; [|discriminate].
  apply ZoneInfo_ok in Z. intros _. apply Z.
Qed.

Lemma TestPy_zone_on_both_witness :
  truthy (TestPy.start_time proto_call) = true /\
  TestPy.build_calendar linux proto_call = Ok (proto_built linux proto_call) /\
  has_zone linux "Asia/Shanghai" = true /\
  exists s f,
    emitted (proto_built linux proto_call) "dtstart" = [vDatetime s] /\
    emitted (proto_built linux proto_call) "dtend" = [vDatetime f] /\
    tzinfo s = Some "Asia/Shanghai" /\ tzinfo f = tzinfo s.
Proof.
  split; [reflexivity|]. split; [vm_compute; reflexivity|].
  pose proof (TestPy_zone_on_both linux proto_call (proto_built linux proto_call)
                eq_refl ltac:(vm_compute; reflexivity)) as [Z E].
  split; [exact (Z eq_refl)|exact E].
Defined.

(** X19: in the prototype, a record with no start time, or an empty one,
    whose date is read as the day [d] is built as the all-day event of that
    day: the start is [d], the end the next day; unless [d] is 9999-12-31,
    when the builder raises [OverflowError]. *)
Theorem TestPy_all_day e event d :
  given (TestPy.start_time event) = None ->
  read_date (TestPy.date event) = Some d ->
  if date_eqb d last_day
  then TestPy.build_calendar e event = Raise OverflowError
  else exists cal,
      TestPy.build_calendar e event = Ok cal /\
      emitted cal "dtstart" = [vDate d] /\
      emitted cal "dtend" = [vDate (tomorrow d)].
Proof.
  intros Hst Hd. unfold TestPy.build_calendar.
  rewrite (given_none _ Hst).
  change "%Y-%m-%d" with date_format. rewrite strptime_date, Hd.
  cbn [bind date_of dt_date].
  rewrite (one_day_later d (read_date_valid _ _ Hd)).
  destruct (date_eqb d last_day); cbn [bind]; [reflexivity|].
  eexists. split; [reflexivity|].
  unfold emitted, add_component, cal_add, new_calendar.
  cbn [subcomponents flat_map app fst snd]. rewrite !app_nil_r.
  destruct (truthy (TestPy.location event)), (TestPy.list_truthy (TestPy.participants event));
    rewrite ?get_add, ?get_setitem, ?get_add; cbn; auto.
Qed.

Lemma TestPy_all_day_witness :
  given (TestPy.start_time proto_party) = None /\
  read_date (TestPy.date proto_party) = Some (mkdate 2024 12 31) /\
  exists cal,
    TestPy.build_calendar linux proto_party = Ok cal /\
    emitted cal "dtstart" = [vDate (mkdate 2024 12 31)] /\
    emitted cal "dtend" = [vDate (mkdate 2025 1 1)].
Proof.
  split; [reflexivity|]. split; [reflexivity|].
  pose proof (TestPy_all_day linux proto_party (mkdate 2024 12 31)
                eq_refl eq_refl) as X.
  change (date_eqb (mkdate 2024 12 31) last_day) with false in X.
  cbv iota in X. exact X.
Defined.

(** X20: in the prototype, the end of a timed event is on the date of the
    start when the record has an end time, whatever the two times are, and
    3600 seconds after the start when it has none. *)
Theorem TestPy_timed_end e event cal :
  truthy (TestPy.start_time event) = true ->
  TestPy.build_calendar e event = Ok cal ->
  exists s f,
    emitted cal "dtstart" = [vDatetime s] /\
    emitted cal "dtend" = [vDatetime f] /\
    if truthy (TestPy.end_time event)
    then dt_date f = dt_date s
    else timeline f = timeline s + 3600.
Proof.
  intros Hst. unfold TestPy.build_calendar. rewrite Hst.
  generalize strptime. intros parse.
  destruct (parse (TestPy.date event) "%Y-%m-%d") as [parsed|]; cbn [bind]; [|discriminate].
  destruct (parse (TestPy.str_of (TestPy.start_time event)) "%H:%M") as [st|];
    cbn [bind]; [|discriminate].
  set (start_datetime := combine (date_of parsed) (time_of st)).
  assert (Hs : dt_date start_datetime = date_of parsed) by reflexivity.
  clearbody start_datetime.
  destruct (if truthy (TestPy.end_time event) then _ else _) as [end_datetime|] eqn:Ee;
    cbn [bind]; [|discriminate].
  assert (He : if truthy (TestPy.end_time event)
               then dt_date end_datetime = dt_date start_datetime
               else timeline end_datetime = timeline start_datetime + 3600).
  { destruct (truthy (TestPy.end_time event)).
    - destruct (parse _ "%H:%M"); cbn [bind] in Ee; [|discriminate].
      inversion Ee. rewrite Hs. reflexivity.
    - apply datetime_add_one_hour in Ee. tauto. }
  clear Ee.
  destruct (truthy (TestPy.timezone event)).
  - destruct (ZoneInfo e _) as [z|] eqn:Z; cbn [bind]; [|discriminate].
    apply ZoneInfo_ok in Z. destruct Z as [-> _].
    intros H. inversion H; subst cal; clear H.
    exists (replace_tzinfo start_datetime (TestPy.str_of (TestPy.timezone event))),
           (replace_tzinfo end_datetime (TestPy.str_of (TestPy.timezone event))).
    unfold emitted, add_component, cal_add, new_calendar.
    cbn [subcomponents flat_map app fst snd]. rewrite !app_nil_r.
    split; [|split].
    + destruct (truthy (TestPy.location event)), (TestPy.list_truthy (TestPy.participants event));
        rewrite ?get_add, ?get_setitem, ?get_add; cbn; auto.
    + destruct (truthy (TestPy.location event)), (TestPy.list_truthy (TestPy.participants event));
        rewrite ?get_add, ?get_setitem, ?get_add; cbn; auto.
    + destruct (truthy (TestPy.end_time event)); [exact He|].
      unfold timeline, replace_tzinfo in *. cbn [dt_date hour minute second]. exact He.
  - cbn [bind fst snd]. intros H. inversion H; subst cal; clear H.
    exists start_datetime, end_datetime.
    unfold emitted, add_component, cal_add, new_calendar.
    cbn [subcomponents flat_map app fst snd]. rewrite !app_nil_r.
    split; [|split; [|exact He]].
    + destruct (truthy (TestPy.location event)), (TestPy.list_truthy (TestPy.participants event));
        rewrite ?get_add, ?get_setitem, ?get_add; cbn; auto.
    + destruct (truthy (TestPy.location event)), (TestPy.list_truthy (TestPy.participants event));
        rewrite ?get_add, ?get_setitem, ?get_add; cbn; auto.
Qed.

Lemma TestPy_timed_end_witness :
  truthy (TestPy.start_time proto_call) = true /\
  TestPy.build_calendar linux proto_call = Ok (proto_built linux proto_call) /\
  exists s f,
    emitted (proto_built linux proto_call) "dtstart" = [vDatetime s] /\
    emitted (proto_built linux proto_call) "dtend" = [vDatetime f] /\
    timeline f = timeline s + 3600.
Proof.
  split; [reflexivity|]. split; [vm_compute; reflexivity|].
  exact (TestPy_timed_end linux proto_call (proto_built linux proto_call)
           eq_refl ltac:(vm_compute; reflexivity)).
Defined.

(** X21: in the prototype, the zone of a timed record that would be
    built without it is looked up, and the record is built only when the
    zone is loaded: a key that is an absolute path raises [ValueError], and
    so does any other key that is refused; a zone that the database does not
    have raises [ZoneInfoNotFoundError]; one that cannot be read raises an
    [OSError].  An all-day record is built as if it had no zone. *)
Theorem TestPy_zone_lookup e n d st et tz ps loc :
  tz <> "" ->
  let zoned := TestPy.mkCalendarEvent n d st et (Some tz) ps loc in
  let naive := TestPy.mkCalendarEvent n d st et None ps loc in
  if truthy st
  then is_ok (TestPy.build_calendar e naive) = true ->
       if isabs tz then TestPy.build_calendar e zoned = Raise ValueError
       else match zone_of e tz with
            | ZoneLoaded => is_ok (TestPy.build_calendar e zoned) = true
            | NoSuchZone =>
                TestPy.build_calendar e zoned = Raise ZoneInfoNotFoundError
            | BadZoneKey => TestPy.build_calendar e zoned = Raise ValueError
            | ZoneUnreadable => TestPy.build_calendar e zoned = Raise OSError
            end
  else TestPy.build_calendar e zoned = TestPy.build_calendar e naive.
Proof.
  intros Hn. cbv zeta. unfold TestPy.build_calendar.
  cbn [TestPy.name TestPy.date TestPy.start_time TestPy.end_time TestPy.timezone
       TestPy.participants TestPy.location].
  generalize strptime. intros parse.
  destruct (truthy st); [|reflexivity].
  destruct (parse d "%Y-%m-%d") as [parsed|]; cbn [bind is_ok]; [|discriminate].
  destruct (parse (TestPy.str_of st) "%H:%M") as [t|]; cbn [bind is_ok]; [|discriminate].
  destruct (if truthy et then _ else _) as [end_datetime|]; cbn [bind is_ok];
    [|discriminate].
  intros _. unfold truthy, TestPy.str_of.
  destruct (String.eqb_spec tz ""); [contradiction|]. cbn [negb].
  unfold ZoneInfo. destruct (isabs tz); [reflexivity|].
  destruct (zone_of e tz); reflexivity.
Qed.

Lemma TestPy_zone_lookup_witness :
  TestPy.build_calendar no_zones proto_call = Raise ZoneInfoNotFoundError /\
  TestPy.build_calendar some_zones
    (TestPy.mkCalendarEvent "Call" "2024-10-31" (Some "09:00") None
                            (Some "/etc/localtime") None None) =
  Raise ValueError /\
  TestPy.build_calendar some_zones
    (TestPy.mkCalendarEvent "Call" "2024-10-31" (Some "09:00") None
                            (Some "Asia") None None) =
  Raise OSError.
Proof.
  split; [|split].
  - apply (TestPy_zone_lookup no_zones "Call" "2024-10-31" (Some "09:00") None
             "Asia/Shanghai" None None ltac:(discriminate)).
    vm_compute; reflexivity.
  - apply (TestPy_zone_lookup some_zones "Call" "2024-10-31" (Some "09:00") None
             "/etc/localtime" None None ltac:(discriminate)).
    vm_compute; reflexivity.
  - apply (TestPy_zone_lookup some_zones "Call" "2024-10-31" (Some "09:00") None
             "Asia" None None ltac:(discriminate)).
    vm_compute; reflexivity.
Defined.

(** X22: in the prototype, the attendees are the participants as they
    are, with no MAILTO: before them, and the location is there when it is
    not empty. *)
Theorem TestPy_attendees_raw e event cal :
  TestPy.build_calendar e event = Ok cal ->
  emitted cal "attendee" = map PyStr (default [] (TestPy.participants event)) /\
  emitted cal "location" =
  (if truthy (TestPy.location event)
   then [vText (TestPy.str_of (TestPy.location event))] else []).
Proof.
  unfold TestPy.build_calendar. generalize strptime. intros parse.
  destruct (parse (TestPy.date event) "%Y-%m-%d") as [parsed|]; cbn [bind]; [|discriminate].
  match goal with
  | |- (try! c := ?m in _) = _ -> _ =>
      assert (B : forall c, m = Ok c ->
                    get c "attendee" = [] /\ get c "location" = []);
      [|destruct m as [c|]; cbn [bind]; [specialize (B c eq_refl)|discriminate]]
  end.
  { intros c. destruct (truthy (TestPy.start_time event)).
    - destruct (parse _ "%H:%M") as [t|]; cbn [bind]; [|discriminate].
      destruct (if truthy (TestPy.end_time event) then _ else _); cbn [bind];
        [|discriminate].
      destruct (if truthy (TestPy.timezone event) then _ else _) as [z|]; cbn [bind];
        [|discriminate].
      intros Q; inversion Q; subst c. rewrite !get_add. split; reflexivity.
    - destruct (date_add _ _); cbn [bind]; [|discriminate].
      intros Q; inversion Q; subst c. rewrite !get_add. split; reflexivity. }
  destruct B as [B1 B2].
  intros Q. inversion Q; subst cal; clear Q.
  unfold emitted, add_component, cal_add, new_calendar.
  cbn [subcomponents flat_map app fst snd]. rewrite !app_nil_r.
  destruct (TestPy.participants event) as [[|p ps]|];
    cbn [TestPy.list_truthy default map];
    destruct (truthy (TestPy.location event));
    rewrite ?get_add, ?get_setitem; cbn [upper upper_char String.eqb];
    change (upper "location") with "LOCATION";
    change (upper "attendee") with "ATTENDEE";
    cbn [String.eqb Ascii.eqb Bool.eqb]; rewrite ?B1, ?B2; auto.
Qed.

Lemma TestPy_attendees_raw_witness :
  TestPy.build_calendar linux proto_party = Ok (proto_built linux proto_party) /\
  emitted (proto_built linux proto_party) "attendee" =
    [PyStr "a@example.com"; PyStr "b@example.com"] /\
  emitted (proto_built linux proto_party) "location" = [vText "Room 5"].
Proof.
  split; [vm_compute; reflexivity|].
  apply (TestPy_attendees_raw linux proto_party). vm_compute; reflexivity.
Defined.

(** X23: the prototype does not look for an existing file: a second
    record with the file name of the first replaces its calendar, and no
    other file changes. *)
Theorem TestPy_overwrites event1 event2 w fn1 w1 fn2 w2 :
  TestPy.create_ics_file event1 w = (Ok fn1, w1) ->
  TestPy.create_ics_file event2 w1 = (Ok fn2, w2) ->
  TestPy.filename_of (env w) event1 = TestPy.filename_of (env w) event2 ->
  fn2 = fn1 /\
  (exists cal, TestPy.build_calendar (env w) event2 = Ok cal /\
               files w2 !! fn1 = Some cal) /\
  forall f, f <> fn1 -> files w2 !! f = files w !! f.
Proof.
  intros C1 C2 E.
  apply TestPy_create_ok in C1. destruct C1 as (cal1 & _ & N1 & F1 & V1).
  apply TestPy_create_ok in C2. destruct C2 as (cal2 & B2 & N2 & F2 & _).
  rewrite V1 in B2, N2.
  assert (Q : fn2 = fn1) by congruence. rewrite Q in F2. clear N2.
  split; [exact Q|]. split.
  - exists cal2. split; [exact B2|]. rewrite F2. apply lookup_insert_eq.
  - intros f N. rewrite F2, F1, !lookup_insert_ne by congruence. reflexivity.
Qed.

Lemma TestPy_overwrites_witness :
  let e1 := TestPy.mkCalendarEvent "team sync" "2024-10-31" None None None None None in
  let e2 := TestPy.mkCalendarEvent "team_sync" "2024-10-31" None None None None None in
  let w := fresh_world linux [] in
  let w1 := snd (TestPy.create_ics_file e1 w) in
  let w2 := snd (TestPy.create_ics_file e2 w1) in
  let fn := "/app/team_sync_2024-10-31.ics" in
  TestPy.create_ics_file e1 w = (Ok fn, w1) /\
  TestPy.create_ics_file e2 w1 = (Ok fn, w2) /\
  fn = fn /\
  (exists cal, TestPy.build_calendar (env w) e2 = Ok cal /\
               files w2 !! fn = Some cal) /\
  forall f, f <> fn -> files w2 !! f = files w !! f.
Proof.
  cbv zeta.
  set (e1 := TestPy.mkCalendarEvent "team sync" "2024-10-31" None None None None None).
  set (e2 := TestPy.mkCalendarEvent "team_sync" "2024-10-31" None None None None None).
  set (w := fresh_world linux []).
  set (w1 := snd (TestPy.create_ics_file e1 w)).
  set (w2 := snd (TestPy.create_ics_file e2 w1)).
  assert (C1 : TestPy.create_ics_file e1 w = (Ok "/app/team_sync_2024-10-31.ics", w1))
    by (vm_compute; reflexivity).
  assert (C2 : TestPy.create_ics_file e2 w1 = (Ok "/app/team_sync_2024-10-31.ics", w2))
    by (vm_compute; reflexivity).
  split; [exact C1|]. split; [exact C2|].
  exact (TestPy_overwrites e1 e2 w _ w1 _ w2 C1 C2 eq_refl).
Defined.


